(** * urban_api: territory hierarchy queries, projects and GeoJSON schemas

    A shallow embedding of
      - [urban_api/schemas/geometries.py]  (Crs, Geometry, Feature),
      - [urban_api/logic/projects.py]      (project / project-territory logic),
      - [urban_api/logic/territories.py]   (territory queries),
    together with the properties of these functions that the specification
    states.

    Conventions.  Python values of type [Any] are the inductive [Any]; a
    [dict[str, Any]] is a [gmap string Any]; [str] is [string] (ASCII
    characters); a raised exception is [Raise e] in the [Result] monad.  A
    database table is the list of its rows; a statement is executed by a
    function over those lists.  The evaluation of a recursive CTE takes a
    number of steps as fuel, and [None] stands for an evaluation that has
    not ended within it. *)

From Stdlib Require Import ZArith QArith List String Ascii Bool Lia.
From stdpp Require Import base gmap strings list fin_maps.

Set Warnings "-register-all".
#[local] Open Scope string_scope.
#[local] Open Scope Z_scope.

(** ** Exceptions and results *)

Inductive Exception :=
| HTTPException (status_code : Z) (detail : string)
| KeyError (key : string)
| ValueError (message : string)
| TypeError
| IndexError
| ValidationError
| ArgumentError
| JSONDecodeError
| NoResultFound
| MultipleResultsFound
| IntegrityError
| DBAPIError.

Inductive Result (A : Type) :=
| Ok (a : A)
| Raise (e : Exception).
Arguments Ok {A} a.
Arguments Raise {A} e.

Definition bind {A B} (r : Result A) (k : A -> Result B) : Result B :=
  match r with
  | Ok a => k a
  | Raise e => Raise e
  end.

#[global] Instance result_fmap : FMap Result :=
  fun A B f r =>
    match r with
    | Ok a => Ok (f a)
    | Raise e => Raise e
    end.

Notation "x <- r ;; k" := (bind r (fun x => k))
  (at level 100, r at next level, right associativity).

(** [try: body except Exception: raise e] *)
Definition try_except {A} (body : Result A) (e : Exception) : Result A :=
  match body with
  | Ok a => Ok a
  | Raise _ => Raise e
  end.

(** The specification's [NotFoundError] is the 404 response of the code. *)
Definition is_not_found {A} (r : Result A) : bool :=
  match r with
  | Raise (HTTPException 404 _) => true
  | _ => false
  end.

(** ** Python values *)

Inductive Any :=
| PyNone
| PyBool (b : bool)
| PyInt (z : Z)
| PyFloat (q : Q)
| PyStr (s : string)
| PyList (l : list Any)
| PyDict (d : gmap string Any).

(** [value is not None] *)
Definition is_not_None (v : Any) : bool :=
  match v with
  | PyNone => false
  | _ => true
  end.

(** *** [str] operations used by the code *)

Definition colon : ascii := ":"%char.

(** [":" in name] *)
Fixpoint contains_colon (s : string) : bool :=
  match s with
  | EmptyString => false
  | String c s' => Ascii.eqb c colon || contains_colon s'
  end.

(** [name.rindex(":")]: the highest index holding a colon. *)
Fixpoint rindex_colon (s : string) : option nat :=
  match s with
  | EmptyString => None
  | String c s' =>
      match rindex_colon s' with
      | Some i => Some (S i)
      | None => if Ascii.eqb c colon then Some O else None
      end
  end.

(** [s[n:]] *)
Fixpoint slice_from (n : nat) (s : string) : string :=
  match n, s with
  | O, _ => s
  | S n', EmptyString => EmptyString
  | S n', String _ s' => slice_from n' s'
  end.

(** *** [int(str)]

    Base-10 conversion as CPython 3.11 does it ([PyLong_FromString]).  A
    character stands for the code point of its number.  Leading whitespace
    is skipped: the characters 9 to 13 and 32 and, above 127, the Unicode
    spaces 133 and 160.  One sign is allowed.  Then the digit characters
    and underscores that follow are scanned: they must be decimal digits
    separated by single underscores; more than [int_max_str_digits] digits,
    leading zeros counted, are refused (the default limit of
    [sys.int_info]); after them only whitespace may follow. *)

Definition is_space (c : ascii) : bool :=
  let n := nat_of_ascii c in
  ((9 <=? n) && (n <=? 13) || (n =? 32) || (n =? 133) || (n =? 160))%nat.

Definition digit_value (c : ascii) : option Z :=
  let n := nat_of_ascii c in
  if ((48 <=? n) && (n <=? 57))%nat then Some (Z.of_nat (n - 48)) else None.

Fixpoint lstrip (s : list ascii) : list ascii :=
  match s with
  | c :: s' => if is_space c then lstrip s' else s
  | [] => []
  end.

(** The sign, if any: whether it is a minus, and the text after it. *)
Definition read_sign (s : list ascii) : bool * list ascii :=
  match s with
  | c :: s' =>
      if Ascii.eqb c "-"%char then (true, s')
      else if Ascii.eqb c "+"%char then (false, s')
      else (false, s)
  | [] => (false, [])
  end.

(** The scan: the digit characters and underscores at the start of the
    text, and what follows them. *)
Fixpoint scan (s : list ascii) : list ascii * list ascii :=
  match s with
  | c :: s' =>
      if match digit_value c with
         | Some _ => true
         | None => Ascii.eqb c "_"%char
         end
      then let scanned := scan s' in (c :: scanned.1, scanned.2)
      else ([], s)
  | [] => ([], [])
  end.

(** The value of the scanned characters; [prev_digit] tells whether the
    previous character was a digit, which is when an underscore or the end
    is allowed. *)
Fixpoint parse_digits (acc : Z) (prev_digit : bool) (s : list ascii) : option Z :=
  match s with
  | [] => if prev_digit then Some acc else None
  | c :: s' =>
      match digit_value c with
      | Some d => parse_digits (10 * acc + d) true s'
      | None =>
          if Ascii.eqb c "_"%char && prev_digit
          then parse_digits acc false s'
          else None
      end
  end.

Definition int_max_str_digits : nat := 4300.

(** The digit characters among the scanned ones; underscores do not count. *)
Definition count_digits (s : list ascii) : nat :=
  length (filter (fun c => is_Some (digit_value c)) s).

Definition py_int (s : string) : Result Z :=
  let signed := read_sign (lstrip (list_ascii_of_string s)) in
  let scanned := scan signed.2 in
  match parse_digits 0 false scanned.1 with
  | None => Raise (ValueError "invalid literal for int() with base 10")
  | Some z =>
      if (int_max_str_digits <? count_digits scanned.1)%nat
      then Raise (ValueError "Exceeds the limit (4300 digits) for integer string conversion")
      else match lstrip scanned.2 with
           | [] => Ok (if signed.1 then - z else z)
           | _ => Raise (ValueError "invalid literal for int() with base 10")
           end
  end.

(** The value of a string of decimal digits. *)
Definition is_digit (c : ascii) : Prop := is_Some (digit_value c).

Definition decimal (digits : list ascii) : Z :=
  fold_left (fun acc c => 10 * acc + default 0 (digit_value c)) digits 0.

(** ** schemas/geometries.py *)

Module Crs.

Record t := { type : string; properties : gmap string Any }.

(** [self.properties["name"]] is read before the [try]; every exception of
    the conversion is replaced by the [ValueError] of the handler. *)
Definition code (self : t) : Result Z :=
  match properties self !! "name" with
  | None => Raise (KeyError "name")
  | Some name =>
      try_except
        match name with
        | PyStr name =>
            if contains_colon name
            then match rindex_colon name with
                 | Some i => py_int (slice_from (i + 1) name)
                 | None => Raise (ValueError "substring not found")
                 end
            else py_int name
        | _ => Raise TypeError
        end
        (ValueError "something wrong with crs name")
  end.

(** The CRS of the given name, as [crs_4326] and [crs_3857] are built. *)
Definition named (name : string) : t :=
  {| type := "name"; properties := {[ "name" := PyStr name ]} |}.

Definition crs_4326 : t := named "urn:ogc:def:crs:EPSG:4326".
Definition crs_3857 : t := named "urn:ogc:def:crs:EPSG:3857".

(** What [code] does with the text it converts: the integer, or the
    [ValueError] of its handler. *)
Definition int_or_invalid (text : string) : Result Z :=
  try_except (py_int text) (ValueError "something wrong with crs name").

End Crs.

Module Geometry.

(** [Literal["Point", "Polygon", "MultiPolygon", "LineString"]] *)
Inductive GeometryType := Point | Polygon | MultiPolygon | LineString.

Definition type_name (ty : GeometryType) : string :=
  match ty with
  | Point => "Point"
  | Polygon => "Polygon"
  | MultiPolygon => "MultiPolygon"
  | LineString => "LineString"
  end.

Record t := { type : GeometryType; coordinates : list Any }.

Definition pair_of (x y : Q) : Any := PyList [PyFloat x; PyFloat y].

Definition default_coordinates : list Any :=
  [PyList [pair_of 30.22 59.86; pair_of 30.22 59.85; pair_of 30.25 59.85;
           pair_of 30.25 59.86; pair_of 30.22 59.86]].

(** Validation of the field [type]: one of the four literals. *)
Definition validate_type (v : Any) : Result GeometryType :=
  match v with
  | PyStr s =>
      if String.eqb s "Point" then Ok Point
      else if String.eqb s "Polygon" then Ok Polygon
      else if String.eqb s "MultiPolygon" then Ok MultiPolygon
      else if String.eqb s "LineString" then Ok LineString
      else Raise ValidationError
  | _ => Raise ValidationError
  end.

(** Validation of the field [coordinates : list[Any]]: any list. *)
Definition validate_coordinates (v : Any) : Result (list Any) :=
  match v with
  | PyList l => Ok l
  | _ => Raise ValidationError
  end.

(** Construction of the model from the fields of a tagged coordinate
    structure; an absent field takes its default. *)
Definition parse (raw : gmap string Any) : Result t :=
  ty <- match raw !! "type" with
        | Some v => validate_type v
        | None => Ok Polygon
        end ;;
  cs <- match raw !! "coordinates" with
        | Some v => validate_coordinates v
        | None => Ok default_coordinates
        end ;;
  Ok {| type := ty; coordinates := cs |}.

(** The tagged coordinate structure with the given tag and payload. *)
Definition tagged (ty : GeometryType) (payload : list Any) : gmap string Any :=
  {[ "type" := PyStr (type_name ty); "coordinates" := PyList payload ]}.

Section Shapely.

(** The geometry engine: its values and its four constructors. *)
Variable Shape : Type.
Variable shapely_Point : list Any -> Result Shape.
Variable shapely_Polygon : Any -> Result Shape.
Variable shapely_MultiPolygon : list Any -> Result Shape.
Variable shapely_LineString : list Any -> Result Shape.

(** [as_shapely_geometry]: the private attribute [_shapely_geom] is the
    first argument, its new value the second component of the result. *)
Definition as_shapely_geometry (_shapely_geom : option Shape) (self : t)
  : Result (Shape * option Shape) :=
  match _shapely_geom with
  | Some g => Ok (g, Some g)
  | None =>
      g <- match type self with
           | Point => shapely_Point (coordinates self)
           | Polygon =>
               match coordinates self with
               | ring :: _ => shapely_Polygon ring
               | [] => Raise IndexError
               end
           | MultiPolygon => shapely_MultiPolygon (coordinates self)
           | LineString => shapely_LineString (coordinates self)
           end ;;
      Ok (g, Some g)
  end.

End Shapely.

(** *** The payload shapes of the specification

    Point: [[x, y]]; Polygon: [[[[x, y], ...]]], the outer ring only;
    MultiPolygon: a list of polygons; LineString: a list of points.  The code
    has no such check; the predicate states what the specification calls a
    payload that matches its tag. *)

Definition is_number (v : Any) : bool :=
  match v with
  | PyInt _ | PyFloat _ => true
  | _ => false
  end.

Definition is_position (v : Any) : bool :=
  match v with
  | PyList [x; y] => is_number x && is_number y
  | _ => false
  end.

Definition is_positions (v : Any) : bool :=
  match v with
  | PyList ps => forallb is_position ps
  | _ => false
  end.

Definition is_polygon_payload (v : Any) : bool :=
  match v with
  | PyList [ring] => is_positions ring
  | _ => false
  end.

Definition shape_matches (ty : GeometryType) (payload : list Any) : bool :=
  match ty with
  | Point => is_position (PyList payload)
  | Polygon => is_polygon_payload (PyList payload)
  | MultiPolygon => forallb is_polygon_payload payload
  | LineString => is_positions (PyList payload)
  end.

End Geometry.

Module Feature.

Record t := { geometry : Geometry.t; properties : gmap string Any }.

Section Json.

(** [json.loads] *)
Variable json_loads : string -> Result Any.

(** [cls(geometry=geometry, properties=properties)]: the field [geometry] is
    validated into a [Geometry]; [properties] is unconstrained. *)
Definition make (geometry : Any) (properties : gmap string Any) : Result t :=
  match geometry with
  | PyDict raw =>
      g <- Geometry.parse raw ;;
      Ok {| geometry := g; properties := properties |}
  | _ => Raise ValidationError
  end.

(** [if isinstance(geometry, str): geometry = json.loads(geometry)] *)
Definition decode_geometry (geometry : Any) : Result Any :=
  match geometry with
  | PyStr text => json_loads text
  | _ => Ok geometry
  end.

(** [{name: value for name, value in properties.items() if value is not None}] *)
Definition drop_nulls (properties : gmap string Any) : gmap string Any :=
  filter (fun item => is_not_None item.2 = true) properties.

Definition from_dict (feature : gmap string Any) (geometry_column : string)
  (include_nulls : bool) : Result t :=
  let properties := feature in
  let properties := if negb include_nulls then drop_nulls properties else properties in
  match properties !! geometry_column with
  | None => Raise (KeyError geometry_column)
  | Some geometry =>
      let properties := delete geometry_column properties in
      geometry <- decode_geometry geometry ;;
      make geometry properties
  end.

(** A pandas [Series] is used through [to_dict] only. *)
Record Series := { to_dict : gmap string Any }.

Definition from_series (series : Series) (geometry_column : string)
  (include_nulls : bool) : Result t :=
  let properties := to_dict series in
  let properties := if negb include_nulls then drop_nulls properties else properties in
  match properties !! geometry_column with
  | None => Raise (KeyError geometry_column)
  | Some geometry =>
      let properties := delete geometry_column properties in
      geometry <- decode_geometry geometry ;;
      make geometry properties
  end.

Definition from_row (row : gmap string Any) (geometry_column : string)
  (include_nulls : bool) : Result t :=
  match row !! geometry_column with
  | None => Raise (KeyError geometry_column)
  | Some geometry =>
      geometry <- decode_geometry geometry ;;
      let properties :=
        if include_nulls
        then filter (fun item => item.1 <> geometry_column) row
        else filter (fun item => item.1 <> geometry_column /\ is_not_None item.2 = true) row in
      make geometry properties
  end.

End Json.

End Feature.

(** [GeoJSONResponse]: the classmethod [from_list].  [from_df] goes through
    pandas and is not modelled. *)
Module GeoJSONResponse.

Record t := { crs : Crs.t; features : list Feature.t }.

(** An item of the argument [features] of [from_list]: a dict, or a [Row]
    of a result, which [from_row] reads through [row[name]] and
    [row.keys()], as a mapping of its columns. *)
Inductive Item :=
| Mapping (fields : gmap string Any)
| Row (columns : gmap string Any).

(** The argument itself, an [Iterable]: a sequence, from which every [iter]
    reads anew, or an iterator, which [iter] returns as it is, so that an
    item taken by [next] is not seen again. *)
Inductive Iterable :=
| Sequence (items : list Item)
| Iterator (items : list Item).

(** [next(iter(features), None)] *)
Definition next_iter (features : Iterable) : option Item :=
  match features with
  | Sequence items | Iterator items => head items
  end.

(** The items that [for feature in features] gets after that call. *)
Definition remaining (features : Iterable) : list Item :=
  match features with
  | Sequence items => items
  | Iterator items => tail items
  end.

(** [isinstance(item, Row)], for an item or the default [None] *)
Definition isinstance_Row (item : option Item) : bool :=
  match item with
  | Some (Row _) => true
  | _ => false
  end.

(** A list comprehension whose element expression may raise. *)
Fixpoint comprehension {A B} (f : A -> Result B) (l : list A) : Result (list B) :=
  match l with
  | [] => Ok []
  | a :: l' => b <- f a ;; bs <- comprehension f l' ;; Ok (b :: bs)
  end.

Section Json.

Variable json_loads : string -> Result Any.

(** [dict(row)] for a [Row], the first statement of [from_dict] when it is
    given one: it is SQLAlchemy's, and depends on the version installed (a
    mapping of the columns, or an error for a row that is a plain tuple). *)
Variable dict_of_row : gmap string Any -> Result (gmap string Any).

(** [Feature.from_row(feature, ...)]: a dict has [keys] and is indexed by
    name as a row is. *)
Definition call_from_row (feature : Item) (geometry_column : string)
  (include_nulls : bool) : Result Feature.t :=
  match feature with
  | Mapping fields => Feature.from_row json_loads fields geometry_column include_nulls
  | Row columns => Feature.from_row json_loads columns geometry_column include_nulls
  end.

(** [Feature.from_dict(feature, ...)] *)
Definition call_from_dict (feature : Item) (geometry_column : string)
  (include_nulls : bool) : Result Feature.t :=
  match feature with
  | Mapping fields => Feature.from_dict json_loads fields geometry_column include_nulls
  | Row columns =>
      fields <- dict_of_row columns ;;
      Feature.from_dict json_loads fields geometry_column include_nulls
  end.

(** [Feature.from_row if isinstance(next(iter(features), None), Row)
     else Feature.from_dict] *)
Definition func (first : option Item) : Item -> string -> bool -> Result Feature.t :=
  if isinstance_Row first then call_from_row else call_from_dict.

Definition from_list (features : Iterable) (geometry_field : string) (crs : Crs.t)
  (include_nulls : bool) : Result t :=
  let func := func (next_iter features) in
  features <- comprehension (fun feature => func feature geometry_field include_nulls)
                (remaining features) ;;
  Ok {| crs := crs; features := features |}.

End Json.

End GeoJSONResponse.

(** ** Stateful code

    A function that uses the connection threads its state and may raise. *)

Definition StateResult (S A : Type) : Type := S -> Result A * S.

Definition ret {S A} (a : A) : StateResult S A := fun st => (Ok a, st).
Definition raise {S A} (e : Exception) : StateResult S A := fun st => (Raise e, st).
Definition bindM {S A B} (m : StateResult S A) (k : A -> StateResult S B)
  : StateResult S B :=
  fun st =>
    match m st with
    | (Ok a, st') => k a st'
    | (Raise e, st') => (Raise e, st')
    end.
Definition lift {S A} (r : Result A) : StateResult S A := fun st => (r, st).

Notation "x <~ m ;; k" := (bindM m (fun x => k))
  (at level 100, m at next level, right associativity).
Notation "m ;;; k" := (bindM m (fun _ => k))
  (at level 100, right associativity).

(** ** Result sets

    The rows a statement yields, and the accessors of SQLAlchemy's result
    object that the code uses. *)

(** [.one()] *)
Definition one {A} (rows : list A) : Result A :=
  match rows with
  | [] => Raise NoResultFound
  | [r] => Ok r
  | _ => Raise MultipleResultsFound
  end.

(** [.one_or_none()] *)
Definition one_or_none {A} (rows : list A) : Result (option A) :=
  match rows with
  | [] => Ok None
  | [r] => Ok (Some r)
  | _ => Raise MultipleResultsFound
  end.

(** [.first()] *)
Definition first {A} (rows : list A) : option A := head rows.

(** ** logic/projects.py *)

Module projects_data.

(** The columns are [Integer], [String(n)], [Boolean] and [TIMESTAMP]; what
    a statement writes to them is checked where it is executed
    ([Projects.typed]). *)
Record row := {
  project_id : Z;
  user_id : Z;
  name : string;
  project_territory_id : Z;
  description : option string;
  public : bool;
  image_url : option string;
  created_at : Z;
  updated_at : Z
}.

End projects_data.

Module projects_territory_data.

(** [properties] is a JSONB column: it holds any JSON value.  The types of
    the other columns are checked where a statement is executed
    ([Projects.typed]). *)
Record row (Geom : Type) := {
  project_territory_id : Z;
  parent_id : option Z;
  geometry : Geom;
  centre_point : Geom;
  properties : Any
}.
Arguments project_territory_id {Geom} r.
Arguments parent_id {Geom} r.
Arguments geometry {Geom} r.
Arguments centre_point {Geom} r.
Arguments properties {Geom} r.

End projects_territory_data.

Module Projects.

Inductive Table := projects_data_table | projects_territory_data_table.

(** The statements the connection is asked to execute. *)
Inductive Statement :=
| Select (table : Table)
| Insert (table : Table)
| Update (table : Table)
| Delete (table : Table).

(** *** The column types of the two tables

    [Integer] is a 32-bit integer, [String(n)] a text of at most [n]
    characters and [Geometry("POINT")] a point.  The driver or the database
    refuses a value that does not fit its column, with [DBAPIError]. *)
Definition int32 (z : Z) : bool := (-2147483648 <=? z) && (z <=? 2147483647).

Definition varchar (n : nat) (s : string) : bool := (String.length s <=? n)%nat.

Definition nullable_fits {A} (fits : A -> bool) (value : option A) : bool :=
  match value with
  | Some a => fits a
  | None => true
  end.

Definition is_point (ty : Geometry.GeometryType) : bool :=
  match ty with
  | Geometry.Point => true
  | _ => false
  end.

(** The columns of [projects_data] that a request sets. *)
Definition project_columns_fit (user_id : Z) (name : string)
  (description image_url : option string) : bool :=
  int32 user_id && varchar 200 name && nullable_fits (varchar 600) description
  && nullable_fits (varchar 200) image_url.

(** The columns [parent_id] and [centre_point] of [projects_territory_data];
    [geometry] takes a geometry of any type. *)
Definition territory_columns_fit (parent_id : option Z)
  (centre_point : Geometry.GeometryType) : bool :=
  nullable_fits int32 parent_id && is_point centre_point.

Section Engine.

(** Stored geometries, the conversion used for writes,
    [ST_GeomFromText(str(g.as_shapely_geometry()), text("4326"))], and the
    one used for reads, [cast(ST_AsGeoJSON(column), JSONB)]. *)
Context {Geom : Type}.
Variable native : Geometry.t -> Result Geom.
Variable ST_AsGeoJSON : Geom -> Any.

Record Db := {
  projects : list projects_data.row;
  projects_territory : list (projects_territory_data.row Geom)
}.

(** A connection: the tables as the open transaction sees them, the tables
    as of the last commit, and the statements executed so far. *)
Record Conn := {
  tables : Db;
  committed : Db;
  executed : list Statement
}.

Definition M : Type -> Type := StateResult Conn.

Definition log (s : Statement) : M unit :=
  fun conn => (Ok tt, {| tables := tables conn; committed := committed conn;
                         executed := executed conn ++ [s] |}).

Definition read : M Db := fun conn => (Ok (tables conn), conn).

Definition write (db : Db) : M unit :=
  fun conn => (Ok tt, {| tables := db; committed := committed conn;
                         executed := executed conn |}).

(** [await conn.commit()] *)
Definition commit : M unit :=
  fun conn => (Ok tt, {| tables := tables conn; committed := tables conn;
                         executed := executed conn |}).

(** [select(projects_data).where(projects_data.c.project_id == project_id)] *)
Definition select_project (project_id : Z) : M (list projects_data.row) :=
  log (Select projects_data_table) ;;;
  db <~ read ;;
  ret (filter (fun r => projects_data.project_id r = project_id) (projects db)).

(** A statement whose values do not fit their columns is refused. *)
Definition typed (fits : bool) : M unit :=
  if fits then ret tt else raise DBAPIError.

(** The same select executed outside a [try], as [delete_project_from_db],
    [put_project_to_db] and [patch_project_to_db] do: a [project_id] out of
    the range of the column is refused when it is bound.  The keys of stored
    rows are in that range, so a select that finds a row was given one. *)
Definition select_requested_project (project_id : Z) : M (list projects_data.row) :=
  rows <~ select_project project_id ;;
  match rows with
  | [] => typed (int32 project_id) ;;; ret []
  | _ => ret rows
  end.

Record ProjectTerritoryDTO := {
  dto_project_territory_id : Z;
  dto_parent_id : option Z;
  dto_geometry : Any;
  dto_centre_point : Any;
  dto_properties : Any
}.

(** The projection of [get_project_territory_by_id_from_db]. *)
Definition select_project_territory (project_territory_id : Z)
  : M (list ProjectTerritoryDTO) :=
  log (Select projects_territory_data_table) ;;;
  db <~ read ;;
  ret (map (fun r =>
              {| dto_project_territory_id := projects_territory_data.project_territory_id r;
                 dto_parent_id := projects_territory_data.parent_id r;
                 dto_geometry := ST_AsGeoJSON (projects_territory_data.geometry r);
                 dto_centre_point := ST_AsGeoJSON (projects_territory_data.centre_point r);
                 dto_properties := projects_territory_data.properties r |})
           (filter (fun r => projects_territory_data.project_territory_id r
                             = project_territory_id)
                   (projects_territory db))).

(** [ProjectDTO] is built from every column of a [projects_data] row. *)
Definition ProjectDTO : Type := projects_data.row.

Definition not_found {A} (detail : string) : M A :=
  raise (HTTPException 404 detail).

(** The select is executed inside the [try]: whatever it raises, the refusal
    of a [project_id] out of range included, becomes the 404 response, as
    the absence of a row does. *)
Definition get_project_by_id_from_db (project_id : Z) : M ProjectDTO :=
  rows <~ select_project project_id ;;
  lift (try_except (one rows) (HTTPException 404 "Given id is not found")).

(** The DTO is built from [result] unpacked as keyword arguments; unpacking
    [None] is a [TypeError]. *)
Definition unpack_mapping {A} (result : option A) : Result A :=
  match result with
  | Some r => Ok r
  | None => Raise TypeError
  end.

Definition get_project_territory_by_id_from_db (project_id : Z)
  : M ProjectTerritoryDTO :=
  rows <~ select_project project_id ;;
  result_for_project <~
    lift (try_except (one rows)
            (HTTPException 404 "Given id is not found in projects_data")) ;;
  rows <~ select_project_territory
            (projects_data.project_territory_id result_for_project) ;;
  result <~
    lift (try_except (one_or_none rows)
            (HTTPException 404 "Given id is not found in projects_territory_data")) ;;
  lift (unpack_mapping result).

(** *** The constraints the two tables declare

    The keys ([primary_key=True]) and the foreign keys of
    [projects_data.project_territory_id] and
    [projects_territory_data.parent_id], both to
    [projects_territory_data.project_territory_id]. *)
Definition territory_ids (db : Db) : list Z :=
  map projects_territory_data.project_territory_id (projects_territory db).

Definition references (ids : list Z) (parent : option Z) : Prop :=
  match parent with
  | Some id => In id ids
  | None => True
  end.

#[global] Instance references_dec (ids : list Z) (parent : option Z)
  : Decision (references ids parent) :=
  match parent with
  | Some id => in_dec Z.eq_dec id ids
  | None => left I
  end.

Definition consistent (db : Db) : Prop :=
  NoDup (map projects_data.project_id (projects db))
  /\ NoDup (territory_ids db)
  /\ Forall (fun r => references (territory_ids db)
                        (Some (projects_data.project_territory_id r)))
       (projects db)
  /\ Forall (fun t => references (territory_ids db)
                        (projects_territory_data.parent_id t))
       (projects_territory db).

#[global] Instance consistent_dec (db : Db) : Decision (consistent db).
Proof. unfold consistent. apply _. Defined.

(** The end of an insert, update or delete: the constraints are checked on
    the tables the statement leaves, and the statement is refused when one
    is broken. *)
Definition constrained (db : Db) : M unit :=
  if decide (consistent db) then write db else raise IntegrityError.

(** Modelled from the spec: the request schema [ProjectPatch] and its nested
    territory part ([urban_api.schemas] is not among the sources).  Its
    fields are the columns that [put_project_to_db] writes; every field is
    optional.  For the nested part, which is dumped with [exclude_unset], a
    field is unset ([None]), set to null ([Some None]) or set to a value. *)
Record ProjectTerritoryPatch := {
  patch_parent_id : option (option Z);
  patch_geometry : option (option Geometry.t);
  patch_centre_point : option (option Geometry.t);
  patch_properties : option (option (gmap string Any))
}.

Record ProjectPatch := {
  patch_user_id : option Z;
  patch_name : option string;
  patch_description : option string;
  patch_public : option bool;
  patch_image_url : option string;
  project_territory_info : option ProjectTerritoryPatch
}.

Definition dump {A} (f : A -> Any) (field : option A) : Any :=
  match field with
  | Some a => f a
  | None => PyNone
  end.

(** [project.model_dump(exclude={"project_territory_info"})] *)
Definition model_dump (project : ProjectPatch) : gmap string Any :=
  {[ "user_id" := dump PyInt (patch_user_id project);
     "name" := dump PyStr (patch_name project);
     "description" := dump PyStr (patch_description project);
     "public" := dump PyBool (patch_public project);
     "image_url" := dump PyStr (patch_image_url project) ]}.

(** A value given to [.values(...)]: a geometry expression, of the type of
    the geometry it is built from, or a plain value. *)
Inductive ColumnValue :=
| SqlGeom (ty : Geometry.GeometryType) (g : Geom)
| Plain (v : Any).

(** The loop over [project_territory_info.model_dump(exclude_unset=True)]:
    a set, non-null geometry is converted, anything else is passed on. *)
Definition geometry_item (key : string) (field : option (option Geometry.t))
  (values : gmap string ColumnValue) : Result (gmap string ColumnValue) :=
  match field with
  | None => Ok values
  | Some None => Ok (<[key := Plain PyNone]> values)
  | Some (Some g) => n <- native g ;; Ok (<[key := SqlGeom (Geometry.type g) n]> values)
  end.

Definition plain_item {A} (key : string) (f : A -> Any) (field : option (option A))
  (values : gmap string ColumnValue) : gmap string ColumnValue :=
  match field with
  | None => values
  | Some v => <[key := Plain (dump f v)]> values
  end.

Definition territory_values (info : ProjectTerritoryPatch)
  : Result (gmap string ColumnValue) :=
  let values := plain_item "parent_id" PyInt (patch_parent_id info) ∅ in
  values <- geometry_item "geometry" (patch_geometry info) values ;;
  values <- geometry_item "centre_point" (patch_centre_point info) values ;;
  Ok (plain_item "properties" PyDict (patch_properties info) values).

(** [update(projects_data).values(updated_at=datetime.now(), **new_values)]
    on one row. *)
Definition set_project_columns (now : Z) (values : gmap string Any)
  (r : projects_data.row) : projects_data.row :=
  {| projects_data.project_id := projects_data.project_id r;
     projects_data.user_id :=
       match values !! "user_id" with
       | Some (PyInt z) => z
       | _ => projects_data.user_id r
       end;
     projects_data.name :=
       match values !! "name" with
       | Some (PyStr s) => s
       | _ => projects_data.name r
       end;
     projects_data.project_territory_id := projects_data.project_territory_id r;
     projects_data.description :=
       match values !! "description" with
       | Some (PyStr s) => Some s
       | _ => projects_data.description r
       end;
     projects_data.public :=
       match values !! "public" with
       | Some (PyBool b) => b
       | _ => projects_data.public r
       end;
     projects_data.image_url :=
       match values !! "image_url" with
       | Some (PyStr s) => Some s
       | _ => projects_data.image_url r
       end;
     projects_data.created_at := projects_data.created_at r;
     projects_data.updated_at := now |}.

(** Do the new values fit the columns of [projects_data]? *)
Definition project_values_fit (values : gmap string Any) : bool :=
  match values !! "user_id" with Some (PyInt z) => int32 z | _ => true end
  && match values !! "name" with Some (PyStr s) => varchar 200 s | _ => true end
  && match values !! "description" with Some (PyStr s) => varchar 600 s | _ => true end
  && match values !! "image_url" with Some (PyStr s) => varchar 200 s | _ => true end.

Definition update_project (now : Z) (project_id : Z) (values : gmap string Any)
  : M unit :=
  log (Update projects_data_table) ;;;
  typed (project_values_fit values) ;;;
  db <~ read ;;
  write {| projects :=
             map (fun r => if decide (projects_data.project_id r = project_id)
                           then set_project_columns now values r else r)
                 (projects db);
           projects_territory := projects_territory db |}.

(** Do the new values fit the columns of [projects_territory_data]? *)
Definition territory_values_fit (values : gmap string ColumnValue) : bool :=
  match values !! "parent_id" with Some (Plain (PyInt z)) => int32 z | _ => true end
  && match values !! "centre_point" with Some (SqlGeom ty _) => is_point ty | _ => true end.

(** A geometry column is not nullable and takes a geometry expression. *)
Definition geometry_column (value : option ColumnValue) (old : Geom) : Result Geom :=
  match value with
  | None => Ok old
  | Some (SqlGeom _ g) => Ok g
  | Some (Plain _) => Raise IntegrityError
  end.

(** The new row, for the keys [ids] of the table: a parent must be one of
    them; [properties], a JSONB column, takes any value, [None] as the JSON
    null. *)
Definition set_territory_columns (ids : list Z) (values : gmap string ColumnValue)
  (r : projects_territory_data.row Geom) : Result (projects_territory_data.row Geom) :=
  parent <- match values !! "parent_id" with
            | None => Ok (projects_territory_data.parent_id r)
            | Some (Plain (PyInt z)) =>
                if decide (references ids (Some z)) then Ok (Some z)
                else Raise IntegrityError
            | Some (Plain PyNone) => Ok None
            | Some _ => Raise IntegrityError
            end ;;
  g <- geometry_column (values !! "geometry") (projects_territory_data.geometry r) ;;
  c <- geometry_column (values !! "centre_point") (projects_territory_data.centre_point r) ;;
  props <- match values !! "properties" with
           | None => Ok (projects_territory_data.properties r)
           | Some (Plain v) => Ok v
           | Some (SqlGeom _ _) => Raise IntegrityError
           end ;;
  Ok {| projects_territory_data.project_territory_id :=
          projects_territory_data.project_territory_id r;
        projects_territory_data.parent_id := parent;
        projects_territory_data.geometry := g;
        projects_territory_data.centre_point := c;
        projects_territory_data.properties := props |}.

Fixpoint update_rows {A} (f : A -> Result A) (rows : list A) : Result (list A) :=
  match rows with
  | [] => Ok []
  | r :: rows' => r' <- f r ;; rows'' <- update_rows f rows' ;; Ok (r' :: rows'')
  end.

Definition update_territory (project_territory_id : Z)
  (values : gmap string ColumnValue) : M unit :=
  log (Update projects_territory_data_table) ;;;
  typed (territory_values_fit values) ;;;
  db <~ read ;;
  rows <~ lift (update_rows
                  (fun r => if decide (projects_territory_data.project_territory_id r
                                       = project_territory_id)
                            then set_territory_columns (territory_ids db) values r
                            else Ok r)
                  (projects_territory db)) ;;
  write {| projects := projects db; projects_territory := rows |}.

(** [now] is the value of [datetime.now()]. *)
Definition patch_project_to_db (now : Z) (project : ProjectPatch) (project_id : Z)
  : M ProjectDTO :=
  rows <~ select_requested_project project_id ;;
  requested_project <~ lift (one_or_none rows) ;;
  match requested_project with
  | None => not_found "Given project_id is not found"
  | Some requested_project =>
      let new_values_for_project :=
        filter (fun item => is_not_None item.2 = true) (model_dump project) in
      new_values_for_territory <~
        lift match project_territory_info project with
             | Some info => territory_values info
             | None => Ok ∅
             end ;;
      (if decide (new_values_for_project = ∅) then ret tt
       else update_project now project_id new_values_for_project) ;;;
      (if decide (new_values_for_territory = ∅) then ret tt
       else update_territory
              (projects_data.project_territory_id requested_project)
              new_values_for_territory) ;;;
      commit ;;;
      get_project_by_id_from_db project_id
  end.

(** Modelled from the spec: the request schemas [ProjectPost] and
    [ProjectPut] ([urban_api.schemas] is not among the sources), which have
    the same fields: the columns the two functions write, and the nested
    territory part with its geometries. *)
Record ProjectTerritoryInfo := {
  info_parent_id : option Z;
  info_geometry : Geometry.t;
  info_centre_point : Geometry.t;
  info_properties : gmap string Any
}.

Record ProjectPost := {
  post_user_id : Z;
  post_name : string;
  post_description : option string;
  post_public : bool;
  post_image_url : option string;
  post_project_territory_info : ProjectTerritoryInfo
}.

Definition ProjectPut : Type := ProjectPost.

(** Do the values of the request fit the columns they are written to? *)
Definition territory_fits (info : ProjectTerritoryInfo) : bool :=
  territory_columns_fit (info_parent_id info) (Geometry.type (info_centre_point info)).

Definition project_fits (project : ProjectPost) : bool :=
  project_columns_fit (post_user_id project) (post_name project)
    (post_description project) (post_image_url project).

Definition post_fits (project : ProjectPost) : bool :=
  territory_fits (post_project_territory_info project) && project_fits project.

(** The same for the fields of a partial spec that are set. *)
Definition patch_fits (project : ProjectPatch) : bool :=
  nullable_fits int32 (patch_user_id project)
  && nullable_fits (varchar 200) (patch_name project)
  && nullable_fits (varchar 600) (patch_description project)
  && nullable_fits (varchar 200) (patch_image_url project).

(** The two rows that [post_project_to_db] inserts. *)
Definition created_territory (project_territory_id : Z) (project : ProjectPost)
  (g c : Geom) : projects_territory_data.row Geom :=
  {| projects_territory_data.project_territory_id := project_territory_id;
     projects_territory_data.parent_id :=
       info_parent_id (post_project_territory_info project);
     projects_territory_data.geometry := g;
     projects_territory_data.centre_point := c;
     projects_territory_data.properties :=
       PyDict (info_properties (post_project_territory_info project)) |}.

Definition created (project_territory_id project_id created_at updated_at : Z)
  (project : ProjectPost) : projects_data.row :=
  {| projects_data.project_id := project_id;
     projects_data.user_id := post_user_id project;
     projects_data.name := post_name project;
     projects_data.project_territory_id := project_territory_id;
     projects_data.description := post_description project;
     projects_data.public := post_public project;
     projects_data.image_url := post_image_url project;
     projects_data.created_at := created_at;
     projects_data.updated_at := updated_at |}.

(** [post_project_to_db].  The two statements are built first, which
    converts the geometries; the keys are the next values of the sequences
    [project_territory_id_seq] and [project_id_seq], which the columns
    take as any other value, and [created_at] and [updated_at] the values
    of the two calls of [datetime.now()]. *)
Definition post_project_to_db (project_territory_id project_id : Z)
  (created_at updated_at : Z) (project : ProjectPost) : M ProjectDTO :=
  let info := post_project_territory_info project in
  g <~ lift (native (info_geometry info)) ;;
  c <~ lift (native (info_centre_point info)) ;;
  log (Insert projects_territory_data_table) ;;;
  typed (int32 project_territory_id && territory_fits info) ;;;
  db <~ read ;;
  let result_for_territory := created_territory project_territory_id project g c in
  constrained
    {| projects := projects db;
       projects_territory := projects_territory db ++ [result_for_territory] |} ;;;
  log (Insert projects_data_table) ;;;
  typed (int32 project_id && project_fits project) ;;;
  db <~ read ;;
  let result_for_project :=
    created (projects_territory_data.project_territory_id result_for_territory)
      project_id created_at updated_at project in
  constrained
    {| projects := projects db ++ [result_for_project];
       projects_territory := projects_territory db |} ;;;
  commit ;;;
  get_project_by_id_from_db (projects_data.project_id result_for_project).

(** [delete_project_from_db]: the project row is deleted first, then the
    territory row it refers to. *)
Definition delete_project_from_db (project_id : Z) : M unit :=
  rows <~ select_requested_project project_id ;;
  result <~ lift (one_or_none rows) ;;
  match result with
  | None => not_found "Project not found"
  | Some result =>
      log (Delete projects_data_table) ;;;
      db <~ read ;;
      constrained
        {| projects :=
             filter (fun r => projects_data.project_id r <> project_id) (projects db);
           projects_territory := projects_territory db |} ;;;
      log (Delete projects_territory_data_table) ;;;
      db <~ read ;;
      constrained
        {| projects := projects db;
           projects_territory :=
             filter (fun r => projects_territory_data.project_territory_id r
                              <> projects_data.project_territory_id result)
                    (projects_territory db) |} ;;;
      commit
  end.

(** [put_project_to_db]: every column of the territory row but its key, and
    every column of the project row but its keys and [created_at]. *)
Definition put_project_to_db (now : Z) (project : ProjectPut) (project_id : Z)
  : M ProjectDTO :=
  rows <~ select_requested_project project_id ;;
  requested_project <~ lift (one_or_none rows) ;;
  match requested_project with
  | None => not_found "Given project_id is not found"
  | Some requested_project =>
      let info := post_project_territory_info project in
      g <~ lift (native (info_geometry info)) ;;
      c <~ lift (native (info_centre_point info)) ;;
      log (Update projects_territory_data_table) ;;;
      typed (territory_fits info) ;;;
      db <~ read ;;
      constrained
        {| projects := projects db;
           projects_territory :=
             map (fun r =>
                    if decide (projects_territory_data.project_territory_id r
                               = projects_data.project_territory_id requested_project)
                    then created_territory
                           (projects_territory_data.project_territory_id r) project g c
                    else r)
                 (projects_territory db) |} ;;;
      log (Update projects_data_table) ;;;
      typed (project_fits project) ;;;
      db <~ read ;;
      let updated (r : projects_data.row) :=
        {| projects_data.project_id := projects_data.project_id r;
           projects_data.user_id := post_user_id project;
           projects_data.name := post_name project;
           projects_data.project_territory_id := projects_data.project_territory_id r;
           projects_data.description := post_description project;
           projects_data.public := post_public project;
           projects_data.image_url := post_image_url project;
           projects_data.created_at := projects_data.created_at r;
           projects_data.updated_at := now |} in
      constrained
        {| projects :=
             map (fun r => if decide (projects_data.project_id r = project_id)
                           then updated r else r)
                 (projects db);
           projects_territory := projects_territory db |} ;;;
      result <~ lift (one (map updated
                             (filter (fun r => projects_data.project_id r = project_id)
                                     (projects db)))) ;;
      commit ;;;
      get_project_by_id_from_db (projects_data.project_id result)
  end.

(** A connection just opened on the database [db]. *)
Definition connect (db : Db) : Conn :=
  {| tables := db; committed := db; executed := [] |}.

(** The partial spec that holds a name and nothing else. *)
Definition only_name (x : string) : ProjectPatch :=
  {| patch_user_id := None; patch_name := Some x; patch_description := None;
     patch_public := None; patch_image_url := None;
     project_territory_info := None |}.

(** The partial spec that sets no field of the project itself and holds
    the nested territory part [info]. *)
Definition territory_only (info : option ProjectTerritoryPatch) : ProjectPatch :=
  {| patch_user_id := None; patch_name := None; patch_description := None;
     patch_public := None; patch_image_url := None;
     project_territory_info := info |}.

(** The nested territory part that sets [geometry], to null, and nothing
    else. *)
Definition null_geometry : ProjectTerritoryPatch :=
  {| patch_parent_id := None; patch_geometry := Some None;
     patch_centre_point := None; patch_properties := None |}.

(** The nested territory part that sets [geometry], to the given geometry,
    and nothing else. *)
Definition only_geometry (geometry : Geometry.t) : ProjectTerritoryPatch :=
  {| patch_parent_id := None; patch_geometry := Some (Some geometry);
     patch_centre_point := None; patch_properties := None |}.

(** The row [r] with the name [x], stamped [now]. *)
Definition renamed (now : Z) (x : string) (r : projects_data.row) : projects_data.row :=
  {| projects_data.project_id := projects_data.project_id r;
     projects_data.user_id := projects_data.user_id r;
     projects_data.name := x;
     projects_data.project_territory_id := projects_data.project_territory_id r;
     projects_data.description := projects_data.description r;
     projects_data.public := projects_data.public r;
     projects_data.image_url := projects_data.image_url r;
     projects_data.created_at := projects_data.created_at r;
     projects_data.updated_at := now |}.

(** [project_id] is the primary key of [projects_data]. *)
Definition primary_key (db : Db) : Prop :=
  NoDup (map projects_data.project_id (projects db)).

End Engine.

Arguments Db : clear implicits.
Arguments Conn : clear implicits.
Arguments M : clear implicits.
Arguments ColumnValue : clear implicits.

End Projects.

(** ** logic/territories.py *)

Module territories_data.

(** Modelled from the spec: the table [territories_data]
    ([urban_api.db.entities] holds the project tables only).  The columns and
    their order are those of the data model, which is also the order in
    which the queries list them; [territory_id] is the generated key. *)
Record row (Geom : Type) := {
  territory_id : Z;
  territory_type_id : option Z;
  parent_id : option Z;
  name : string;
  geometry : Geom;
  level : Z;
  properties : gmap string Any;
  centre_point : Geom;
  admin_center : option Z;
  okato_code : option string
}.
Arguments territory_id {Geom} r.
Arguments territory_type_id {Geom} r.
Arguments parent_id {Geom} r.
Arguments name {Geom} r.
Arguments geometry {Geom} r.
Arguments level {Geom} r.
Arguments properties {Geom} r.
Arguments centre_point {Geom} r.
Arguments admin_center {Geom} r.
Arguments okato_code {Geom} r.

(** [territories_data.c.<column>] *)
Module c.
Inductive Column :=
| territory_id | territory_type_id | parent_id | name | geometry
| level | properties | centre_point | admin_center | okato_code.
End c.

End territories_data.

Module services_data.

(** Modelled from the spec: the columns of [services_data] that the capacity
    query reads. *)
Record row := {
  service_id : Z;
  service_type_id : option Z;
  capacity_real : option Z
}.

End services_data.

Module urban_objects_data.

(** Modelled from the spec: the columns of [urban_objects_data] that the
    joins read. *)
Record row := {
  service_id : option Z;
  object_geometry_id : Z
}.

End urban_objects_data.

Module object_geometries_data.

(** Modelled from the spec: the columns of [object_geometries_data] that the
    joins read. *)
Record row := {
  object_geometry_id : Z;
  territory_id : Z
}.

End object_geometries_data.

Module territory_types_dict.

(** Modelled from the spec: the columns of [territory_types_dict], the key
    first, as the fields of [TerritoryTypeDTO] built from a whole row. *)
Record row := {
  territory_type_id : Z;
  name : string
}.

End territory_types_dict.

Module functional_zones_data.

(** Modelled from the spec: the columns of [functional_zones_data] that
    [get_functional_zones_by_territory_id_from_db] selects and compares. *)
Record row {Geom : Type} := {
  functional_zone_id : Z;
  territory_id : option Z;
  functional_zone_type_id : option Z;
  geometry : Geom
}.
Arguments row : clear implicits.

End functional_zones_data.

Module Territories.

Import territories_data.c.

(** An element of a select list: a column, or
    [cast(ST_AsGeoJSON(column), JSONB).label(...)]. *)
Inductive Selected :=
| Col (column : Column)
| AsGeoJSON (column : Column).

(** The comparisons the [where] clauses of this module use. *)
Inductive Criterion :=
| territory_id_eq (value : option Z)
| parent_id_eq (value : Z)
| territory_type_id_eq (value : Z).

Record Select := { columns : list Selected; whereclause : list Criterion }.

(** A statement over [territories_data]: a plain select, or
    [select(cte)] for [cte = seed.cte(recursive=True).union_all(recursive_part)],
    where [recursive_part] joins the table to the CTE on
    [territories_data.c.parent_id == cte.c.territory_id]. *)
Record CTE := { seed : Select; recursive_part : list Selected }.

Inductive Statement :=
| Plain (query : Select)
| Recursive (cte : CTE) (outer : list Criterion).

(** [select(territories_data)]: every column, in table order. *)
Definition all_columns : list Selected :=
  [Col territory_id; Col territory_type_id; Col parent_id; Col name; Col geometry;
   Col level; Col properties; Col centre_point; Col admin_center; Col okato_code].

(** The select list of the queries that return territories with geometry. *)
Definition with_geometry : list Selected :=
  [Col territory_id; Col territory_type_id; Col parent_id; Col name;
   AsGeoJSON geometry; Col level; Col properties; AsGeoJSON centre_point;
   Col admin_center; Col okato_code].

(** [seed.union_all(recursive_part)]: both selects must have the same number
    of columns. *)
Definition union_all (seed : Select) (recursive_part : list Selected)
  : Result CTE :=
  if (length (columns seed) =? length recursive_part)%nat
  then Ok {| seed := seed; recursive_part := recursive_part |}
  else Raise ArgumentError.

(** [.where(criterion)] on a statement. *)
Definition where_ (statement : Statement) (criterion : Criterion) : Statement :=
  match statement with
  | Plain q => Plain {| columns := columns q; whereclause := whereclause q ++ [criterion] |}
  | Recursive cte outer => Recursive cte (outer ++ [criterion])
  end.

(** Does a select list fetch one of the geometry columns? *)
Definition is_geometry_column (column : Column) : bool :=
  match column with
  | geometry | centre_point => true
  | _ => false
  end.

Definition selects_geometry (s : Selected) : bool :=
  match s with
  | Col column | AsGeoJSON column => is_geometry_column column
  end.

(** The select of the direct children, with geometry. *)
Definition children (parent_id : Z) : Select :=
  {| columns := with_geometry; whereclause := [parent_id_eq parent_id] |}.

(** The statement of [get_territories_by_parent_id_from_db]: the seed of the
    CTE, its recursive part and the select of the other branch all have the
    select list [with_geometry]. *)
Definition territories_by_parent_statement (parent_id : Z) (get_all_levels : bool)
  (territory_type_id : option Z) : Result Statement :=
  statement <-
    (if get_all_levels && negb (parent_id =? 0)
     then
       let cte_statement := children parent_id in
       let recursive_part := with_geometry in
       cte_statement <- union_all cte_statement recursive_part ;;
       Ok (Recursive cte_statement [])
     else
       Ok (Plain (children parent_id))) ;;
  match territory_type_id with
  | Some ty => Ok (where_ statement (territory_type_id_eq ty))
  | None => Ok statement
  end.

(** The three selects of
    [get_territories_without_geometry_by_parent_id_from_db], each with the
    select list the source gives it: the seed of the CTE, the recursive part
    of the CTE, and the select of the other branch. *)
Definition without_geometry_cte_columns : list Selected :=
  [Col territory_id; Col territory_type_id; Col parent_id; Col name;
   Col level; Col properties; Col admin_center; Col okato_code].

Definition without_geometry_cte_statement (parent_id : Z) : Select :=
  {| columns := without_geometry_cte_columns;
     whereclause := [parent_id_eq parent_id] |}.

Definition without_geometry_recursive_part : list Selected :=
  [Col territory_id; Col territory_type_id; Col parent_id; Col name;
   AsGeoJSON geometry; Col level; Col properties; AsGeoJSON centre_point;
   Col admin_center; Col okato_code].

Definition without_geometry_children_columns : list Selected :=
  [Col territory_id; Col territory_type_id; Col parent_id; Col name;
   Col level; Col properties; Col admin_center; Col okato_code].

Definition without_geometry_children (parent_id : Z) : Select :=
  {| columns := without_geometry_children_columns;
     whereclause := [parent_id_eq parent_id] |}.

(** The statement of [get_territories_without_geometry_by_parent_id_from_db]. *)
Definition territories_without_geometry_by_parent_statement (parent_id : Z)
  (get_all_levels : bool) : Result Statement :=
  if get_all_levels && negb (parent_id =? 0)
  then
    cte_statement <- union_all (without_geometry_cte_statement parent_id)
                       without_geometry_recursive_part ;;
    Ok (Recursive cte_statement [])
  else
    Ok (Plain (without_geometry_children parent_id)).

Section Engine.

(** Stored geometries, the read conversion [cast(ST_AsGeoJSON(column), JSONB)]
    and the write conversion [ST_GeomFromGeoJSON(str(g.dict()))]. *)
Context {Geom : Type}.
Variable ST_AsGeoJSON : Geom -> Any.
Variable ST_GeomFromGeoJSON : Geometry.t -> Result Geom.

#[local] Abbreviation row := (territories_data.row Geom).

(** A value of a result row. *)
Inductive Value :=
| Null
| Int (z : Z)
| Text (s : string)
| Json (v : Any)
| Geo (g : Geom).

Definition nullable {A} (f : A -> Value) (field : option A) : Value :=
  match field with
  | Some a => f a
  | None => Null
  end.

Record Db := {
  territories : list row;
  territories_seq : Z;
  services : list services_data.row;
  urban_objects : list urban_objects_data.row;
  object_geometries : list object_geometries_data.row
}.

Definition column_value (column : Column) (r : row) : Value :=
  match column with
  | territory_id => Int (territories_data.territory_id r)
  | territory_type_id => nullable Int (territories_data.territory_type_id r)
  | parent_id => nullable Int (territories_data.parent_id r)
  | name => Text (territories_data.name r)
  | geometry => Geo (territories_data.geometry r)
  | level => Int (territories_data.level r)
  | properties => Json (PyDict (territories_data.properties r))
  | centre_point => Geo (territories_data.centre_point r)
  | admin_center => nullable Int (territories_data.admin_center r)
  | okato_code => nullable Text (territories_data.okato_code r)
  end.

Definition selected_value (s : Selected) (r : row) : Value :=
  match s with
  | Col column => column_value column r
  | AsGeoJSON column =>
      match column_value column r with
      | Geo g => Json (ST_AsGeoJSON g)
      | v => v
      end
  end.

Definition project (select_list : list Selected) (r : row) : list Value :=
  map (fun s => selected_value s r) select_list.

(** [column == value]: a comparison with a null column is not true, and a
    comparison with [None] is rendered [IS NULL]. *)
Definition eq_column (column : option Z) (value : option Z) : bool :=
  match value, column with
  | Some v, Some x => x =? v
  | Some _, None => false
  | None, Some _ => false
  | None, None => true
  end.

Definition holds (criterion : Criterion) (r : row) : bool :=
  match criterion with
  | territory_id_eq value => eq_column (Some (territories_data.territory_id r)) value
  | parent_id_eq value => eq_column (territories_data.parent_id r) (Some value)
  | territory_type_id_eq value =>
      eq_column (territories_data.territory_type_id r) (Some value)
  end.

Definition satisfies (criteria : list Criterion) (r : row) : bool :=
  forallb (fun criterion => holds criterion r) criteria.

Definition select_rows (table : list row) (query : Select) : list row :=
  filter (fun r => satisfies (whereclause query) r = true) table.

(** One evaluation of the recursive part: the join of the table with the
    working table on [territories_data.parent_id = cte.territory_id]. *)
Definition join_step (table working : list row) : list row :=
  flat_map
    (fun r =>
       map (fun _ => r)
         (filter (fun w => eq_column (territories_data.parent_id r)
                             (Some (territories_data.territory_id w)) = true)
                 working))
    table.

(** [WITH RECURSIVE ... UNION ALL]: the recursive part is evaluated on the
    rows of the previous step until a step yields no row.  [None]: the
    evaluation has not ended after [fuel] steps. *)
Fixpoint recursive_rows (fuel : nat) (table working : list row) : option (list row) :=
  match join_step table working with
  | [] => Some []
  | next =>
      match fuel with
      | O => None
      | S fuel' => app next <$> recursive_rows fuel' table next
      end
  end.

(** A criterion on a column of [territories_data] added to [select(cte)]
    brings the table into the FROM list: every row of the CTE is paired with
    every row of the table that satisfies the criteria. *)
Definition select_from_cte (table : list row) (outer : list Criterion)
  (tuples : list (list Value)) : list (list Value) :=
  match outer with
  | [] => tuples
  | _ =>
      flat_map
        (fun tuple => map (fun _ => tuple)
                        (filter (fun r => satisfies outer r = true) table))
        tuples
  end.

(** [await session.execute(statement)] for a select. *)
Definition execute (fuel : nat) (table : list row) (statement : Statement)
  : option (list (list Value)) :=
  match statement with
  | Plain query => Some (map (project (columns query)) (select_rows table query))
  | Recursive cte outer =>
      let seed_rows := select_rows table (seed cte) in
      rows ← recursive_rows fuel table seed_rows;
      Some (select_from_cte table outer
              (map (project (columns (seed cte))) seed_rows
               ++ map (project (recursive_part cte)) rows))
  end.

(** [.scalar()]: the first column of the first row, or [None]. *)
Definition scalar (rows : list (list Value)) : Value :=
  match rows with
  | [] => Null
  | tuple :: _ => hd Null tuple
  end.

(** [.scalars()]: single elements instead of rows, the first column of every
    row. *)
Definition scalars (rows : list (list Value)) : list Value :=
  map (hd Null) rows.

(** Truth value of a Python object. *)
Definition truthy_any (v : Any) : bool :=
  match v with
  | PyNone => false
  | PyBool b => b
  | PyInt z => negb (z =? 0)
  | PyFloat q => negb (Qeq_bool q 0)
  | PyStr s => negb (String.eqb s EmptyString)
  | PyList l => negb (Nat.eqb (length l) 0)
  | PyDict d => negb (bool_decide (d = ∅))
  end.

Definition truthy (v : Value) : bool :=
  match v with
  | Null => false
  | Int z => negb (z =? 0)
  | Text s => negb (String.eqb s EmptyString)
  | Json v => truthy_any v
  | Geo _ => true
  end.

(** [*value] in a call: the elements of an iterable; a number or [None] is
    not iterable. *)
Definition star_args (v : Value) : Result (list Value) :=
  match v with
  | Text s => Ok (map (fun ch => Text (String ch EmptyString)) (list_ascii_of_string s))
  | Json (PyStr s) =>
      Ok (map (fun ch => Text (String ch EmptyString)) (list_ascii_of_string s))
  | Json (PyList l) => Ok (map Json l)
  | Json (PyDict d) => Ok (map (fun item => Text item.1) (map_to_list d))
  | _ => Raise TypeError
  end.

(** Modelled from the spec: the classes [TerritoryDTO] and
    [TerritoryWithoutGeometryDTO] of [urban_api.dto], which is not among the
    sources: one positional field per column of the matching select list. *)
Record TerritoryDTO := {
  dto_territory_id : Value;
  dto_territory_type_id : Value;
  dto_parent_id : Value;
  dto_name : Value;
  dto_geometry : Value;
  dto_level : Value;
  dto_properties : Value;
  dto_centre_point : Value;
  dto_admin_center : Value;
  dto_okato_code : Value
}.

Record TerritoryWithoutGeometryDTO := {
  wg_territory_id : Value;
  wg_territory_type_id : Value;
  wg_parent_id : Value;
  wg_name : Value;
  wg_level : Value;
  wg_properties : Value;
  wg_admin_center : Value;
  wg_okato_code : Value
}.

(** The call of the class with positional arguments. *)
Definition new_TerritoryDTO (args : list Value) : Result TerritoryDTO :=
  match args with
  | [a; b; c; d; e; f; g; h; i; j] =>
      Ok {| dto_territory_id := a; dto_territory_type_id := b; dto_parent_id := c;
            dto_name := d; dto_geometry := e; dto_level := f; dto_properties := g;
            dto_centre_point := h; dto_admin_center := i; dto_okato_code := j |}
  | _ => Raise TypeError
  end.

Definition new_TerritoryWithoutGeometryDTO (args : list Value)
  : Result TerritoryWithoutGeometryDTO :=
  match args with
  | [a; b; c; d; e; f; g; h] =>
      Ok {| wg_territory_id := a; wg_territory_type_id := b; wg_parent_id := c;
            wg_name := d; wg_level := e; wg_properties := f;
            wg_admin_center := g; wg_okato_code := h |}
  | _ => Raise TypeError
  end.

(** A list comprehension whose element expression may raise. *)
Fixpoint comprehension {A B} (f : A -> Result B) (l : list A) : Result (list B) :=
  match l with
  | [] => Ok []
  | a :: l' => b <- f a ;; bs <- comprehension f l' ;; Ok (b :: bs)
  end.

(** The rows of a plain select, which needs no fuel. *)
Definition execute_plain (table : list row) (query : Select) : list (list Value) :=
  map (project (columns query)) (select_rows table query).

Definition get_territory_by_id_from_db (db : Db) (territory_id : Z)
  : Result TerritoryDTO :=
  let statement :=
    {| columns := with_geometry; whereclause := [territory_id_eq (Some territory_id)] |} in
  match first (execute_plain (territories db) statement) with
  | None => Raise (HTTPException 404 "Given id is not found")
  | Some result => new_TerritoryDTO result
  end.

(** The check that opens the functions taking a territory id:
    [select(territories_data).where(territories_data.c.territory_id == id)],
    then [.scalar()] and its truth value. *)
Definition is_found (db : Db) (territory_id : Z) : bool :=
  truthy (scalar (execute_plain (territories db)
                    {| columns := all_columns;
                       whereclause := [territory_id_eq (Some territory_id)] |})).

Definition get_territories_by_parent_id_from_db (fuel : nat) (db : Db)
  (parent_id : Z) (get_all_levels : bool) (territory_type_id : option Z)
  : option (Result (list TerritoryDTO)) :=
  if negb (parent_id =? 0) && negb (is_found db parent_id)
  then Some (Raise (HTTPException 404 "Given parent id is not found"))
  else
    match territories_by_parent_statement parent_id get_all_levels territory_type_id with
    | Raise e => Some (Raise e)
    | Ok statement =>
        result ← execute fuel (territories db) statement;
        Some (comprehension
                (fun territory => args <- star_args territory ;; new_TerritoryDTO args)
                (scalars result))
    end.

Definition get_territories_without_geometry_by_parent_id_from_db (fuel : nat)
  (db : Db) (parent_id : Z) (get_all_levels : bool)
  : option (Result (list TerritoryWithoutGeometryDTO)) :=
  if negb (parent_id =? 0) && negb (is_found db parent_id)
  then Some (Raise (HTTPException 404 "Given parent id is not found"))
  else
    match territories_without_geometry_by_parent_statement parent_id get_all_levels with
    | Raise e => Some (Raise e)
    | Ok statement =>
        result ← execute fuel (territories db) statement;
        Some (comprehension
                (fun territory =>
                   args <- star_args territory ;; new_TerritoryWithoutGeometryDTO args)
                (scalars result))
    end.

(** Modelled from the spec: the request schema [TerritoriesDataPost]
    ([urban_api.schemas] is not among the sources): the values that
    [add_territory_to_db] inserts. *)
Record TerritoriesDataPost := {
  post_territory_type_id : option Z;
  post_parent_id : option Z;
  post_name : string;
  post_geometry : Geometry.t;
  post_level : Z;
  post_properties : gmap string Any;
  post_centre_point : Geometry.t;
  post_admin_center : option Z;
  post_okato_code : option string
}.

(** The session: the tables as the open transaction sees them and as of the
    last commit. *)
Record Session := { tables : Db; committed : Db }.

Definition read : StateResult Session Db := fun st => (Ok (tables st), st).

Definition write_territories (rows : list row) (seq : Z) : StateResult Session unit :=
  fun st =>
    (Ok tt,
     {| tables := {| territories := rows;
                     territories_seq := seq;
                     services := services (tables st);
                     urban_objects := urban_objects (tables st);
                     object_geometries := object_geometries (tables st) |};
        committed := committed st |}).

(** [await session.commit()] *)
Definition commit : StateResult Session unit :=
  fun st => (Ok tt, {| tables := tables st; committed := tables st |}).

(** [insert(territories_data).values(...).returning(territory_id)], then
    [.scalar()]: the key is the next value of the sequence. *)
Definition insert_territory (territory : TerritoriesDataPost) : StateResult Session Z :=
  g <~ lift (ST_GeomFromGeoJSON (post_geometry territory)) ;;
  c <~ lift (ST_GeomFromGeoJSON (post_centre_point territory)) ;;
  db <~ read ;;
  let territory_id := territories_seq db in
  write_territories
    (territories db ++
     [{| territories_data.territory_id := territory_id;
         territories_data.territory_type_id := post_territory_type_id territory;
         territories_data.parent_id := post_parent_id territory;
         territories_data.name := post_name territory;
         territories_data.geometry := g;
         territories_data.level := post_level territory;
         territories_data.properties := post_properties territory;
         territories_data.centre_point := c;
         territories_data.admin_center := post_admin_center territory;
         territories_data.okato_code := post_okato_code territory |}])
    (territory_id + 1) ;;;
  ret territory_id.

(** [delete(territories_data).where(territories_data.c.territory_id == id)] *)
Definition delete_territory (territory_id : Z) : StateResult Session unit :=
  db <~ read ;;
  write_territories
    (filter (fun r => territories_data.territory_id r <> territory_id) (territories db))
    (territories_seq db).

Definition add_territory_to_db (territory : TerritoriesDataPost)
  : StateResult Session TerritoryDTO :=
  territory_id <~ insert_territory territory ;;
  commit ;;;
  (if negb (bool_decide (post_parent_id territory = Some 0))
   then
     db <~ read ;;
     let check_parent_id :=
       first (execute_plain (territories db)
                {| columns := all_columns;
                   whereclause := [territory_id_eq (post_parent_id territory)] |}) in
     match check_parent_id with
     | Some _ => ret tt
     | None =>
         delete_territory territory_id ;;;
         commit ;;;
         raise (HTTPException 404 "Given parent_id is not found")
     end
   else ret tt) ;;;
  db <~ read ;;
  lift (get_territory_by_id_from_db db territory_id).

(** The join of the service queries:
    [services_data JOIN urban_objects_data ON service_id
                   JOIN object_geometries_data ON object_geometry_id]
    restricted by [object_geometries_data.c.territory_id == territory_id]. *)
Definition services_of_territory (db : Db) (territory_id : Z) : list services_data.row :=
  flat_map
    (fun s =>
       flat_map
         (fun u =>
            if eq_column (urban_objects_data.service_id u)
                 (Some (services_data.service_id s))
            then map (fun _ => s)
                   (filter (fun g =>
                              object_geometries_data.object_geometry_id g
                              = urban_objects_data.object_geometry_id u
                              /\ object_geometries_data.territory_id g = territory_id)
                           (object_geometries db))
            else [])
         (urban_objects db))
    (services db).

(** [func.sum]: nulls are skipped, and the sum of no value is null. *)
Definition func_sum (values : list (option Z)) : option Z :=
  match omap id values with
  | [] => None
  | v :: vs => Some (fold_left Z.add vs v)
  end.

Definition get_services_capacity_by_territory_id_from_db (db : Db)
  (territory_id : Z) (service_type_id : option Z) : Result (option Z) :=
  if negb (is_found db territory_id)
  then Raise (HTTPException 404 "Given territory id is not found")
  else
    Ok (func_sum
          (map services_data.capacity_real
             (filter (fun s => eq_column (services_data.service_type_id s)
                                 service_type_id = true)
                     (services_of_territory db territory_id)))).

(** Modelled from the spec: the class [TerritoryTypeDTO] of [urban_api.dto],
    one positional field per column of [territory_types_dict]. *)
Record TerritoryTypeDTO := {
  type_territory_type_id : Value;
  type_name : Value
}.

Definition new_TerritoryTypeDTO (args : list Value) : Result TerritoryTypeDTO :=
  match args with
  | [a; b] => Ok {| type_territory_type_id := a; type_name := b |}
  | _ => Raise TypeError
  end.

Definition territory_type_tuple (r : territory_types_dict.row) : list Value :=
  [Int (territory_types_dict.territory_type_id r); Text (territory_types_dict.name r)].

(** The table [territory_types_dict] as the open transaction sees it and as
    of the last commit. *)
Record TypesSession := {
  territory_types : list territory_types_dict.row;
  territory_types_committed : list territory_types_dict.row
}.

(** [add_territory_type_to_db]; [territory_type_id] is the key that the
    insert generates.  The row returned by the insert is read with
    [.scalar()]. *)
Definition add_territory_type_to_db (territory_type_id : Z) (name : string)
  : StateResult TypesSession TerritoryTypeDTO :=
  st <~ (fun st => (Ok st, st)) ;;
  let result :=
    first (map territory_type_tuple
             (filter (fun r => territory_types_dict.name r = name) (territory_types st))) in
  match result with
  | Some _ => raise (HTTPException 400 "Invalid input (territory type already exists)")
  | None =>
      let inserted :=
        {| territory_types_dict.territory_type_id := territory_type_id;
           territory_types_dict.name := name |} in
      let result := scalar [territory_type_tuple inserted] in
      (fun st => (Ok tt, {| territory_types := territory_types st ++ [inserted];
                            territory_types_committed := territory_types_committed st |})) ;;;
      (fun st => (Ok tt, {| territory_types := territory_types st;
                            territory_types_committed := territory_types st |})) ;;;
      lift (args <- star_args result ;; new_TerritoryTypeDTO args)
  end.

(** Modelled from the spec: the class [FunctionalZoneDataDTO] of
    [urban_api.dto], one positional field per column of the select list. *)
Record FunctionalZoneDataDTO := {
  zone_functional_zone_id : Value;
  zone_territory_id : Value;
  zone_functional_zone_type_id : Value;
  zone_geometry : Value
}.

Definition new_FunctionalZoneDataDTO (args : list Value) : Result FunctionalZoneDataDTO :=
  match args with
  | [a; b; c; d] =>
      Ok {| zone_functional_zone_id := a; zone_territory_id := b;
            zone_functional_zone_type_id := c; zone_geometry := d |}
  | _ => Raise TypeError
  end.

(** The rows of the statement of
    [get_functional_zones_by_territory_id_from_db]: the zones of the
    territory, of the given type when there is one. *)
Definition functional_zones_of (zones : list (functional_zones_data.row Geom))
  (territory_id : Z) (functional_zone_type_id : option Z)
  : list (functional_zones_data.row Geom) :=
  filter (fun z =>
            eq_column (functional_zones_data.territory_id z) (Some territory_id)
            && match functional_zone_type_id with
               | Some ty =>
                   eq_column (functional_zones_data.functional_zone_type_id z) (Some ty)
               | None => true
               end = true)
         zones.

Definition functional_zone_tuple (z : functional_zones_data.row Geom) : list Value :=
  [Int (functional_zones_data.functional_zone_id z);
   nullable Int (functional_zones_data.territory_id z);
   nullable Int (functional_zones_data.functional_zone_type_id z);
   Json (ST_AsGeoJSON (functional_zones_data.geometry z))].

(** [get_functional_zones_by_territory_id_from_db]: no check of the
    territory; the result is read with [.scalars()]. *)
Definition get_functional_zones_by_territory_id_from_db
  (zones : list (functional_zones_data.row Geom)) (territory_id : Z)
  (functional_zone_type_id : option Z) : Result (list FunctionalZoneDataDTO) :=
  let result :=
    scalars (map functional_zone_tuple
               (functional_zones_of zones territory_id functional_zone_type_id)) in
  comprehension (fun zone => args <- star_args zone ;; new_FunctionalZoneDataDTO args)
    result.

(** *** Notions of the specification *)

(** The parent chain of [r] reaches the territory [ancestor]: [r] is a child
    of it, or the child of a row of the table whose chain reaches it. *)
Inductive descends (table : list row) (ancestor : Z) : row -> Prop :=
| descends_child r :
    territories_data.parent_id r = Some ancestor ->
    descends table ancestor r
| descends_step r p :
    In p table ->
    territories_data.parent_id r = Some (territories_data.territory_id p) ->
    descends table ancestor p ->
    descends table ancestor r.

(** The row that [insert_territory] writes. *)
Definition inserted (territory : TerritoriesDataPost) (id : Z) (g c : Geom)
  : row :=
  {| territories_data.territory_id := id;
     territories_data.territory_type_id := post_territory_type_id territory;
     territories_data.parent_id := post_parent_id territory;
     territories_data.name := post_name territory;
     territories_data.geometry := g;
     territories_data.level := post_level territory;
     territories_data.properties := post_properties territory;
     territories_data.centre_point := c;
     territories_data.admin_center := post_admin_center territory;
     territories_data.okato_code := post_okato_code territory |}.

(** The generated keys are below the next value of the sequence. *)
Definition sequence_fresh (db : Db) : Prop :=
  forall r, In r (territories db) ->
            territories_data.territory_id r < territories_seq db.

(** The sum of the capacity over every service joined to the territory. *)
Definition unfiltered_capacity (db : Db) (territory_id : Z) : option Z :=
  func_sum (map services_data.capacity_real (services_of_territory db territory_id)).

End Engine.

Arguments Value : clear implicits.
Arguments Db : clear implicits.
Arguments Session : clear implicits.
Arguments TerritoryDTO : clear implicits.
Arguments TerritoryWithoutGeometryDTO : clear implicits.
Arguments FunctionalZoneDataDTO : clear implicits.
Arguments TerritoryTypeDTO : clear implicits.
Arguments TypesSession : clear implicits.

End Territories.

(** ** Sample data

    A geometry engine that stores the parsed geometry itself, and small
    databases on which the functions are evaluated. *)

Module Sample.

Definition ST_AsGeoJSON (g : Geometry.t) : Any :=
  PyDict (Geometry.tagged (Geometry.type g) (Geometry.coordinates g)).

Definition store (g : Geometry.t) : Result Geometry.t := Ok g.

Definition json_loads (text : string) : Result Any := Raise JSONDecodeError.

Definition point : Geometry.t :=
  {| Geometry.type := Geometry.Point;
     Geometry.coordinates := [PyFloat 30.22; PyFloat 59.86] |}.

Definition square : Geometry.t :=
  {| Geometry.type := Geometry.Polygon;
     Geometry.coordinates := Geometry.default_coordinates |}.

(** A feature row whose geometry is null. *)
Definition null_geometry_row : gmap string Any :=
  {[ "geometry" := PyNone; "name" := PyStr "Nevsky" ]}.

(** Projects. *)
Definition project : projects_data.row :=
  {| projects_data.project_id := 1;
     projects_data.user_id := 10;
     projects_data.name := "Embankment";
     projects_data.project_territory_id := 7;
     projects_data.description := None;
     projects_data.public := true;
     projects_data.image_url := None;
     projects_data.created_at := 100;
     projects_data.updated_at := 100 |}.

Definition detail : projects_territory_data.row Geometry.t :=
  {| projects_territory_data.project_territory_id := 7;
     projects_territory_data.parent_id := None;
     projects_territory_data.geometry := square;
     projects_territory_data.centre_point := point;
     projects_territory_data.properties := PyDict ∅ |}.

Definition projects_db : Projects.Db Geometry.t :=
  {| Projects.projects := [project]; Projects.projects_territory := [detail] |}.

(** The project is there, the territory detail it refers to is not. *)
Definition orphan_db : Projects.Db Geometry.t :=
  {| Projects.projects := [project]; Projects.projects_territory := [] |}.

(** A creation spec of a project, with its territory part under the
    given parent. *)
Definition project_post_under (parent : option Z) : Projects.ProjectPost :=
  {| Projects.post_user_id := 11;
     Projects.post_name := "Harbour";
     Projects.post_description := Some "Quays and piers";
     Projects.post_public := false;
     Projects.post_image_url := None;
     Projects.post_project_territory_info :=
       {| Projects.info_parent_id := parent;
          Projects.info_geometry := square;
          Projects.info_centre_point := point;
          Projects.info_properties := {[ "status" := PyStr "draft" ]} |} |}.

Definition project_post : Projects.ProjectPost := project_post_under (Some 7).

(** The territory of the project is the parent of another territory row. *)
Definition nested_db : Projects.Db Geometry.t :=
  {| Projects.projects := [project];
     Projects.projects_territory :=
       [detail;
        {| projects_territory_data.project_territory_id := 8;
           projects_territory_data.parent_id := Some 7;
           projects_territory_data.geometry := square;
           projects_territory_data.centre_point := point;
           projects_territory_data.properties := PyDict ∅ |}] |}.

(** A feature row with a point geometry, and the feature it gives. *)
Definition feature_row : gmap string Any :=
  {[ "geometry" := PyDict (Geometry.tagged Geometry.Point (Geometry.coordinates point));
     "name" := PyStr "Nevsky";
     "height" := PyNone ]}.

Definition feature : Feature.t :=
  {| Feature.geometry := point;
     Feature.properties := {[ "name" := PyStr "Nevsky"; "height" := PyNone ]} |}.

(** Territories: 1 is a root, 2 its child, 3 a child of 2. *)
Definition territory (id : Z) (parent : option Z) : territories_data.row Geometry.t :=
  {| territories_data.territory_id := id;
     territories_data.territory_type_id := Some 1;
     territories_data.parent_id := parent;
     territories_data.name := "territory";
     territories_data.geometry := square;
     territories_data.level := 1;
     territories_data.properties := ∅;
     territories_data.centre_point := point;
     territories_data.admin_center := None;
     territories_data.okato_code := None |}.

(** One service of type 1 and capacity 10, located in territory 1. *)
Definition hierarchy : Territories.Db Geometry.t :=
  {| Territories.territories :=
       [territory 1 None; territory 2 (Some 1); territory 3 (Some 2)];
     Territories.territories_seq := 4;
     Territories.services :=
       [{| services_data.service_id := 1;
           services_data.service_type_id := Some 1;
           services_data.capacity_real := Some 10 |}];
     Territories.urban_objects :=
       [{| urban_objects_data.service_id := Some 1;
           urban_objects_data.object_geometry_id := 1 |}];
     Territories.object_geometries :=
       [{| object_geometries_data.object_geometry_id := 1;
           object_geometries_data.territory_id := 1 |}] |}.

(** One functional zone of type 2 in territory 1. *)
Definition zones : list (functional_zones_data.row Geometry.t) :=
  [{| functional_zones_data.functional_zone_id := 5;
      functional_zones_data.territory_id := Some 1;
      functional_zones_data.functional_zone_type_id := Some 2;
      functional_zones_data.geometry := square |}].

(** One territory at the root, stored with the parent id 0. *)
Definition rooted : Territories.Db Geometry.t :=
  {| Territories.territories := [territory 1 (Some 0)];
     Territories.territories_seq := 2;
     Territories.services := [];
     Territories.urban_objects := [];
     Territories.object_geometries := [] |}.

(** Two territories, each the parent of the other. *)
Definition cyclic : Territories.Db Geometry.t :=
  {| Territories.territories := [territory 1 (Some 2); territory 2 (Some 1)];
     Territories.territories_seq := 3;
     Territories.services := [];
     Territories.urban_objects := [];
     Territories.object_geometries := [] |}.

Definition empty_db : Territories.Db Geometry.t :=
  {| Territories.territories := [];
     Territories.territories_seq := 1;
     Territories.services := [];
     Territories.urban_objects := [];
     Territories.object_geometries := [] |}.

Definition session (db : Territories.Db Geometry.t) : Territories.Session Geometry.t :=
  {| Territories.tables := db; Territories.committed := db |}.

(** A creation spec with the given parent. *)
Definition post (parent : option Z) : Territories.TerritoriesDataPost :=
  {| Territories.post_territory_type_id := Some 1;
     Territories.post_parent_id := parent;
     Territories.post_name := "territory";
     Territories.post_geometry := square;
     Territories.post_level := 1;
     Territories.post_properties := ∅;
     Territories.post_centre_point := point;
     Territories.post_admin_center := None;
     Territories.post_okato_code := None |}.

End Sample.

(** * Properties *)

(** ** Strings *)

Lemma contains_colon_app (pre suf : string) :
  contains_colon (pre ++ String colon suf) = true.
Proof.
  induction pre as [|ch pre IH]; simpl.
  - reflexivity.
  - rewrite IH. apply orb_true_r.
Qed.

Lemma rindex_colon_None (s : string) :
  contains_colon s = false -> rindex_colon s = None.
Proof.
  induction s as [|ch s IH]; simpl; intros H.
  - reflexivity.
  - apply orb_false_elim in H as [Hc Hs]. rewrite (IH Hs), Hc. reflexivity.
Qed.

Lemma rindex_colon_last (pre suf : string) :
  contains_colon suf = false ->
  rindex_colon (pre ++ String colon suf) = Some (String.length pre).
Proof.
  intros Hsuf. induction pre as [|ch pre IH]; simpl.
  - rewrite (rindex_colon_None suf Hsuf). reflexivity.
  - rewrite IH. reflexivity.
Qed.

Lemma slice_from_app (pre suf : string) :
  slice_from (String.length pre + 1) (pre ++ String colon suf) = suf.
Proof.
  induction pre as [|ch pre IH]; simpl.
  - reflexivity.
  - exact IH.
Qed.

(** ** int *)

Lemma digit_is_not_space (c : ascii) : is_digit c -> is_space c = false.
Proof.
  unfold is_digit, digit_value, is_space. intros [d Hd].
  destruct (48 <=? nat_of_ascii c)%nat eqn:Hlo; [|discriminate].
  destruct (nat_of_ascii c <=? 57)%nat eqn:Hhi; [|discriminate].
  apply Nat.leb_le in Hlo. apply Nat.leb_le in Hhi.
  replace (nat_of_ascii c <=? 13)%nat with false by (symmetry; apply Nat.leb_gt; lia).
  replace (nat_of_ascii c =? 32)%nat with false by (symmetry; apply Nat.eqb_neq; lia).
  replace (nat_of_ascii c =? 133)%nat with false by (symmetry; apply Nat.eqb_neq; lia).
  replace (nat_of_ascii c =? 160)%nat with false by (symmetry; apply Nat.eqb_neq; lia).
  rewrite !andb_false_r. reflexivity.
Qed.

Lemma digit_is_not (c x : ascii) :
  is_digit c -> digit_value x = None -> Ascii.eqb c x = false.
Proof.
  intros [d Hd] Hx. destruct (Ascii.eqb_spec c x) as [->|]; [congruence|reflexivity].
Qed.

Lemma lstrip_digit (c : ascii) (s : list ascii) : is_digit c -> lstrip (c :: s) = c :: s.
Proof. intros Hc. simpl. rewrite (digit_is_not_space c Hc). reflexivity. Qed.

Lemma lstrip_digits (digits : list ascii) :
  Forall is_digit digits -> lstrip digits = digits.
Proof.
  intros Hall. destruct digits as [|c digits]; [reflexivity|].
  apply lstrip_digit. exact (Forall_inv Hall).
Qed.

Lemma read_sign_digits (digits : list ascii) :
  Forall is_digit digits -> read_sign digits = (false, digits).
Proof.
  intros Hall. destruct digits as [|c digits]; [reflexivity|].
  pose proof (Forall_inv Hall) as Hc. unfold read_sign.
  rewrite (digit_is_not c "-"%char Hc eq_refl), (digit_is_not c "+"%char Hc eq_refl).
  reflexivity.
Qed.

Lemma scan_digits (digits : list ascii) :
  Forall is_digit digits -> scan digits = (digits, []).
Proof.
  intros Hall. induction Hall as [|c digits [d Hd] _ IH]; [reflexivity|].
  cbn [scan]. rewrite Hd, IH. reflexivity.
Qed.

Lemma parse_digits_all (digits : list ascii) (acc : Z) :
  Forall is_digit digits ->
  parse_digits acc true digits
  = Some (fold_left (fun acc c => 10 * acc + default 0 (digit_value c)) digits acc).
Proof.
  intros Hall. revert acc. induction Hall as [|c digits [d Hd] _ IH]; intros acc.
  - reflexivity.
  - simpl. rewrite Hd. simpl. apply IH.
Qed.

Lemma parse_digits_first (digits : list ascii) :
  digits <> [] -> Forall is_digit digits ->
  parse_digits 0 false digits = Some (decimal digits).
Proof.
  intros Hne Hall. destruct digits as [|c digits]; [congruence|].
  pose proof (Forall_inv Hall) as [d Hd]. apply Forall_inv_tail in Hall.
  simpl. rewrite Hd. rewrite (parse_digits_all digits _ Hall).
  unfold decimal. simpl. rewrite Hd. reflexivity.
Qed.

Lemma count_digits_all (digits : list ascii) :
  Forall is_digit digits -> count_digits digits = length digits.
Proof.
  intros Hall. unfold count_digits. induction Hall as [|c digits Hc _ IH].
  - reflexivity.
  - rewrite filter_cons_True by exact Hc. cbn [length]. rewrite IH. reflexivity.
Qed.

(** What [int] does once the whitespace and the sign are read, when decimal
    digits and nothing else follow. *)
Lemma py_int_after_sign (s : string) (negative : bool) (digits : list ascii) :
  read_sign (lstrip (list_ascii_of_string s)) = (negative, digits) ->
  digits <> [] -> Forall is_digit digits ->
  py_int s
  = if (int_max_str_digits <? length digits)%nat
    then Raise (ValueError "Exceeds the limit (4300 digits) for integer string conversion")
    else Ok (if negative then - decimal digits else decimal digits).
Proof.
  intros Hsign Hne Hall. unfold py_int. rewrite Hsign. cbn [fst snd].
  rewrite (scan_digits digits Hall). cbn [fst snd].
  rewrite (parse_digits_first digits Hne Hall), (count_digits_all digits Hall).
  destruct (int_max_str_digits <? length digits)%nat; reflexivity.
Qed.

Lemma within_limit (n : nat) :
  (n <= int_max_str_digits)%nat -> (int_max_str_digits <? n)%nat = false.
Proof. intros H. apply Nat.ltb_ge. exact H. Qed.

Lemma py_int_digits (digits : list ascii) :
  digits <> [] -> Forall is_digit digits ->
  (length digits <= int_max_str_digits)%nat ->
  py_int (string_of_list_ascii digits) = Ok (decimal digits).
Proof.
  intros Hne Hall Hlimit.
  rewrite (py_int_after_sign _ false digits); [|
    rewrite list_ascii_of_string_of_list_ascii, (lstrip_digits digits Hall);
    exact (read_sign_digits digits Hall) | exact Hne | exact Hall].
  rewrite (within_limit _ Hlimit). reflexivity.
Qed.

Lemma py_int_too_long (digits : list ascii) :
  Forall is_digit digits ->
  (int_max_str_digits < length digits)%nat ->
  py_int (string_of_list_ascii digits)
  = Raise (ValueError "Exceeds the limit (4300 digits) for integer string conversion").
Proof.
  intros Hall Hlimit.
  rewrite (py_int_after_sign _ false digits); [|
    rewrite list_ascii_of_string_of_list_ascii, (lstrip_digits digits Hall);
    exact (read_sign_digits digits Hall) | | exact Hall].
  - apply Nat.ltb_lt in Hlimit. rewrite Hlimit. reflexivity.
  - intros ->. cbn [length] in Hlimit. lia.
Qed.

Lemma digits_have_no_colon (digits : list ascii) :
  Forall is_digit digits -> contains_colon (string_of_list_ascii digits) = false.
Proof.
  intros Hall. induction Hall as [|c digits Hc _ IH]; simpl.
  - reflexivity.
  - rewrite IH, (digit_is_not c colon Hc eq_refl). reflexivity.
Qed.

(** ** Crs.code *)

Example code_crs_4326 : Crs.code Crs.crs_4326 = Ok 4326.
Proof. reflexivity. Qed.

Example code_crs_3857 : Crs.code Crs.crs_3857 = Ok 3857.
Proof. reflexivity. Qed.

Example code_non_numeric : Crs.code (Crs.named "urn:ogc:def:crs:EPSG:WGS84")
  = Raise (ValueError "something wrong with crs name").
Proof. reflexivity. Qed.

Example code_empty_suffix : Crs.code (Crs.named "EPSG:")
  = Raise (ValueError "something wrong with crs name").
Proof. reflexivity. Qed.

(** What [int] skips and what it does not: blanks and the no-break space
    around the digits, not the separator characters 28 to 31; an underscore
    between two digits, not two of them, nor one at an end. *)
Example int_whitespace_and_underscores :
  py_int " 43_26 " = Ok 4326
  /\ py_int (String (ascii_of_nat 160) "4326") = Ok 4326
  /\ py_int (String (ascii_of_nat 28) "4326")
     = Raise (ValueError "invalid literal for int() with base 10")
  /\ py_int "43__26" = Raise (ValueError "invalid literal for int() with base 10")
  /\ py_int "4326_" = Raise (ValueError "invalid literal for int() with base 10")
  /\ py_int "+-4326" = Raise (ValueError "invalid literal for int() with base 10")
  /\ py_int "43 26" = Raise (ValueError "invalid literal for int() with base 10").
Proof. repeat split; vm_compute; reflexivity. Qed.

Lemma code_after_last_colon (self : Crs.t) (pre suf : string) :
  Crs.properties self !! "name" = Some (PyStr (pre ++ String colon suf)) ->
  contains_colon suf = false ->
  Crs.code self = Crs.int_or_invalid suf.
Proof.
  intros Hname Hsuf. unfold Crs.code. rewrite Hname.
  rewrite contains_colon_app, (rindex_colon_last pre suf Hsuf), slice_from_app.
  reflexivity.
Qed.

Lemma code_without_colon (self : Crs.t) (name : string) :
  Crs.properties self !! "name" = Some (PyStr name) ->
  contains_colon name = false ->
  Crs.code self = Crs.int_or_invalid name.
Proof.
  intros Hname Hno. unfold Crs.code. rewrite Hname, Hno. reflexivity.
Qed.

(** C7, as stated, fails: a name without a colon does not make [code] raise
    when the name itself is a number. *)
Lemma code_no_colon_returns :
  contains_colon "4326" = false /\ Crs.code (Crs.named "4326") = Ok 4326.
Proof. split; reflexivity. Qed.

(** The outcome of the conversion: the integer that [int] reads, and the
    [ValueError] of the handler exactly when [int] reads none. *)
Lemma int_or_invalid_spec (text : string) :
  (forall z, Crs.int_or_invalid text = Ok z <-> py_int text = Ok z)
  /\ (Crs.int_or_invalid text = Raise (ValueError "something wrong with crs name")
      <-> forall z, py_int text <> Ok z).
Proof.
  unfold Crs.int_or_invalid. destruct (py_int text) as [z|e]; simpl; split.
  - intros z'. reflexivity.
  - split; [discriminate|]. intros Hnot. destruct (Hnot z). reflexivity.
  - intros z'. split; discriminate.
  - split; [discriminate|reflexivity].
Qed.

(** C7 (amended).  For a CRS whose name is a string, [code] converts the text
    after the last colon of the name, and the whole name when it has no
    colon; it returns the integer that [int] reads there, and raises the
    [ValueError] of its handler when [int] reads none.  In particular a name
    that ends, after its last colon, in decimal digits gives their value
    when they are no more than [int] converts, and the [ValueError] of the
    handler when they are more. *)
Theorem code_parses_trailing_integer (self : Crs.t) (name : string) :
  Crs.properties self !! "name" = Some (PyStr name) ->
  (forall pre suf, name = pre ++ String colon suf -> contains_colon suf = false ->
     Crs.code self = Crs.int_or_invalid suf)
  /\ (contains_colon name = false -> Crs.code self = Crs.int_or_invalid name)
  /\ (forall pre digits,
        name = pre ++ String colon (string_of_list_ascii digits) ->
        digits <> [] -> Forall is_digit digits ->
        (length digits <= int_max_str_digits)%nat ->
        Crs.code self = Ok (decimal digits))
  /\ (forall pre digits,
        name = pre ++ String colon (string_of_list_ascii digits) ->
        Forall is_digit digits ->
        (int_max_str_digits < length digits)%nat ->
        Crs.code self = Raise (ValueError "something wrong with crs name")).
Proof.
  intros Hname. split; [|split; [|split]].
  - intros pre suf -> Hsuf. exact (code_after_last_colon self pre suf Hname Hsuf).
  - intros Hno. exact (code_without_colon self name Hname Hno).
  - intros pre digits -> Hne Hall Hlimit.
    rewrite (code_after_last_colon self pre _ Hname (digits_have_no_colon digits Hall)).
    unfold Crs.int_or_invalid. rewrite (py_int_digits digits Hne Hall Hlimit). reflexivity.
  - intros pre digits -> Hall Hlimit.
    rewrite (code_after_last_colon self pre _ Hname (digits_have_no_colon digits Hall)).
    unfold Crs.int_or_invalid. rewrite (py_int_too_long digits Hall Hlimit). reflexivity.
Qed.

Lemma code_parses_trailing_integer_witness :
  Crs.code Crs.crs_4326 = Crs.int_or_invalid "4326"
  /\ Crs.code Crs.crs_4326 = Ok (decimal ["4"; "3"; "2"; "6"]%char).
Proof.
  destruct (code_parses_trailing_integer Crs.crs_4326 "urn:ogc:def:crs:EPSG:4326")
    as (Hlast & _ & Hdigits & _).
  - reflexivity.
  - split.
    + apply (Hlast "urn:ogc:def:crs:EPSG"); reflexivity.
    + apply (Hdigits "urn:ogc:def:crs:EPSG").
      * reflexivity.
      * discriminate.
      * repeat constructor; eexists; reflexivity.
      * unfold int_max_str_digits. cbn [length]. lia.
Defined.

(** ** Crs.code: signs and errors *)

Lemma py_int_signed (negative : bool) (digits : list ascii) :
  digits <> [] -> Forall is_digit digits ->
  (length digits <= int_max_str_digits)%nat ->
  py_int (String (if negative then "-" else "+")%char (string_of_list_ascii digits))
  = Ok (if negative then - decimal digits else decimal digits).
Proof.
  intros Hne Hall Hlimit.
  rewrite (py_int_after_sign _ negative digits); [| |exact Hne|exact Hall].
  - rewrite (within_limit _ Hlimit). reflexivity.
  - cbn [list_ascii_of_string]. rewrite list_ascii_of_string_of_list_ascii.
    destruct negative; reflexivity.
Qed.

(** A signed code.  [int] allows one sign before the digits: a name whose
    text after the last colon is a minus sign followed by decimal digits, no
    more of them than [int] converts, has the negated value as its code,
    and a plus sign is skipped. *)
Theorem code_reads_a_sign (self : Crs.t) (pre : string) (digits : list ascii) :
  digits <> [] -> Forall is_digit digits ->
  (length digits <= int_max_str_digits)%nat ->
  (Crs.properties self !! "name"
   = Some (PyStr (pre ++ String colon (String "-" (string_of_list_ascii digits)))) ->
   Crs.code self = Ok (- decimal digits))
  /\ (Crs.properties self !! "name"
      = Some (PyStr (pre ++ String colon (String "+" (string_of_list_ascii digits)))) ->
      Crs.code self = Ok (decimal digits)).
Proof.
  intros Hne Hall Hlimit.
  assert (Hsigned : forall sign : ascii,
            Ascii.eqb sign colon = false ->
            Crs.properties self !! "name"
            = Some (PyStr (pre ++ String colon (String sign (string_of_list_ascii digits)))) ->
            Crs.code self
            = Crs.int_or_invalid (String sign (string_of_list_ascii digits))).
  { intros sign Hcolon Hname.
    apply (code_after_last_colon self pre _ Hname). cbn [contains_colon].
    rewrite Hcolon, (digits_have_no_colon digits Hall). reflexivity. }
  split; intros Hname.
  - rewrite (Hsigned "-"%char eq_refl Hname). unfold Crs.int_or_invalid.
    rewrite (py_int_signed true digits Hne Hall Hlimit). reflexivity.
  - rewrite (Hsigned "+"%char eq_refl Hname). unfold Crs.int_or_invalid.
    rewrite (py_int_signed false digits Hne Hall Hlimit). reflexivity.
Qed.

(** The errors of [code].  The name is looked up before the [try]: a CRS
    without a name raises [KeyError], and only then.  Everything else that
    fails, a name that is not a string included, raises the [ValueError] of
    the handler: no other exception leaves [code]. *)
Theorem code_errors (self : Crs.t) :
  (Crs.code self = Raise (KeyError "name") <-> Crs.properties self !! "name" = None)
  /\ (forall e, Crs.code self = Raise e ->
                e = KeyError "name" \/ e = ValueError "something wrong with crs name")
  /\ (forall name, Crs.properties self !! "name" = Some name ->
                   (forall text, name <> PyStr text) ->
                   Crs.code self = Raise (ValueError "something wrong with crs name")).
Proof.
  unfold Crs.code. destruct (Crs.properties self !! "name") as [name|].
  - split; [|split].
    + split; [|discriminate].
      destruct name as [| | | |text| |]; cbn [try_except]; try discriminate.
      destruct (if contains_colon text then _ else _); discriminate.
    + intros e He. right.
      destruct name as [| | | |text| |]; cbn [try_except] in He; try congruence.
      destruct (if contains_colon text then _ else _); cbn in He; congruence.
    + intros name' Hname Hnot. injection Hname as <-.
      destruct name as [| | | |text| |]; try reflexivity. destruct (Hnot text). reflexivity.
  - split; [|split].
    + split; reflexivity.
    + intros e He. left. congruence.
    + intros name Hname. discriminate.
Qed.

Lemma code_reads_a_sign_witness :
  Crs.code (Crs.named "urn:ogc:def:crs:EPSG:-1") = Ok (-1)
  /\ Crs.code (Crs.named "EPSG:+1") = Ok 1.
Proof.
  destruct (code_reads_a_sign (Crs.named "urn:ogc:def:crs:EPSG:-1") "urn:ogc:def:crs:EPSG"
              ["1"%char]) as [Hminus _].
  - discriminate.
  - repeat constructor. eexists. reflexivity.
  - unfold int_max_str_digits. cbn [length]. lia.
  - destruct (code_reads_a_sign (Crs.named "EPSG:+1") "EPSG" ["1"%char]) as [_ Hplus].
    + discriminate.
    + repeat constructor. eexists. reflexivity.
    + unfold int_max_str_digits. cbn [length]. lia.
    + split; [apply Hminus|apply Hplus]; reflexivity.
Defined.

(** ** Geometry *)

Lemma validate_type_name (ty : Geometry.GeometryType) :
  Geometry.validate_type (PyStr (Geometry.type_name ty)) = Ok ty.
Proof. destruct ty; reflexivity. Qed.

Lemma tagged_type (ty : Geometry.GeometryType) (payload : list Any) :
  Geometry.tagged ty payload !! "type" = Some (PyStr (Geometry.type_name ty)).
Proof. unfold Geometry.tagged. apply lookup_insert_eq. Qed.

Lemma tagged_coordinates (ty : Geometry.GeometryType) (payload : list Any) :
  Geometry.tagged ty payload !! "coordinates" = Some (PyList payload).
Proof.
  unfold Geometry.tagged. rewrite lookup_insert_ne by discriminate.
  apply lookup_insert_eq.
Qed.

(** C6, as stated, fails: the payload of a point under the tag [Polygon]
    does not have the shape of a polygon, and it is parsed into a [Geometry]
    that holds this tag and this payload. *)
Lemma parse_accepts_point_payload_as_polygon :
  Geometry.shape_matches Geometry.Polygon [PyFloat 30.22; PyFloat 59.86] = false
  /\ Geometry.shape_matches Geometry.Point [PyFloat 30.22; PyFloat 59.86] = true
  /\ Geometry.parse (Geometry.tagged Geometry.Polygon [PyFloat 30.22; PyFloat 59.86])
     = Ok {| Geometry.type := Geometry.Polygon;
             Geometry.coordinates := [PyFloat 30.22; PyFloat 59.86] |}.
Proof.
  split; [reflexivity|]. split; [reflexivity|].
  unfold Geometry.parse. rewrite tagged_type, tagged_coordinates. reflexivity.
Qed.

(** C6 (amended).  Parsing checks the tag and that the coordinates are a
    list, and nothing of the payload's shape: for each of the four tags and
    every payload, whatever its shape, the tagged structure is parsed into
    the [Geometry] with that tag and that payload. *)
Theorem parse_ignores_payload_shape (ty : Geometry.GeometryType) (payload : list Any) :
  Geometry.parse (Geometry.tagged ty payload)
  = Ok {| Geometry.type := ty; Geometry.coordinates := payload |}.
Proof.
  unfold Geometry.parse.
  rewrite tagged_type, tagged_coordinates, validate_type_name.
  reflexivity.
Qed.

(** A structure whose tag is none of the four literals is refused, with the
    validation error of the model. *)
Lemma parse_unknown_tag (raw : gmap string Any) (tag : string) :
  raw !! "type" = Some (PyStr tag) ->
  (forall ty, tag <> Geometry.type_name ty) ->
  Geometry.parse raw = Raise ValidationError.
Proof.
  intros Htype Hnot. unfold Geometry.parse. rewrite Htype. simpl.
  destruct (String.eqb_spec tag "Point") as [->|_].
  { destruct (Hnot Geometry.Point). reflexivity. }
  destruct (String.eqb_spec tag "Polygon") as [->|_].
  { destruct (Hnot Geometry.Polygon). reflexivity. }
  destruct (String.eqb_spec tag "MultiPolygon") as [->|_].
  { destruct (Hnot Geometry.MultiPolygon). reflexivity. }
  destruct (String.eqb_spec tag "LineString") as [->|_].
  { destruct (Hnot Geometry.LineString). reflexivity. }
  reflexivity.
Qed.

(** ** Feature *)

Section FeatureProperties.

Variable json_loads : string -> Result Any.

Lemma drop_nulls_null (row : gmap string Any) (column : string) :
  row !! column = Some PyNone -> Feature.drop_nulls row !! column = None.
Proof.
  intros Hnull. unfold Feature.drop_nulls.
  apply map_lookup_filter_None. right. intros v Hv. simpl.
  rewrite Hnull in Hv. injection Hv as <-. discriminate.
Qed.

Lemma from_dict_null_geometry (row : gmap string Any) (column : string) :
  row !! column = Some PyNone ->
  Feature.from_dict json_loads row column false = Raise (KeyError column).
Proof.
  intros Hnull. unfold Feature.from_dict. simpl.
  rewrite (drop_nulls_null row column Hnull). reflexivity.
Qed.

Lemma from_series_null_geometry (series : Feature.Series) (column : string) :
  Feature.to_dict series !! column = Some PyNone ->
  Feature.from_series json_loads series column false = Raise (KeyError column).
Proof.
  intros Hnull. unfold Feature.from_series. simpl.
  rewrite (drop_nulls_null _ column Hnull). reflexivity.
Qed.

Lemma from_row_null_geometry (row : gmap string Any) (column : string)
  (include_nulls : bool) :
  row !! column = Some PyNone ->
  Feature.from_row json_loads row column include_nulls = Raise ValidationError.
Proof.
  intros Hnull. unfold Feature.from_row. rewrite Hnull. reflexivity.
Qed.

End FeatureProperties.

(** C10.  For a row whose geometry column holds null and
    [include_nulls = False], [from_dict] and [from_series] raise [KeyError]
    for the geometry column: the filter has dropped it before it is looked
    up.  [from_row] reads the geometry first: it does not raise that error
    (the null geometry is then refused by the validation of the model). *)
Theorem null_geometry_is_dropped_before_lookup
  (json_loads : string -> Result Any) (row : gmap string Any) (column : string) :
  row !! column = Some PyNone ->
  Feature.from_dict json_loads row column false = Raise (KeyError column)
  /\ Feature.from_series json_loads {| Feature.to_dict := row |} column false
     = Raise (KeyError column)
  /\ Feature.from_row json_loads row column false <> Raise (KeyError column)
  /\ Feature.from_row json_loads row column false = Raise ValidationError.
Proof.
  intros Hnull. split; [|split; [|split]].
  - exact (from_dict_null_geometry json_loads row column Hnull).
  - exact (from_series_null_geometry json_loads {| Feature.to_dict := row |} column Hnull).
  - rewrite (from_row_null_geometry json_loads row column false Hnull). discriminate.
  - exact (from_row_null_geometry json_loads row column false Hnull).
Qed.

(** ** Feature: the three constructors *)

Section FeatureConstructors.

Variable json_loads : string -> Result Any.

Lemma delete_as_filter (column : string) (row : gmap string Any) :
  delete column row = filter (fun item : string * Any => item.1 <> column) row.
Proof.
  apply map_eq. intros k. apply option_eq. intros v.
  rewrite lookup_delete_Some, map_lookup_filter_Some. cbn. split.
  - intros [Hne Hv]. split; [exact Hv|]. intros Heq. exact (Hne (eq_sym Heq)).
  - intros [Hv Hne]. split; [|exact Hv]. intros Heq. exact (Hne (eq_sym Heq)).
Qed.

Lemma delete_drop_nulls (column : string) (row : gmap string Any) :
  delete column (Feature.drop_nulls row)
  = filter (fun item : string * Any => item.1 <> column /\ is_not_None item.2 = true) row.
Proof.
  apply map_eq. intros k. apply option_eq. intros v. unfold Feature.drop_nulls.
  rewrite lookup_delete_Some, !map_lookup_filter_Some. cbn. split.
  - intros [Hne [Hv Hnn]]. split; [exact Hv|]. split; [|exact Hnn].
    intros Heq. exact (Hne (eq_sym Heq)).
  - intros [Hv [Hne Hnn]]. split; [|split; assumption].
    intros Heq. exact (Hne (eq_sym Heq)).
Qed.

Lemma drop_nulls_lookup (row : gmap string Any) (column : string) (v : Any) :
  row !! column = Some v -> v <> PyNone -> Feature.drop_nulls row !! column = Some v.
Proof.
  intros Hv Hnn. unfold Feature.drop_nulls. apply map_lookup_filter_Some.
  split; [exact Hv|]. cbn. destruct v; try reflexivity. destruct Hnn. reflexivity.
Qed.

Lemma drop_nulls_missing (row : gmap string Any) (column : string) :
  row !! column = None -> Feature.drop_nulls row !! column = None.
Proof.
  intros Hv. unfold Feature.drop_nulls. apply map_lookup_filter_None. left. exact Hv.
Qed.

Lemma from_dict_as_from_row (row : gmap string Any) (column : string)
  (include_nulls : bool) :
  include_nulls = true \/ row !! column <> Some PyNone ->
  Feature.from_dict json_loads row column include_nulls
  = Feature.from_row json_loads row column include_nulls.
Proof.
  intros Hcase. unfold Feature.from_dict, Feature.from_row.
  destruct include_nulls; cbn [negb].
  - destruct (row !! column) as [geometry|]; [|reflexivity].
    rewrite delete_as_filter. reflexivity.
  - destruct Hcase as [Hcase|Hcase]; [discriminate|].
    destruct (row !! column) as [geometry|] eqn:Hgeometry.
    + rewrite (drop_nulls_lookup row column geometry Hgeometry)
        by (intros ->; exact (Hcase eq_refl)).
      rewrite delete_drop_nulls. reflexivity.
    + rewrite (drop_nulls_missing row column Hgeometry). reflexivity.
Qed.

Lemma from_series_as_from_dict (row : gmap string Any) (column : string)
  (include_nulls : bool) :
  Feature.from_series json_loads {| Feature.to_dict := row |} column include_nulls
  = Feature.from_dict json_loads row column include_nulls.
Proof. reflexivity. Qed.

(** The three constructors of [Feature] agree, on the outcome and on the
    error, whenever nulls are kept or the geometry column does not hold
    null: the only input that tells them apart is the null geometry with
    [include_nulls = False]. *)
Theorem constructors_agree (row : gmap string Any) (column : string)
  (include_nulls : bool) :
  include_nulls = true \/ row !! column <> Some PyNone ->
  Feature.from_dict json_loads row column include_nulls
  = Feature.from_row json_loads row column include_nulls
  /\ Feature.from_series json_loads {| Feature.to_dict := row |} column include_nulls
     = Feature.from_row json_loads row column include_nulls.
Proof.
  intros Hcase. split.
  - exact (from_dict_as_from_row row column include_nulls Hcase).
  - rewrite from_series_as_from_dict.
    exact (from_dict_as_from_row row column include_nulls Hcase).
Qed.

(** The shape of a feature.  Whichever constructor returns a feature, its
    geometry is the one parsed from the geometry column, decoded first when
    it holds JSON text, and its properties are the other entries of the
    row: the geometry column is never among them, nor is a null value when
    [include_nulls = False], and every other entry is kept as it is. *)
Theorem feature_shape (row : gmap string Any) (column : string) (include_nulls : bool)
  (feature : Feature.t) :
  Feature.from_dict json_loads row column include_nulls = Ok feature
  \/ Feature.from_series json_loads {| Feature.to_dict := row |} column include_nulls
     = Ok feature
  \/ Feature.from_row json_loads row column include_nulls = Ok feature ->
  (exists geometry raw,
     row !! column = Some geometry
     /\ Feature.decode_geometry json_loads geometry = Ok (PyDict raw)
     /\ Geometry.parse raw = Ok (Feature.geometry feature))
  /\ Feature.properties feature !! column = None
  /\ (forall name value,
        Feature.properties feature !! name = Some value
        <-> name <> column /\ row !! name = Some value
            /\ (include_nulls = false -> value <> PyNone)).
Proof.
  intros Hconstructed.
  assert (Hrow : Feature.from_row json_loads row column include_nulls = Ok feature).
  { assert (Hcases : (include_nulls = true \/ row !! column <> Some PyNone)
                     \/ (include_nulls = false /\ row !! column = Some PyNone)).
    { destruct include_nulls; [left; left; reflexivity|].
      destruct (row !! column) as [[]|];
        try (left; right; discriminate). right. split; reflexivity. }
    destruct Hcases as [Hcase|[-> Hnull]].
    - pose proof (from_dict_as_from_row row column include_nulls Hcase) as Hdict.
      destruct Hconstructed as [H|[H|H]];
        [rewrite <- Hdict|rewrite <- Hdict, <- from_series_as_from_dict|]; exact H.
    - destruct Hconstructed as [H|[H|H]].
      + rewrite (from_dict_null_geometry json_loads row column Hnull) in H. discriminate.
      + rewrite (from_series_null_geometry json_loads {| Feature.to_dict := row |}
                   column Hnull) in H. discriminate.
      + exact H. }
  clear Hconstructed. unfold Feature.from_row in Hrow.
  destruct (row !! column) as [geometry|] eqn:Hgeometry; [|discriminate].
  destruct (Feature.decode_geometry json_loads geometry) as [decoded|e] eqn:Hdecoded;
    [|discriminate].
  cbn [bind] in Hrow. unfold Feature.make in Hrow.
  destruct decoded as [| | | | | |raw]; try discriminate.
  destruct (Geometry.parse raw) as [g|e] eqn:Hparse; [|discriminate].
  cbn [bind] in Hrow. injection Hrow as <-.
  cbn [Feature.geometry Feature.properties].
  split; [exists geometry, raw; repeat split; reflexivity || assumption|].
  destruct include_nulls.
  - split.
    + apply map_lookup_filter_None. right. intros v _ Hne. exact (Hne eq_refl).
    + intros name value. rewrite map_lookup_filter_Some. cbn. split.
      * intros [Hv Hne]. split; [exact Hne|]. split; [exact Hv|discriminate].
      * intros [Hne [Hv _]]. split; assumption.
  - split.
    + apply map_lookup_filter_None. right. intros v _ [Hne _]. exact (Hne eq_refl).
    + intros name value. rewrite map_lookup_filter_Some. cbn. split.
      * intros [Hv [Hne Hnn]]. split; [exact Hne|]. split; [exact Hv|].
        intros _ ->. discriminate.
      * intros [Hne [Hv Hnn]]. split; [exact Hv|]. split; [exact Hne|].
        destruct value; try reflexivity. destruct (Hnn eq_refl). reflexivity.
Qed.

End FeatureConstructors.

(** ** GeoJSONResponse.from_list *)

Section FromList.

Variable json_loads : string -> Result Any.
Variable dict_of_row : gmap string Any -> Result (gmap string Any).

Lemma comprehension_Ok {A B} (f : A -> Result B) (l : list A) (bs : list B) :
  GeoJSONResponse.comprehension f l = Ok bs <-> Forall2 (fun a b => f a = Ok b) l bs.
Proof.
  revert bs. induction l as [|a l IH]; intros bs; cbn [GeoJSONResponse.comprehension].
  - split.
    + intros H. injection H as <-. constructor.
    + intros H. inversion H. reflexivity.
  - destruct (f a) as [b|e] eqn:Hb; cbn [bind].
    + destruct (GeoJSONResponse.comprehension f l) as [bs'|e] eqn:Hbs; cbn [bind].
      * split.
        -- intros H. injection H as <-. constructor; [exact Hb|]. apply IH. reflexivity.
        -- intros H. inversion H as [|a' b' l' bs'' Hb' Hrest]; subst.
           apply IH in Hrest. congruence.
      * split; [discriminate|].
        intros H. inversion H as [|a' b' l' bs'' Hb' Hrest]; subst.
        apply IH in Hrest. discriminate.
    + split; [discriminate|].
      intros H. inversion H as [|a' b' l' bs'' Hb' Hrest]; subst. congruence.
Qed.

Lemma collection_Ok {A} (f : A -> Result Feature.t) (items : list A) (crs : Crs.t)
  (response : GeoJSONResponse.t) :
  (features <- GeoJSONResponse.comprehension f items ;;
   Ok {| GeoJSONResponse.crs := crs; GeoJSONResponse.features := features |})
  = Ok response
  <-> GeoJSONResponse.crs response = crs
      /\ Forall2 (fun item feature => f item = Ok feature) items
           (GeoJSONResponse.features response).
Proof.
  destruct response as [crs' features].
  cbn [GeoJSONResponse.crs GeoJSONResponse.features].
  destruct (GeoJSONResponse.comprehension f items) as [built|e] eqn:Hbuilt; cbn [bind].
  - apply comprehension_Ok in Hbuilt. split.
    + intros H. injection H as <- <-. split; [reflexivity|exact Hbuilt].
    + intros [-> H]. apply comprehension_Ok in H, Hbuilt. congruence.
  - split; [discriminate|]. intros [_ H]. apply comprehension_Ok in H. congruence.
Qed.

(** [from_list] reads its argument twice: once for the first item, whose
    type alone chooses the constructor for all the items, and once for the
    features.  For a sequence it returns a collection exactly when the
    constructor chosen by the first item accepts every item, and the
    features are then those of the items, in order, under the given CRS.
    For an iterator the first item is gone when the features are built:
    the collection is that of the items after the first, under the
    constructor that the item taken chose; it is the outcome of the
    sequence of the items after the first when there is none, or when the
    first of them is a [Row] exactly when the item taken is. *)
Theorem from_list_reads_twice (items : list GeoJSONResponse.Item)
  (geometry_field : string) (crs : Crs.t) (include_nulls : bool) :
  (forall response,
     GeoJSONResponse.from_list json_loads dict_of_row (GeoJSONResponse.Sequence items)
       geometry_field crs include_nulls = Ok response
     <-> GeoJSONResponse.crs response = crs
         /\ Forall2
              (fun item feature =>
                 GeoJSONResponse.func json_loads dict_of_row (head items)
                   item geometry_field include_nulls = Ok feature)
              items (GeoJSONResponse.features response))
  /\ (forall first response,
        GeoJSONResponse.from_list json_loads dict_of_row
          (GeoJSONResponse.Iterator (first :: items))
          geometry_field crs include_nulls = Ok response
        <-> GeoJSONResponse.crs response = crs
            /\ Forall2
                 (fun item feature =>
                    GeoJSONResponse.func json_loads dict_of_row (Some first)
                      item geometry_field include_nulls = Ok feature)
                 items (GeoJSONResponse.features response))
  /\ (forall first,
        items = []
        \/ GeoJSONResponse.isinstance_Row (Some first)
           = GeoJSONResponse.isinstance_Row (head items) ->
        GeoJSONResponse.from_list json_loads dict_of_row
          (GeoJSONResponse.Iterator (first :: items))
          geometry_field crs include_nulls
        = GeoJSONResponse.from_list json_loads dict_of_row
            (GeoJSONResponse.Sequence items)
            geometry_field crs include_nulls).
Proof.
  split; [|split].
  - intros response. unfold GeoJSONResponse.from_list.
    cbn [GeoJSONResponse.next_iter GeoJSONResponse.remaining].
    apply collection_Ok.
  - intros first response. unfold GeoJSONResponse.from_list.
    cbn [GeoJSONResponse.next_iter GeoJSONResponse.remaining head tail].
    apply collection_Ok.
  - intros first Hsame. unfold GeoJSONResponse.from_list.
    cbn [GeoJSONResponse.next_iter GeoJSONResponse.remaining head tail].
    destruct Hsame as [->|Hsame]; [reflexivity|].
    unfold GeoJSONResponse.func. rewrite Hsame. reflexivity.
Qed.

End FromList.

(** ** Projects *)

Lemma filter_none {A} (P : A -> Prop) `{forall x, Decision (P x)} (l : list A) :
  (forall x, In x l -> ~ P x) -> filter P l = [].
Proof.
  induction l as [|a l IH]; intros Hnot.
  - reflexivity.
  - rewrite filter_cons_False by (apply Hnot; left; reflexivity).
    apply IH. intros x Hx. apply Hnot. right. exact Hx.
Qed.

Lemma filter_primary_key (rows : list projects_data.row) (p : projects_data.row) :
  NoDup (map projects_data.project_id rows) ->
  In p rows ->
  filter (fun r => projects_data.project_id r = projects_data.project_id p) rows = [p].
Proof.
  induction rows as [|r rows IH]; intros Hnd Hin.
  - destruct Hin.
  - simpl in Hnd. apply NoDup_cons in Hnd as [Hfresh Hnd].
    destruct Hin as [->|Hin].
    + rewrite filter_cons_True by reflexivity. f_equal.
      apply filter_none. intros x Hx Heq. apply Hfresh.
      rewrite <- Heq. apply list_elem_of_In, in_map, Hx.
    + rewrite filter_cons_False.
      * apply IH; assumption.
      * intros Heq. apply Hfresh. rewrite Heq. apply list_elem_of_In, in_map, Hin.
Qed.

Lemma filter_after_update (f : projects_data.row -> projects_data.row) (id : Z)
  (rows : list projects_data.row) :
  (forall r, projects_data.project_id (f r) = projects_data.project_id r) ->
  filter (fun r => projects_data.project_id r = id)
    (map (fun r => if decide (projects_data.project_id r = id) then f r else r) rows)
  = map f (filter (fun r => projects_data.project_id r = id) rows).
Proof.
  intros Hkey. induction rows as [|r rows IH]; simpl.
  - reflexivity.
  - destruct (decide (projects_data.project_id r = id)) as [Heq|Hne].
    + rewrite !filter_cons_True; [|exact Heq|rewrite Hkey; exact Heq].
      simpl. f_equal. exact IH.
    + rewrite !filter_cons_False by exact Hne. exact IH.
Qed.

Lemma model_dump_only_name (x : string) :
  filter (fun item : string * Any => is_not_None item.2 = true)
    (Projects.model_dump (Projects.only_name x))
  = {[ "name" := PyStr x ]}.
Proof.
  apply map_eq. intros k.
  unfold Projects.model_dump, Projects.only_name. simpl.
  rewrite map_lookup_filter.
  destruct (decide (k = "name")) as [->|Hname].
  - rewrite lookup_insert_ne by discriminate.
    rewrite lookup_insert_eq. simpl. rewrite lookup_singleton_eq. reflexivity.
  - rewrite lookup_singleton_ne by congruence.
    destruct (decide (k = "user_id")) as [->|?];
      [rewrite lookup_insert_eq; reflexivity | rewrite lookup_insert_ne by congruence].
    rewrite lookup_insert_ne by congruence.
    destruct (decide (k = "description")) as [->|?];
      [rewrite lookup_insert_eq; reflexivity | rewrite lookup_insert_ne by congruence].
    destruct (decide (k = "public")) as [->|?];
      [rewrite lookup_insert_eq; reflexivity | rewrite lookup_insert_ne by congruence].
    destruct (decide (k = "image_url")) as [->|?];
      [rewrite lookup_singleton_eq; reflexivity | rewrite lookup_singleton_ne by congruence].
    reflexivity.
Qed.

Lemma set_name_only (now : Z) (x : string) (r : projects_data.row) :
  Projects.set_project_columns now {[ "name" := PyStr x ]} r = Projects.renamed now x r.
Proof.
  unfold Projects.set_project_columns, Projects.renamed.
  rewrite lookup_singleton_eq. rewrite !lookup_singleton_ne by discriminate.
  reflexivity.
Qed.

Ltac run_projects :=
  unfold Projects.post_project_to_db, Projects.delete_project_from_db,
    Projects.put_project_to_db, Projects.patch_project_to_db,
    Projects.get_project_territory_by_id_from_db, Projects.get_project_by_id_from_db,
    Projects.select_requested_project,
    Projects.select_project, Projects.select_project_territory,
    Projects.update_project, Projects.update_territory, Projects.not_found,
    Projects.constrained, Projects.typed,
    Projects.log, Projects.read, Projects.write, Projects.commit,
    bindM, ret, lift, raise;
  cbn [fst snd Projects.tables Projects.committed Projects.executed
       Projects.projects Projects.projects_territory].

(** The next statement that writes leaves tables that keep the constraints,
    which [tac] proves: it is executed. *)
Ltac accepted H tac :=
  match goal with
  | |- context [decide (Projects.consistent ?db)] =>
      assert (H : Projects.consistent db) by tac;
      rewrite (decide_True (P := Projects.consistent db)) by exact H;
      cbn [fst snd Projects.tables Projects.committed Projects.executed
           Projects.projects Projects.projects_territory]
  end.

(** The next statement that writes breaks a constraint, which [tac] proves:
    it is refused. *)
Ltac refused tac :=
  match goal with
  | |- context [decide (Projects.consistent ?db)] =>
      rewrite (decide_False (P := Projects.consistent db)) by tac;
      cbn [fst snd Projects.tables Projects.committed Projects.executed
           Projects.projects Projects.projects_territory]
  end.

Lemma values_fit_only_name (x : string) :
  Projects.project_values_fit {[ "name" := PyStr x ]} = Projects.varchar 200 x.
Proof.
  unfold Projects.project_values_fit.
  rewrite lookup_singleton_eq. rewrite !lookup_singleton_ne by discriminate.
  rewrite andb_true_r, andb_true_r. reflexivity.
Qed.

Section Patch.

Context {Geom : Type} (native : Geometry.t -> Result Geom).

(** C9.  For an existing project, the patch that holds only the name [x], a
    name that fits the column [String(200)], returns the project with the
    name [x] and [updated_at] the current time, every other column as it
    was; the rows of the other projects and every row of
    [projects_territory_data] are unchanged, the change is committed, and
    the statements executed are the select of the project, the update of
    [projects_data] and the select that re-reads the project: no statement
    is issued on [projects_territory_data]. *)
Theorem patch_name_only (now : Z) (x : string)
  (conn : Projects.Conn Geom) (p : projects_data.row) :
  Projects.primary_key (Projects.tables conn) ->
  In p (Projects.projects (Projects.tables conn)) ->
  (String.length x <= 200)%nat ->
  let outcome :=
    Projects.patch_project_to_db native now (Projects.only_name x)
      (projects_data.project_id p) conn in
  outcome.1 = Ok (Projects.renamed now x p)
  /\ Projects.projects (Projects.tables outcome.2)
     = map (fun r => if decide (projects_data.project_id r = projects_data.project_id p)
                     then Projects.renamed now x r else r)
         (Projects.projects (Projects.tables conn))
  /\ Projects.projects_territory (Projects.tables outcome.2)
     = Projects.projects_territory (Projects.tables conn)
  /\ Projects.committed outcome.2 = Projects.tables outcome.2
  /\ Projects.executed outcome.2
     = (Projects.executed conn
        ++ [Projects.Select Projects.projects_data_table;
            Projects.Update Projects.projects_data_table;
            Projects.Select Projects.projects_data_table])%list.
Proof.
  intros Hkey Hin Hfits outcome. subst outcome. run_projects.
  rewrite (filter_primary_key _ p Hkey Hin).
  cbn [one_or_none fst snd Projects.tables Projects.committed Projects.executed
       Projects.projects Projects.projects_territory Projects.only_name
       Projects.project_territory_info].
  rewrite model_dump_only_name.
  rewrite (decide_False (P := ({[ "name" := PyStr x ]} : gmap string Any) = ∅))
    by apply map_non_empty_singleton.
  rewrite values_fit_only_name.
  unfold Projects.varchar. apply Nat.leb_le in Hfits. rewrite Hfits.
  rewrite decide_True by reflexivity.
  cbn [fst snd Projects.tables Projects.committed Projects.executed
       Projects.projects Projects.projects_territory].
  rewrite (filter_after_update (Projects.set_project_columns now {[ "name" := PyStr x ]})).
  2: { intros r. reflexivity. }
  rewrite (filter_primary_key _ p Hkey Hin). cbn [map one try_except].
  rewrite set_name_only.
  split; [reflexivity|].
  split; [apply map_ext; intros r; rewrite set_name_only; reflexivity|].
  split; [reflexivity|].
  split; [reflexivity|].
  rewrite <- !app_assoc. reflexivity.
Qed.

End Patch.

(** ** Projects: the declared constraints *)

Lemma in_filter {A} (P : A -> Prop) `{forall x, Decision (P x)} (l : list A) (x : A) :
  In x (filter P l) <-> P x /\ In x l.
Proof. rewrite <- !list_elem_of_In. apply list_elem_of_filter. Qed.

Lemma NoDup_map_filter {A B} (f : A -> B) (P : A -> Prop) `{forall x, Decision (P x)}
  (l : list A) :
  NoDup (map f l) -> NoDup (map f (filter P l)).
Proof.
  induction l as [|a l IH]; intros Hnd.
  - constructor.
  - simpl in Hnd. apply NoDup_cons in Hnd as [Hfresh Hnd].
    destruct (decide (P a)) as [Ha|Ha].
    + rewrite filter_cons_True by exact Ha. simpl. apply NoDup_cons. split.
      * intros Hin. apply Hfresh. apply list_elem_of_In in Hin.
        apply in_map_iff in Hin as [x [Hx Hin]].
        apply in_filter in Hin as [_ Hin].
        apply list_elem_of_In. rewrite <- Hx. apply in_map, Hin.
      * apply IH, Hnd.
    + rewrite filter_cons_False by exact Ha. apply IH, Hnd.
Qed.

Lemma NoDup_map_app_fresh {A B} (f : A -> B) (l : list A) (a : A) :
  NoDup (map f l) -> ~ In (f a) (map f l) -> NoDup (map f (l ++ [a])).
Proof.
  intros Hnd Hfresh. rewrite map_app. apply NoDup_app. split; [exact Hnd|]. split.
  - intros x Hx Hx'. apply list_elem_of_In in Hx, Hx'. destruct Hx' as [<-|[]].
    exact (Hfresh Hx).
  - apply NoDup_singleton.
Qed.

Lemma map_update_key {A B} (f : A -> B) (P : A -> Prop) `{forall x, Decision (P x)}
  (g : A -> A) (l : list A) :
  (forall x, f (g x) = f x) ->
  map f (map (fun x => if decide (P x) then g x else x) l) = map f l.
Proof.
  intros Hkey. rewrite map_map. apply map_ext. intros x.
  destruct (decide (P x)); [apply Hkey|reflexivity].
Qed.

Lemma references_mono (ids ids' : list Z) (parent : option Z) :
  (forall id, In id ids -> In id ids') ->
  Projects.references ids parent -> Projects.references ids' parent.
Proof. intros Hsub. destruct parent as [id|]; simpl; [apply Hsub|trivial]. Qed.

Section Constraints.

Context {Geom : Type}.

Lemma consistent_primary_key (db : Projects.Db Geom) :
  Projects.consistent db -> Projects.primary_key db.
Proof. intros [Hkey _]. exact Hkey. Qed.

Lemma consistent_insert_territory (db : Projects.Db Geom)
  (t : projects_territory_data.row Geom) :
  Projects.consistent db ->
  (forall t', In t' (Projects.projects_territory db) ->
              projects_territory_data.project_territory_id t'
              <> projects_territory_data.project_territory_id t) ->
  Projects.references
    (projects_territory_data.project_territory_id t :: Projects.territory_ids db)
    (projects_territory_data.parent_id t) ->
  Projects.consistent
    {| Projects.projects := Projects.projects db;
       Projects.projects_territory := (Projects.projects_territory db ++ [t])%list |}.
Proof.
  intros (Hp & Ht & Hfk & Hparent) Hfresh Href.
  assert (Hsub : forall id, In id (Projects.territory_ids db) ->
                            In id (map projects_territory_data.project_territory_id
                                     (Projects.projects_territory db ++ [t]))).
  { intros id Hid. rewrite map_app. apply in_or_app. left. exact Hid. }
  unfold Projects.consistent, Projects.territory_ids.
  cbn [Projects.projects Projects.projects_territory].
  split; [exact Hp|]. split; [|split].
  - apply NoDup_map_app_fresh; [exact Ht|].
    intros Hin. apply in_map_iff in Hin as [t' [Heq Hin]]. exact (Hfresh t' Hin Heq).
  - eapply Forall_impl; [exact Hfk|]. intros r Hr. exact (Hsub _ Hr).
  - apply Forall_app. split.
    + eapply Forall_impl; [exact Hparent|]. intros t' Ht'.
      exact (references_mono _ _ _ Hsub Ht').
    + constructor; [|constructor].
      eapply references_mono; [|exact Href].
      intros id [<-|Hid]; [|exact (Hsub _ Hid)].
      rewrite map_app. apply in_or_app. right. left. reflexivity.
Qed.

Lemma consistent_insert_project (db : Projects.Db Geom) (r : projects_data.row) :
  Projects.consistent db ->
  (forall r', In r' (Projects.projects db) ->
              projects_data.project_id r' <> projects_data.project_id r) ->
  In (projects_data.project_territory_id r) (Projects.territory_ids db) ->
  Projects.consistent
    {| Projects.projects := (Projects.projects db ++ [r])%list;
       Projects.projects_territory := Projects.projects_territory db |}.
Proof.
  intros (Hp & Ht & Hfk & Hparent) Hfresh Href.
  unfold Projects.consistent, Projects.territory_ids.
  cbn [Projects.projects Projects.projects_territory].
  split; [|split; [exact Ht|split; [|exact Hparent]]].
  - apply NoDup_map_app_fresh; [exact Hp|].
    intros Hin. apply in_map_iff in Hin as [r' [Heq Hin]]. exact (Hfresh r' Hin Heq).
  - apply Forall_app. split; [exact Hfk|]. constructor; [exact Href|constructor].
Qed.

Lemma consistent_delete_project (db : Projects.Db Geom) (project_id : Z) :
  Projects.consistent db ->
  Projects.consistent
    {| Projects.projects :=
         filter (fun r => projects_data.project_id r <> project_id) (Projects.projects db);
       Projects.projects_territory := Projects.projects_territory db |}.
Proof.
  intros (Hp & Ht & Hfk & Hparent).
  unfold Projects.consistent, Projects.territory_ids.
  cbn [Projects.projects Projects.projects_territory].
  split; [|split; [exact Ht|split; [|exact Hparent]]].
  - apply NoDup_map_filter, Hp.
  - apply List.Forall_forall. intros r Hr.
    apply in_filter in Hr as [_ Hr].
    rewrite List.Forall_forall in Hfk. apply Hfk, Hr.
Qed.

Lemma in_territory_ids_filter (rows : list (projects_territory_data.row Geom))
  (id tid : Z) :
  In id (map projects_territory_data.project_territory_id rows) ->
  id <> tid ->
  In id (map projects_territory_data.project_territory_id
           (filter (fun t => projects_territory_data.project_territory_id t <> tid) rows)).
Proof.
  intros Hin Hne. apply in_map_iff in Hin as [t [Heq Hin]].
  apply in_map_iff. exists t. split; [exact Heq|].
  apply in_filter. split; [rewrite Heq; exact Hne|exact Hin].
Qed.

Lemma consistent_delete_territory (db : Projects.Db Geom) (tid : Z) :
  Projects.consistent db ->
  (forall r, In r (Projects.projects db) -> projects_data.project_territory_id r <> tid) ->
  (forall t, In t (Projects.projects_territory db) ->
             projects_territory_data.parent_id t = Some tid ->
             projects_territory_data.project_territory_id t = tid) ->
  Projects.consistent
    {| Projects.projects := Projects.projects db;
       Projects.projects_territory :=
         filter (fun t => projects_territory_data.project_territory_id t <> tid)
           (Projects.projects_territory db) |}.
Proof.
  intros (Hp & Ht & Hfk & Hparent) Hfree Hchild.
  unfold Projects.consistent, Projects.territory_ids.
  cbn [Projects.projects Projects.projects_territory].
  split; [exact Hp|]. split; [|split].
  - apply NoDup_map_filter, Ht.
  - apply List.Forall_forall. intros r Hr. rewrite List.Forall_forall in Hfk.
    apply in_territory_ids_filter; [exact (Hfk r Hr)|exact (Hfree r Hr)].
  - apply List.Forall_forall. intros t Hin.
    apply in_filter in Hin as [Hne Hin]. rewrite List.Forall_forall in Hparent.
    specialize (Hparent t Hin). specialize (Hchild t Hin).
    destruct (projects_territory_data.parent_id t) as [id|]; [|exact I].
    simpl in *. apply in_territory_ids_filter; [exact Hparent|].
    intros ->. apply Hne, Hchild. reflexivity.
Qed.

Lemma consistent_update_territory (db : Projects.Db Geom) (tid : Z)
  (f : projects_territory_data.row Geom -> projects_territory_data.row Geom) :
  Projects.consistent db ->
  (forall t, projects_territory_data.project_territory_id (f t)
             = projects_territory_data.project_territory_id t) ->
  (forall t, Projects.references (Projects.territory_ids db)
               (projects_territory_data.parent_id (f t))) ->
  Projects.consistent
    {| Projects.projects := Projects.projects db;
       Projects.projects_territory :=
         map (fun t => if decide (projects_territory_data.project_territory_id t = tid)
                       then f t else t)
           (Projects.projects_territory db) |}.
Proof.
  intros (Hp & Ht & Hfk & Hparent) Hkey Href.
  unfold Projects.consistent, Projects.territory_ids in *.
  cbn [Projects.projects Projects.projects_territory].
  rewrite (map_update_key _ _ f _ Hkey).
  split; [exact Hp|]. split; [exact Ht|]. split; [exact Hfk|].
  apply List.Forall_forall. intros t Hin. apply in_map_iff in Hin as [t0 [<- Hin]].
  destruct (decide _); [apply Href|].
  rewrite List.Forall_forall in Hparent. exact (Hparent t0 Hin).
Qed.

Lemma consistent_update_project (db : Projects.Db Geom) (project_id : Z)
  (f : projects_data.row -> projects_data.row) :
  Projects.consistent db ->
  (forall r, projects_data.project_id (f r) = projects_data.project_id r) ->
  (forall r, projects_data.project_territory_id (f r)
             = projects_data.project_territory_id r) ->
  Projects.consistent
    {| Projects.projects :=
         map (fun r => if decide (projects_data.project_id r = project_id)
                       then f r else r)
           (Projects.projects db);
       Projects.projects_territory := Projects.projects_territory db |}.
Proof.
  intros (Hp & Ht & Hfk & Hparent) Hkey Hterritory.
  unfold Projects.consistent, Projects.territory_ids in *.
  cbn [Projects.projects Projects.projects_territory].
  rewrite (map_update_key _ _ f _ Hkey).
  split; [exact Hp|]. split; [exact Ht|]. split; [|exact Hparent].
  apply List.Forall_forall. intros r Hin. apply in_map_iff in Hin as [r0 [<- Hin]].
  rewrite List.Forall_forall in Hfk. specialize (Hfk r0 Hin).
  destruct (decide _); [rewrite Hterritory|]; exact Hfk.
Qed.

End Constraints.

Section ProjectsLifecycle.

Context {Geom : Type} (native : Geometry.t -> Result Geom) (ST_AsGeoJSON : Geom -> Any).

Lemma filter_app_fresh {A} (P : A -> Prop) `{forall x, Decision (P x)} (l : list A) (a : A) :
  (forall x, In x l -> ~ P x) -> P a -> filter P (l ++ [a])%list = [a].
Proof.
  intros Hfresh Ha. rewrite filter_app, (filter_none P l Hfresh).
  rewrite filter_cons_True by exact Ha. reflexivity.
Qed.

Lemma filter_out_app_fresh {A} (P : A -> Prop) `{forall x, Decision (P x)}
  `{forall x, Decision (~ P x)} (l : list A) (a : A) :
  (forall x, In x l -> ~ P x) -> P a ->
  filter (fun x => ~ P x) (l ++ [a])%list = l.
Proof.
  intros Hfresh Ha. induction l as [|x l IH]; cbn [app].
  - rewrite filter_cons_False by (intros Hnot; exact (Hnot Ha)). reflexivity.
  - rewrite filter_cons_True by (apply Hfresh; left; reflexivity).
    f_equal. apply IH. intros y Hy. apply Hfresh. right. exact Hy.
Qed.

Lemma filter_filter_out {A} (P : A -> Prop) `{forall x, Decision (P x)}
  `{forall x, Decision (~ P x)} (l : list A) :
  filter P (filter (fun x => ~ P x) l) = [].
Proof.
  apply filter_none. intros x Hx HP.
  apply in_filter in Hx as [Hnot _]. exact (Hnot HP).
Qed.

Lemma post_fits_both (project : Projects.ProjectPost) :
  Projects.post_fits project = true ->
  Projects.territory_fits (Projects.post_project_territory_info project) = true
  /\ Projects.project_fits project = true.
Proof. unfold Projects.post_fits. apply andb_true_iff. Qed.

(** The state that [post_project_to_db] leaves. *)
Lemma post_outcome (project_territory_id project_id created_at updated_at : Z)
  (project : Projects.ProjectPost) (conn : Projects.Conn Geom) (g c : Geom) :
  Projects.consistent (Projects.tables conn) ->
  Projects.post_fits project = true ->
  native (Projects.info_geometry (Projects.post_project_territory_info project)) = Ok g ->
  native (Projects.info_centre_point (Projects.post_project_territory_info project)) = Ok c ->
  Projects.int32 project_territory_id = true ->
  Projects.int32 project_id = true ->
  (forall r, In r (Projects.projects (Projects.tables conn)) ->
             projects_data.project_id r <> project_id) ->
  (forall t, In t (Projects.projects_territory (Projects.tables conn)) ->
             projects_territory_data.project_territory_id t <> project_territory_id) ->
  Projects.references
    (project_territory_id :: Projects.territory_ids (Projects.tables conn))
    (Projects.info_parent_id (Projects.post_project_territory_info project)) ->
  let created := Projects.created project_territory_id project_id created_at updated_at
                   project in
  let stored :=
    {| Projects.projects := (Projects.projects (Projects.tables conn) ++ [created])%list;
       Projects.projects_territory :=
         (Projects.projects_territory (Projects.tables conn)
          ++ [Projects.created_territory project_territory_id project g c])%list |} in
  Projects.post_project_to_db native project_territory_id project_id
    created_at updated_at project conn
  = (Ok created,
     {| Projects.tables := stored;
        Projects.committed := stored;
        Projects.executed :=
          (Projects.executed conn
           ++ [Projects.Insert Projects.projects_territory_data_table;
               Projects.Insert Projects.projects_data_table;
               Projects.Select Projects.projects_data_table])%list |})
  /\ Projects.consistent stored.
Proof.
  intros Hcons Hfits Hg Hc Hterritory_key Hproject_key Hfresh_project Hfresh_territory
    Hparent created stored.
  subst created stored.
  destruct (post_fits_both project Hfits) as [Hterritory_fits Hproject_fits].
  run_projects.
  rewrite Hg, Hc, Hterritory_key, Hproject_key, Hterritory_fits, Hproject_fits.
  cbn [andb fst snd Projects.tables Projects.committed Projects.executed
       Projects.projects Projects.projects_territory].
  accepted Hterritory
    ltac:(apply consistent_insert_territory;
          [exact Hcons|exact Hfresh_territory|exact Hparent]).
  accepted Hproject
    ltac:(apply (consistent_insert_project _ _ Hterritory);
          [exact Hfresh_project|];
          unfold Projects.territory_ids; cbn [Projects.projects_territory];
          rewrite map_app; apply in_or_app; right; left; reflexivity).
  unfold Projects.created at 3 4.
  cbn [projects_data.project_id].
  rewrite !(filter_app_fresh _ _ _ Hfresh_project) by reflexivity.
  cbn [try_except one]. rewrite <- !app_assoc. split; [reflexivity|exact Hproject].
Qed.

(** Creation.  On tables that keep their constraints, when the values of
    the request fit their columns, both geometries convert, the two
    generated keys are new, and within the range of their columns, and the
    parent of the territory part is absent,
    an existing territory row or the new row itself, [post_project_to_db]
    returns the project row it inserted, the committed [projects_data] is
    the former one followed by that row, and the two readers find what was
    written: [get_project_by_id_from_db] returns the same row and
    [get_project_territory_by_id_from_db] the territory part of the
    request, with its geometries as GeoJSON. *)
Theorem post_then_get (project_territory_id project_id created_at updated_at : Z)
  (project : Projects.ProjectPost) (conn : Projects.Conn Geom) (g c : Geom) :
  Projects.consistent (Projects.tables conn) ->
  Projects.post_fits project = true ->
  native (Projects.info_geometry (Projects.post_project_territory_info project)) = Ok g ->
  native (Projects.info_centre_point (Projects.post_project_territory_info project)) = Ok c ->
  Projects.int32 project_territory_id = true ->
  Projects.int32 project_id = true ->
  (forall r, In r (Projects.projects (Projects.tables conn)) ->
             projects_data.project_id r <> project_id) ->
  (forall t, In t (Projects.projects_territory (Projects.tables conn)) ->
             projects_territory_data.project_territory_id t <> project_territory_id) ->
  Projects.references
    (project_territory_id :: Projects.territory_ids (Projects.tables conn))
    (Projects.info_parent_id (Projects.post_project_territory_info project)) ->
  let outcome :=
    Projects.post_project_to_db native project_territory_id project_id
      created_at updated_at project conn in
  let created :=
    {| projects_data.project_id := project_id;
       projects_data.user_id := Projects.post_user_id project;
       projects_data.name := Projects.post_name project;
       projects_data.project_territory_id := project_territory_id;
       projects_data.description := Projects.post_description project;
       projects_data.public := Projects.post_public project;
       projects_data.image_url := Projects.post_image_url project;
       projects_data.created_at := created_at;
       projects_data.updated_at := updated_at |} in
  outcome.1 = Ok created
  /\ Projects.projects (Projects.committed outcome.2)
     = (Projects.projects (Projects.tables conn) ++ [created])%list
  /\ Projects.consistent (Projects.committed outcome.2)
  /\ (Projects.get_project_by_id_from_db project_id outcome.2).1 = Ok created
  /\ (Projects.get_project_territory_by_id_from_db ST_AsGeoJSON project_id outcome.2).1
     = Ok {| Projects.dto_project_territory_id := project_territory_id;
             Projects.dto_parent_id :=
               Projects.info_parent_id (Projects.post_project_territory_info project);
             Projects.dto_geometry := ST_AsGeoJSON g;
             Projects.dto_centre_point := ST_AsGeoJSON c;
             Projects.dto_properties :=
               PyDict (Projects.info_properties
                         (Projects.post_project_territory_info project)) |}.
Proof.
  intros Hcons Hfits Hg Hc Hterritory_key Hproject_key Hfresh_project Hfresh_territory
    Hparent outcome created.
  subst outcome created.
  destruct (post_outcome project_territory_id project_id created_at updated_at project
              conn g c Hcons Hfits Hg Hc Hterritory_key Hproject_key
              Hfresh_project Hfresh_territory Hparent)
    as [-> Hstored].
  cbn [fst snd Projects.committed Projects.projects].
  split; [reflexivity|]. split; [reflexivity|]. split; [exact Hstored|].
  run_projects. unfold Projects.created, Projects.created_territory.
  cbn [projects_data.project_id projects_territory_data.project_territory_id].
  rewrite !(filter_app_fresh _ _ _ Hfresh_project) by reflexivity.
  cbn [try_except one projects_data.project_territory_id fst snd Projects.tables
       Projects.projects_territory].
  rewrite (filter_app_fresh _ _ _ Hfresh_territory) by reflexivity.
  split; reflexivity.
Qed.

Lemma dangling_parent_breaks (projects : list projects_data.row)
  (rows : list (projects_territory_data.row Geom)) (id : Z) :
  ~ In id (map projects_territory_data.project_territory_id rows) ->
  (exists t, In t rows /\ projects_territory_data.parent_id t = Some id) ->
  ~ Projects.consistent
      {| Projects.projects := projects; Projects.projects_territory := rows |}.
Proof.
  intros Hmissing [t [Hin Hparent]] (_ & _ & _ & Hfk).
  rewrite List.Forall_forall in Hfk. specialize (Hfk t Hin).
  rewrite Hparent in Hfk. exact (Hmissing Hfk).
Qed.

Lemma missing_territory_breaks (projects : list projects_data.row)
  (rows : list (projects_territory_data.row Geom)) (id : Z) :
  ~ In id (map projects_territory_data.project_territory_id rows) ->
  (exists r, In r projects /\ projects_data.project_territory_id r = id) ->
  ~ Projects.consistent
      {| Projects.projects := projects; Projects.projects_territory := rows |}.
Proof.
  intros Hmissing [r [Hin Hid]] (_ & _ & Hfk & _).
  rewrite List.Forall_forall in Hfk. specialize (Hfk r Hin).
  rewrite Hid in Hfk. exact (Hmissing Hfk).
Qed.

Lemma consistent_territory_exists (db : Projects.Db Geom) (p : projects_data.row) :
  Projects.consistent db ->
  In p (Projects.projects db) ->
  exists t, In t (Projects.projects_territory db)
            /\ projects_territory_data.project_territory_id t
               = projects_data.project_territory_id p.
Proof.
  intros (_ & _ & Hfk & _) Hin. rewrite List.Forall_forall in Hfk.
  specialize (Hfk p Hin). apply in_map_iff in Hfk as [t [Heq Ht]].
  exists t. split; [exact Ht|exact Heq].
Qed.

(** A parent that names no territory row.  When the values of the request
    and the key generated for the new territory row fit their columns, and
    the parent of the territory part is neither an existing
    [project_territory_id] nor that key,
    the foreign key of [parent_id] refuses the first statement that
    writes: [post_project_to_db] and, for an existing project,
    [put_project_to_db] raise [IntegrityError], and the committed tables
    are as before. *)
Theorem dangling_parent_is_refused (project_territory_id project_id : Z)
  (created_at updated_at now : Z) (project : Projects.ProjectPost)
  (conn : Projects.Conn Geom) (p : projects_data.row) (g c : Geom) (parent : Z) :
  Projects.consistent (Projects.tables conn) ->
  In p (Projects.projects (Projects.tables conn)) ->
  Projects.post_fits project = true ->
  native (Projects.info_geometry (Projects.post_project_territory_info project)) = Ok g ->
  native (Projects.info_centre_point (Projects.post_project_territory_info project)) = Ok c ->
  Projects.int32 project_territory_id = true ->
  Projects.info_parent_id (Projects.post_project_territory_info project) = Some parent ->
  ~ In parent (Projects.territory_ids (Projects.tables conn)) ->
  parent <> project_territory_id ->
  let posted :=
    Projects.post_project_to_db native project_territory_id project_id
      created_at updated_at project conn in
  let replaced :=
    Projects.put_project_to_db native now project (projects_data.project_id p) conn in
  posted.1 = Raise IntegrityError
  /\ Projects.committed posted.2 = Projects.committed conn
  /\ replaced.1 = Raise IntegrityError
  /\ Projects.committed replaced.2 = Projects.committed conn.
Proof.
  intros Hcons Hin Hfits Hg Hc Hterritory_key Hparent Hmissing Hnew posted replaced.
  subst posted replaced. destruct (post_fits_both project Hfits) as [Hterritory_fits _].
  run_projects.
  rewrite (filter_primary_key _ p (consistent_primary_key _ Hcons) Hin).
  cbn [one_or_none]. rewrite Hg, Hc, Hterritory_key, Hterritory_fits.
  cbn [andb fst snd Projects.tables Projects.committed Projects.executed
       Projects.projects Projects.projects_territory].
  refused ltac:(apply dangling_parent_breaks with (id := parent);
                [rewrite map_app; intros Hid; apply in_app_or in Hid as [Hid|[Hid|[]]];
                 [exact (Hmissing Hid)|exact (Hnew (eq_sym Hid))]
                |eexists; split; [apply in_or_app; right; left; reflexivity|exact Hparent]]).
  refused ltac:(apply dangling_parent_breaks with (id := parent);
                [rewrite map_map;
                 rewrite (map_ext _ projects_territory_data.project_territory_id)
                   by (intros t; destruct (decide _); reflexivity);
                 exact Hmissing
                |destruct (consistent_territory_exists _ p Hcons Hin) as [t [Ht Hid]];
                 eexists; split;
                 [apply in_map_iff; exists t; split; [reflexivity|exact Ht]
                 |rewrite decide_True by exact Hid; exact Hparent]]).
  repeat split; reflexivity.
Qed.

(** Without a project of the given id, an id within the range of the
    column, [delete_project_from_db], [put_project_to_db] and
    [patch_project_to_db] raise the 404 response after one select: the
    tables and the committed state are as before. *)
Theorem missing_project_leaves_store (now : Z) (put : Projects.ProjectPut)
  (patch : Projects.ProjectPatch) (project_id : Z) (conn : Projects.Conn Geom) :
  Projects.int32 project_id = true ->
  (forall r, In r (Projects.projects (Projects.tables conn)) ->
             projects_data.project_id r <> project_id) ->
  let selected :=
    {| Projects.tables := Projects.tables conn;
       Projects.committed := Projects.committed conn;
       Projects.executed :=
         (Projects.executed conn ++ [Projects.Select Projects.projects_data_table])%list |} in
  Projects.delete_project_from_db project_id conn
  = (Raise (HTTPException 404 "Project not found"), selected)
  /\ Projects.put_project_to_db native now put project_id conn
     = (Raise (HTTPException 404 "Given project_id is not found"), selected)
  /\ Projects.patch_project_to_db native now patch project_id conn
     = (Raise (HTTPException 404 "Given project_id is not found"), selected).
Proof.
  intros Hrange Hmissing selected. subst selected. run_projects.
  rewrite (filter_none _ _ Hmissing), Hrange. repeat split; reflexivity.
Qed.

Lemma not_in_filtered_ids (rows : list (projects_territory_data.row Geom)) (tid : Z) :
  ~ In tid (map projects_territory_data.project_territory_id
              (filter (fun t => projects_territory_data.project_territory_id t <> tid)
                 rows)).
Proof.
  intros Hin. apply in_map_iff in Hin as [t [Heq Hin]].
  apply in_filter in Hin as [Hne _]. exact (Hne Heq).
Qed.

(** The state that [delete_project_from_db] leaves. *)
Lemma delete_outcome (conn : Projects.Conn Geom) (p : projects_data.row) :
  Projects.consistent (Projects.tables conn) ->
  In p (Projects.projects (Projects.tables conn)) ->
  (forall r, In r (Projects.projects (Projects.tables conn)) ->
             projects_data.project_territory_id r = projects_data.project_territory_id p ->
             projects_data.project_id r = projects_data.project_id p) ->
  (forall t, In t (Projects.projects_territory (Projects.tables conn)) ->
             projects_territory_data.parent_id t
             = Some (projects_data.project_territory_id p) ->
             projects_territory_data.project_territory_id t
             = projects_data.project_territory_id p) ->
  let left_ :=
    {| Projects.projects :=
         filter (fun r => projects_data.project_id r <> projects_data.project_id p)
           (Projects.projects (Projects.tables conn));
       Projects.projects_territory :=
         filter (fun t => projects_territory_data.project_territory_id t
                          <> projects_data.project_territory_id p)
           (Projects.projects_territory (Projects.tables conn)) |} in
  Projects.delete_project_from_db (projects_data.project_id p) conn
  = (Ok tt,
     {| Projects.tables := left_;
        Projects.committed := left_;
        Projects.executed :=
          (Projects.executed conn
           ++ [Projects.Select Projects.projects_data_table;
               Projects.Delete Projects.projects_data_table;
               Projects.Delete Projects.projects_territory_data_table])%list |})
  /\ Projects.consistent left_.
Proof.
  intros Hcons Hin Hsole Hchild left_. subst left_. run_projects.
  rewrite (filter_primary_key _ p (consistent_primary_key _ Hcons) Hin).
  cbn [one_or_none fst snd Projects.tables Projects.committed Projects.executed
       Projects.projects Projects.projects_territory].
  accepted Hproject ltac:(apply consistent_delete_project, Hcons).
  accepted Hterritory
    ltac:(apply (consistent_delete_territory _ _ Hproject);
          [intros r Hr Heq; apply in_filter in Hr as [Hne Hr];
           exact (Hne (Hsole r Hr Heq))
          |exact Hchild]).
  rewrite <- !app_assoc. split; [reflexivity|exact Hterritory].
Qed.

(** Deletion.  On tables that keep their constraints, for an existing
    project that alone refers to its territory row, which is the parent of
    no other row, [delete_project_from_db] returns, removes the project row
    and the territory row, commits, and both readers then raise the 404
    response for the id. *)
Theorem delete_then_get (conn : Projects.Conn Geom) (p : projects_data.row) :
  Projects.consistent (Projects.tables conn) ->
  In p (Projects.projects (Projects.tables conn)) ->
  (forall r, In r (Projects.projects (Projects.tables conn)) ->
             projects_data.project_territory_id r = projects_data.project_territory_id p ->
             projects_data.project_id r = projects_data.project_id p) ->
  (forall t, In t (Projects.projects_territory (Projects.tables conn)) ->
             projects_territory_data.parent_id t
             = Some (projects_data.project_territory_id p) ->
             projects_territory_data.project_territory_id t
             = projects_data.project_territory_id p) ->
  let outcome := Projects.delete_project_from_db (projects_data.project_id p) conn in
  outcome.1 = Ok tt
  /\ Projects.committed outcome.2 = Projects.tables outcome.2
  /\ Projects.projects (Projects.tables outcome.2)
     = filter (fun r => projects_data.project_id r <> projects_data.project_id p)
         (Projects.projects (Projects.tables conn))
  /\ Projects.projects_territory (Projects.tables outcome.2)
     = filter (fun t => projects_territory_data.project_territory_id t
                        <> projects_data.project_territory_id p)
         (Projects.projects_territory (Projects.tables conn))
  /\ Projects.consistent (Projects.committed outcome.2)
  /\ (Projects.get_project_by_id_from_db (projects_data.project_id p) outcome.2).1
     = Raise (HTTPException 404 "Given id is not found")
  /\ (Projects.get_project_territory_by_id_from_db ST_AsGeoJSON
        (projects_data.project_id p) outcome.2).1
     = Raise (HTTPException 404 "Given id is not found in projects_data").
Proof.
  intros Hcons Hin Hsole Hchild outcome. subst outcome.
  destruct (delete_outcome conn p Hcons Hin Hsole Hchild) as [-> Hleft].
  cbn [fst snd Projects.tables Projects.committed Projects.projects
       Projects.projects_territory].
  split; [reflexivity|]. split; [reflexivity|]. split; [reflexivity|].
  split; [reflexivity|]. split; [exact Hleft|].
  run_projects. rewrite !filter_filter_out. split; reflexivity.
Qed.

(** Deletion of a project whose territory row is still referred to, by
    another project or as the parent of another territory row: the foreign
    key refuses the second delete, the call raises [IntegrityError] and
    nothing is committed, the project row included. *)
Theorem delete_referenced_territory_is_refused (conn : Projects.Conn Geom)
  (p : projects_data.row) :
  Projects.consistent (Projects.tables conn) ->
  In p (Projects.projects (Projects.tables conn)) ->
  (exists r, In r (Projects.projects (Projects.tables conn))
             /\ projects_data.project_id r <> projects_data.project_id p
             /\ projects_data.project_territory_id r
                = projects_data.project_territory_id p)
  \/ (exists t, In t (Projects.projects_territory (Projects.tables conn))
                /\ projects_territory_data.project_territory_id t
                   <> projects_data.project_territory_id p
                /\ projects_territory_data.parent_id t
                   = Some (projects_data.project_territory_id p)) ->
  let outcome := Projects.delete_project_from_db (projects_data.project_id p) conn in
  outcome.1 = Raise IntegrityError
  /\ Projects.committed outcome.2 = Projects.committed conn.
Proof.
  intros Hcons Hin Hreferred outcome. subst outcome. run_projects.
  rewrite (filter_primary_key _ p (consistent_primary_key _ Hcons) Hin).
  cbn [one_or_none fst snd Projects.tables Projects.committed Projects.executed
       Projects.projects Projects.projects_territory].
  accepted Hproject ltac:(apply consistent_delete_project, Hcons).
  refused ltac:(destruct Hreferred as [[r (Hr & Hne & Heq)]|[t (Ht & Hne & Hparent)]];
                [apply missing_territory_breaks
                   with (id := projects_data.project_territory_id p);
                 [apply not_in_filtered_ids
                 |exists r; split; [apply in_filter; split; assumption|exact Heq]]
                |apply dangling_parent_breaks
                   with (id := projects_data.project_territory_id p);
                 [apply not_in_filtered_ids
                 |exists t; split; [apply in_filter; split; assumption|exact Hparent]]]).
  split; reflexivity.
Qed.

(** Replacement.  On tables that keep their constraints, for an existing
    project, when the values of the request fit their columns, the new
    geometries convert and the new parent is absent or an existing territory
    row, [put_project_to_db] returns the row with the request's fields, the
    keys and [created_at] of the old row and [updated_at] stamped; the other
    project rows are kept, and the territory row of the project takes all
    four fields of the request. *)
Theorem put_replaces_project (now : Z) (project : Projects.ProjectPut)
  (conn : Projects.Conn Geom) (p : projects_data.row) (g c : Geom) :
  Projects.consistent (Projects.tables conn) ->
  In p (Projects.projects (Projects.tables conn)) ->
  Projects.post_fits project = true ->
  native (Projects.info_geometry (Projects.post_project_territory_info project)) = Ok g ->
  native (Projects.info_centre_point (Projects.post_project_territory_info project)) = Ok c ->
  Projects.references (Projects.territory_ids (Projects.tables conn))
    (Projects.info_parent_id (Projects.post_project_territory_info project)) ->
  let outcome :=
    Projects.put_project_to_db native now project (projects_data.project_id p) conn in
  let replaced :=
    {| projects_data.project_id := projects_data.project_id p;
       projects_data.user_id := Projects.post_user_id project;
       projects_data.name := Projects.post_name project;
       projects_data.project_territory_id := projects_data.project_territory_id p;
       projects_data.description := Projects.post_description project;
       projects_data.public := Projects.post_public project;
       projects_data.image_url := Projects.post_image_url project;
       projects_data.created_at := projects_data.created_at p;
       projects_data.updated_at := now |} in
  outcome.1 = Ok replaced
  /\ Projects.committed outcome.2 = Projects.tables outcome.2
  /\ Projects.consistent (Projects.committed outcome.2)
  /\ (forall r, In r (Projects.projects (Projects.tables outcome.2)) <->
                r = replaced
                \/ (In r (Projects.projects (Projects.tables conn))
                    /\ projects_data.project_id r <> projects_data.project_id p))
  /\ (forall t, In t (Projects.projects_territory (Projects.tables outcome.2)) <->
                (t = {| projects_territory_data.project_territory_id :=
                          projects_data.project_territory_id p;
                        projects_territory_data.parent_id :=
                          Projects.info_parent_id
                            (Projects.post_project_territory_info project);
                        projects_territory_data.geometry := g;
                        projects_territory_data.centre_point := c;
                        projects_territory_data.properties :=
                          PyDict (Projects.info_properties
                                    (Projects.post_project_territory_info project)) |}
                 /\ exists t0, In t0 (Projects.projects_territory (Projects.tables conn))
                               /\ projects_territory_data.project_territory_id t0
                                  = projects_data.project_territory_id p)
                \/ (In t (Projects.projects_territory (Projects.tables conn))
                    /\ projects_territory_data.project_territory_id t
                       <> projects_data.project_territory_id p)).
Proof.
  intros Hcons Hin Hfits Hg Hc Hparent outcome replaced. subst outcome replaced.
  destruct (post_fits_both project Hfits) as [Hterritory_fits Hproject_fits].
  pose proof (consistent_primary_key _ Hcons) as Hkey. run_projects.
  rewrite (filter_primary_key _ p Hkey Hin).
  cbn [one_or_none]. rewrite Hg, Hc, Hterritory_fits, Hproject_fits.
  cbn [fst snd Projects.tables Projects.committed Projects.executed
       Projects.projects Projects.projects_territory].
  accepted Hterritory
    ltac:(apply (consistent_update_territory _ _
                   (fun r => Projects.created_territory
                               (projects_territory_data.project_territory_id r)
                               project g c)
                   Hcons);
          [reflexivity|intros t; exact Hparent]).
  accepted Hproject
    ltac:(apply (consistent_update_project _ _
                   (fun r => {| projects_data.project_id := projects_data.project_id r |})
                   Hterritory);
          reflexivity).
  cbn [map one projects_data.project_id].
  rewrite (filter_primary_key _ p Hkey Hin).
  cbn [map one projects_data.project_id].
  rewrite filter_after_update by reflexivity.
  rewrite (filter_primary_key _ p Hkey Hin).
  cbn [map one try_except fst snd Projects.tables Projects.committed Projects.executed
       Projects.projects Projects.projects_territory].
  split; [reflexivity|]. split; [reflexivity|]. split; [exact Hproject|]. split.
  - intros r. rewrite in_map_iff. split.
    + intros [r0 [Hr Hr0]].
      destruct (decide (projects_data.project_id r0 = projects_data.project_id p)) as [Heq|Hne].
      * left. subst r.
        assert (r0 = p) as ->.
        { assert (Hf : In r0 (filter (fun r => projects_data.project_id r
                                                = projects_data.project_id p)
                                (Projects.projects (Projects.tables conn)))).
          { apply in_filter. split; [exact Heq|exact Hr0]. }
          rewrite (filter_primary_key _ p Hkey Hin) in Hf. destruct Hf as [<-|[]].
          reflexivity. }
        reflexivity.
      * right. subst r. split; assumption.
    + intros [->|[Hr Hne]].
      * exists p. split; [|exact Hin]. rewrite decide_True by reflexivity. reflexivity.
      * exists r. split; [|exact Hr]. rewrite decide_False by exact Hne. reflexivity.
  - intros t. rewrite in_map_iff. split.
    + intros [t0 [Ht Ht0]].
      destruct (decide (projects_territory_data.project_territory_id t0
                        = projects_data.project_territory_id p)) as [Heq|Hne].
      * left. subst t. split; [rewrite Heq; reflexivity|]. exists t0. split; assumption.
      * right. subst t. split; assumption.
    + intros [[-> [t0 [Ht0 Heq]]]|[Ht Hne]].
      * exists t0. split; [|exact Ht0]. rewrite decide_True by exact Heq.
        rewrite Heq. reflexivity.
      * exists t. split; [|exact Ht]. rewrite decide_False by exact Hne. reflexivity.
Qed.

Lemma model_dump_territory_only (info : option Projects.ProjectTerritoryPatch) :
  filter (fun item : string * Any => is_not_None item.2 = true)
    (Projects.model_dump (Projects.territory_only info)) = ∅.
Proof. reflexivity. Qed.

(** A partial spec with no field of the project itself never touches
    [projects_data], whatever the nested territory part and whatever the
    outcome: the table is the same ([updated_at] included) and no update of
    [projects_data] is among the statements executed. *)
Theorem patch_without_project_fields (now : Z)
  (info : option Projects.ProjectTerritoryPatch) (project_id : Z)
  (conn : Projects.Conn Geom) :
  Projects.projects
    (Projects.tables
       (Projects.patch_project_to_db native now (Projects.territory_only info) project_id conn).2)
  = Projects.projects (Projects.tables conn)
  /\ exists statements,
       Projects.executed
         (Projects.patch_project_to_db native now (Projects.territory_only info) project_id conn).2
       = (Projects.executed conn ++ statements)%list
       /\ ~ In (Projects.Update Projects.projects_data_table) statements.
Proof.
  run_projects. rewrite model_dump_territory_only.
  destruct (filter (fun r => projects_data.project_id r = project_id)
              (Projects.projects (Projects.tables conn))) as [|r [|r' rows]];
    cbn [one_or_none fst snd Projects.tables Projects.committed Projects.executed
         Projects.projects Projects.projects_territory].
  - destruct (Projects.int32 project_id);
      (split; [reflexivity|]; eexists; split; [reflexivity|];
       intros [H|[]]; discriminate).
  - cbn [Projects.territory_only Projects.project_territory_info].
    destruct (match info with
              | Some i => Projects.territory_values native i
              | None => Ok ∅
              end) as [values|e].
    + rewrite decide_True by reflexivity.
      cbn [fst snd Projects.tables Projects.committed Projects.executed
           Projects.projects Projects.projects_territory].
      destruct (decide (values = ∅)) as [_|_];
        cbn [fst snd Projects.tables Projects.committed Projects.executed
             Projects.projects Projects.projects_territory].
      * split; [reflexivity|]. eexists. split; [rewrite <- app_assoc; reflexivity|].
        cbn. intros [H|[H|[]]]; discriminate.
      * destruct (Projects.territory_values_fit values);
          cbn [fst snd Projects.tables Projects.committed Projects.executed
               Projects.projects Projects.projects_territory].
        -- destruct (Projects.update_rows _ _) as [rows|e];
             cbn [fst snd Projects.tables Projects.committed Projects.executed
                  Projects.projects Projects.projects_territory].
           ++ split; [reflexivity|]. eexists.
              split; [rewrite <- !app_assoc; reflexivity|].
              cbn. intros [H|[H|[H|[]]]]; discriminate.
           ++ split; [reflexivity|]. eexists.
              split; [rewrite <- !app_assoc; reflexivity|].
              cbn. intros [H|[H|[]]]; discriminate.
        -- split; [reflexivity|]. eexists.
           split; [rewrite <- !app_assoc; reflexivity|].
           cbn. intros [H|[H|[]]]; discriminate.
    + split; [reflexivity|]. eexists. split; [reflexivity|].
      intros [H|[]]. discriminate.
  - split; [reflexivity|]. eexists. split; [reflexivity|].
    intros [H|[]]. discriminate.
Qed.

(** The empty partial spec on an existing project executes no update:
    two selects, a commit of the pending state, and the project row as it
    was. *)
Theorem empty_patch_returns_project (now : Z) (conn : Projects.Conn Geom)
  (p : projects_data.row) :
  Projects.primary_key (Projects.tables conn) ->
  In p (Projects.projects (Projects.tables conn)) ->
  Projects.patch_project_to_db native now (Projects.territory_only None)
    (projects_data.project_id p) conn
  = (Ok p,
     {| Projects.tables := Projects.tables conn;
        Projects.committed := Projects.tables conn;
        Projects.executed :=
          (Projects.executed conn
           ++ [Projects.Select Projects.projects_data_table;
               Projects.Select Projects.projects_data_table])%list |}).
Proof.
  intros Hkey Hin. run_projects. rewrite model_dump_territory_only.
  rewrite (filter_primary_key _ p Hkey Hin).
  cbn [one_or_none Projects.territory_only Projects.project_territory_info
       fst snd Projects.tables Projects.committed Projects.executed
       Projects.projects Projects.projects_territory].
  rewrite !decide_True by reflexivity.
  cbn [fst snd Projects.tables Projects.committed Projects.executed
       Projects.projects Projects.projects_territory].
  rewrite (filter_primary_key _ p Hkey Hin). cbn [one try_except].
  rewrite <- app_assoc. reflexivity.
Qed.

Lemma update_rows_raises {A} (f : A -> Result A) (e : Exception) (rows : list A) (t : A) :
  In t rows ->
  f t = Raise e ->
  (forall r, (exists r', f r = Ok r') \/ f r = Raise e) ->
  Projects.update_rows f rows = Raise e.
Proof.
  intros Hin Ht Hall. induction rows as [|r rows IH].
  - destruct Hin.
  - cbn [Projects.update_rows]. destruct (Hall r) as [[r' Hr]|Hr]; rewrite Hr;
      [|reflexivity].
    cbn [bind]. destruct Hin as [->|Hin]; [congruence|].
    rewrite (IH Hin). reflexivity.
Qed.

Lemma update_rows_map {A} (f : A -> Result A) (f' : A -> A) (rows : list A) :
  (forall r, f r = Ok (f' r)) -> Projects.update_rows f rows = Ok (map f' rows).
Proof.
  intros Hf. induction rows as [|r rows IH]; [reflexivity|].
  cbn [Projects.update_rows map]. rewrite Hf, IH. reflexivity.
Qed.

(** The values of a partial spec that are set fit the columns when each of
    its fields does. *)
Lemma patch_values_fit (project : Projects.ProjectPatch) :
  Projects.project_values_fit
    (filter (fun item : string * Any => is_not_None item.2 = true)
       (Projects.model_dump project))
  = Projects.patch_fits project.
Proof.
  unfold Projects.project_values_fit, Projects.patch_fits, Projects.model_dump.
  rewrite !map_lookup_filter.
  destruct project as [user_id name description public image_url info].
  cbn [Projects.patch_user_id Projects.patch_name Projects.patch_description
       Projects.patch_public Projects.patch_image_url].
  rewrite lookup_insert_eq.
  rewrite (lookup_insert_ne _ "user_id" "name") by discriminate. rewrite lookup_insert_eq.
  rewrite (lookup_insert_ne _ "user_id" "description") by discriminate.
  rewrite (lookup_insert_ne _ "name" "description") by discriminate.
  rewrite lookup_insert_eq.
  rewrite (lookup_insert_ne _ "user_id" "image_url") by discriminate.
  rewrite (lookup_insert_ne _ "name" "image_url") by discriminate.
  rewrite (lookup_insert_ne _ "description" "image_url") by discriminate.
  rewrite (lookup_insert_ne _ "public" "image_url") by discriminate.
  rewrite lookup_singleton_eq.
  destruct user_id, name, description, image_url; reflexivity.
Qed.

(** A nested territory part that sets [geometry] to null reaches the
    update of [projects_territory_data] as a null for a column that is not
    nullable: when the fields of the project itself fit their columns and
    the project has a territory row, the call raises [IntegrityError], and
    nothing is committed. *)
Theorem patch_null_geometry_is_refused (now : Z) (user_id : option Z)
  (name description image_url : option string) (public : option bool)
  (conn : Projects.Conn Geom) (p : projects_data.row)
  (t : projects_territory_data.row Geom) :
  Projects.primary_key (Projects.tables conn) ->
  In p (Projects.projects (Projects.tables conn)) ->
  In t (Projects.projects_territory (Projects.tables conn)) ->
  projects_territory_data.project_territory_id t = projects_data.project_territory_id p ->
  Projects.patch_fits
    {| Projects.patch_user_id := user_id; Projects.patch_name := name;
       Projects.patch_description := description; Projects.patch_public := public;
       Projects.patch_image_url := image_url;
       Projects.project_territory_info := Some Projects.null_geometry |} = true ->
  let outcome :=
    Projects.patch_project_to_db native now
      {| Projects.patch_user_id := user_id; Projects.patch_name := name;
         Projects.patch_description := description; Projects.patch_public := public;
         Projects.patch_image_url := image_url;
         Projects.project_territory_info := Some Projects.null_geometry |}
      (projects_data.project_id p) conn in
  outcome.1 = Raise IntegrityError
  /\ Projects.committed outcome.2 = Projects.committed conn.
Proof.
  intros Hkey Hin Ht Hid Hfits outcome. subst outcome. run_projects.
  rewrite patch_values_fit, Hfits.
  rewrite (filter_primary_key _ p Hkey Hin).
  cbn [one_or_none fst snd Projects.tables Projects.committed Projects.executed
       Projects.projects Projects.projects_territory].
  unfold Projects.territory_values, Projects.null_geometry, Projects.plain_item,
    Projects.geometry_item.
  cbn [Projects.project_territory_info Projects.patch_parent_id Projects.patch_geometry
       Projects.patch_centre_point Projects.patch_properties bind].
  assert (Hrows : forall ids rows,
    In t rows ->
    Projects.update_rows
      (fun r => if decide (projects_territory_data.project_territory_id r
                           = projects_data.project_territory_id p)
                then Projects.set_territory_columns ids
                       (<["geometry" := Projects.Plain PyNone]> ∅) r
                else Ok r) rows = Raise IntegrityError).
  { intros ids rows Hrows. apply (update_rows_raises _ _ _ t Hrows).
    - rewrite decide_True by exact Hid. reflexivity.
    - intros r. destruct (decide _); [right; reflexivity|left; eexists; reflexivity]. }
  rewrite (decide_False (P := <["geometry" := Projects.Plain PyNone]> ∅ = ∅))
    by apply insert_non_empty.
  assert (Hterritory_fits :
    Projects.territory_values_fit (Geom := Geom)
      (<["geometry" := Projects.Plain PyNone]> ∅) = true) by reflexivity.
  rewrite Hterritory_fits.
  match goal with
  | |- context [decide (?values = ∅)] => destruct (decide (values = ∅)) as [_|_]
  end;
    cbn [fst snd Projects.tables Projects.committed Projects.executed
         Projects.projects Projects.projects_territory];
    rewrite (Hrows _ _ Ht); split; reflexivity.
Qed.

(** Creation undone.  A project created by [post_project_to_db] on tables
    that keep their constraints, from a request whose values fit their
    columns as the two generated keys do, and then deleted by [delete_project_from_db] leaves the two
    tables, as committed, as they were before the creation. *)
Theorem post_then_delete_restores (project_territory_id project_id : Z)
  (created_at updated_at : Z) (project : Projects.ProjectPost)
  (conn : Projects.Conn Geom) (g c : Geom) :
  Projects.consistent (Projects.tables conn) ->
  Projects.post_fits project = true ->
  native (Projects.info_geometry (Projects.post_project_territory_info project)) = Ok g ->
  native (Projects.info_centre_point (Projects.post_project_territory_info project)) = Ok c ->
  Projects.int32 project_territory_id = true ->
  Projects.int32 project_id = true ->
  (forall r, In r (Projects.projects (Projects.tables conn)) ->
             projects_data.project_id r <> project_id) ->
  (forall t, In t (Projects.projects_territory (Projects.tables conn)) ->
             projects_territory_data.project_territory_id t <> project_territory_id) ->
  Projects.references
    (project_territory_id :: Projects.territory_ids (Projects.tables conn))
    (Projects.info_parent_id (Projects.post_project_territory_info project)) ->
  let posted :=
    Projects.post_project_to_db native project_territory_id project_id
      created_at updated_at project conn in
  let deleted := Projects.delete_project_from_db project_id posted.2 in
  posted.1 = Ok (Projects.created project_territory_id project_id created_at updated_at
                   project)
  /\ deleted.1 = Ok tt
  /\ Projects.committed deleted.2 = Projects.tables conn
  /\ Projects.tables deleted.2 = Projects.tables conn.
Proof.
  intros Hcons Hfits Hg Hc Hterritory_key Hproject_key Hfresh_project Hfresh_territory
    Hparent posted deleted.
  subst posted deleted.
  destruct (post_outcome project_territory_id project_id created_at updated_at project
              conn g c Hcons Hfits Hg Hc Hterritory_key Hproject_key
              Hfresh_project Hfresh_territory Hparent)
    as [-> Hstored].
  cbn [fst snd]. split; [reflexivity|].
  set (created := Projects.created project_territory_id project_id created_at updated_at
                    project) in *.
  set (territory := Projects.created_territory project_territory_id project g c) in *.
  destruct Hcons as (Hkey & Hkey_territory & Hfk & Hparents).
  rewrite List.Forall_forall in Hfk, Hparents.
  change (Projects.delete_project_from_db project_id)
    with (Projects.delete_project_from_db (Geom := Geom)
            (projects_data.project_id created)).
  edestruct (delete_outcome) as [-> _].
  - exact Hstored.
  - cbn [Projects.tables Projects.projects]. apply in_or_app. right. left. reflexivity.
  - cbn [Projects.tables Projects.projects]. intros r Hr Heq.
    apply in_app_or in Hr as [Hr|[<-|[]]]; [|reflexivity].
    specialize (Hfk r Hr). cbn in Hfk. rewrite Heq in Hfk.
    apply in_map_iff in Hfk as [t [Hid Ht]]. destruct (Hfresh_territory t Ht Hid).
  - cbn [Projects.tables Projects.projects_territory]. intros t Ht Hp.
    apply in_app_or in Ht as [Ht|[<-|[]]]; [|reflexivity].
    specialize (Hparents t Ht). rewrite Hp in Hparents. cbn in Hparents.
    apply in_map_iff in Hparents as [t' [Hid Ht']]. destruct (Hfresh_territory t' Ht' Hid).
  - cbn [fst snd Projects.tables Projects.committed Projects.projects
         Projects.projects_territory].
    rewrite (filter_out_app_fresh
               (fun r => projects_data.project_id r = projects_data.project_id created))
      by (exact Hfresh_project || reflexivity).
    rewrite (filter_out_app_fresh
               (fun t => projects_territory_data.project_territory_id t
                         = projects_data.project_territory_id created))
      by (exact Hfresh_territory || reflexivity).
    destruct (Projects.tables conn). repeat split; reflexivity.
Qed.

(** A patch of the geometry alone.  For an existing project, a partial spec
    whose nested territory part sets [geometry] and nothing else converts
    the geometry and writes it to the territory row of the project; the
    other columns of that row, the other territory rows and the whole of
    [projects_data], [updated_at] included, are as before, and the project
    is returned as it was. *)
Theorem patch_geometry_only (now : Z) (geometry : Geometry.t) (g : Geom)
  (conn : Projects.Conn Geom) (p : projects_data.row) :
  Projects.primary_key (Projects.tables conn) ->
  In p (Projects.projects (Projects.tables conn)) ->
  native geometry = Ok g ->
  let outcome :=
    Projects.patch_project_to_db native now
      (Projects.territory_only (Some (Projects.only_geometry geometry)))
      (projects_data.project_id p) conn in
  outcome.1 = Ok p
  /\ Projects.projects (Projects.tables outcome.2)
     = Projects.projects (Projects.tables conn)
  /\ Projects.projects_territory (Projects.tables outcome.2)
     = map (fun t =>
              if decide (projects_territory_data.project_territory_id t
                         = projects_data.project_territory_id p)
              then {| projects_territory_data.project_territory_id :=
                        projects_territory_data.project_territory_id t;
                      projects_territory_data.parent_id :=
                        projects_territory_data.parent_id t;
                      projects_territory_data.geometry := g;
                      projects_territory_data.centre_point :=
                        projects_territory_data.centre_point t;
                      projects_territory_data.properties :=
                        projects_territory_data.properties t |}
              else t)
         (Projects.projects_territory (Projects.tables conn))
  /\ Projects.committed outcome.2 = Projects.tables outcome.2
  /\ Projects.executed outcome.2
     = (Projects.executed conn
        ++ [Projects.Select Projects.projects_data_table;
            Projects.Update Projects.projects_territory_data_table;
            Projects.Select Projects.projects_data_table])%list.
Proof.
  intros Hkey Hin Hg outcome. subst outcome. run_projects.
  rewrite model_dump_territory_only.
  rewrite (filter_primary_key _ p Hkey Hin).
  cbn [one_or_none Projects.territory_only Projects.project_territory_info
       fst snd Projects.tables Projects.committed Projects.executed
       Projects.projects Projects.projects_territory].
  unfold Projects.territory_values, Projects.only_geometry, Projects.plain_item,
    Projects.geometry_item.
  cbn [Projects.patch_parent_id Projects.patch_geometry Projects.patch_centre_point
       Projects.patch_properties].
  rewrite Hg. cbn [bind].
  rewrite decide_True by reflexivity.
  rewrite (decide_False
             (P := <["geometry" := Projects.SqlGeom (Geometry.type geometry) g]> ∅ = ∅))
    by apply insert_non_empty.
  assert (Hterritory_fits :
    Projects.territory_values_fit
      (<["geometry" := Projects.SqlGeom (Geometry.type geometry) g]> ∅) = true)
    by reflexivity.
  rewrite Hterritory_fits.
  cbn [fst snd Projects.tables Projects.committed Projects.executed
       Projects.projects Projects.projects_territory].
  rewrite (update_rows_map _
             (fun t =>
                if decide (projects_territory_data.project_territory_id t
                           = projects_data.project_territory_id p)
                then {| projects_territory_data.project_territory_id :=
                          projects_territory_data.project_territory_id t;
                        projects_territory_data.parent_id :=
                          projects_territory_data.parent_id t;
                        projects_territory_data.geometry := g;
                        projects_territory_data.centre_point :=
                          projects_territory_data.centre_point t;
                        projects_territory_data.properties :=
                          projects_territory_data.properties t |}
                else t)).
  2: { intros t. destruct (decide _); reflexivity. }
  cbn [fst snd Projects.tables Projects.committed Projects.executed
       Projects.projects Projects.projects_territory].
  rewrite (filter_primary_key _ p Hkey Hin). cbn [one try_except].
  rewrite <- !app_assoc. repeat split; reflexivity.
Qed.

End ProjectsLifecycle.

(** ** Territories *)

Section TerritoriesProperties.

Context {Geom : Type} (ST_AsGeoJSON : Geom -> Any)
  (ST_GeomFromGeoJSON : Geometry.t -> Result Geom).

#[local] Abbreviation row := (territories_data.row Geom).

Lemma select_by_id (table : list row) (id : Z) :
  Territories.select_rows table
    {| Territories.columns := Territories.all_columns;
       Territories.whereclause := [Territories.territory_id_eq (Some id)] |}
  = filter (fun r => territories_data.territory_id r = id) table.
Proof.
  unfold Territories.select_rows. simpl.
  induction table as [|r table IH].
  - reflexivity.
  - rewrite !filter_cons, IH.
    destruct (decide (territories_data.territory_id r = id)) as [Heq|Hne];
      destruct (decide ((territories_data.territory_id r =? id) && true = true))
        as [Hb|Hb]; try reflexivity.
    + destruct Hb. rewrite andb_true_r. apply Z.eqb_eq. exact Heq.
    + destruct Hne. rewrite andb_true_r in Hb. apply Z.eqb_eq. exact Hb.
Qed.

Lemma is_found_true (db : Territories.Db Geom) (id : Z) :
  Territories.is_found ST_AsGeoJSON db id = true
  <-> id <> 0 /\ exists r, In r (Territories.territories db)
                           /\ territories_data.territory_id r = id.
Proof.
  unfold Territories.is_found, Territories.execute_plain.
  rewrite select_by_id.
  induction (Territories.territories db) as [|r table IH].
  - simpl. split; [discriminate|]. intros [_ [r [[] _]]].
  - rewrite filter_cons. destruct (decide (territories_data.territory_id r = id)) as [Heq|Hne].
    + simpl. rewrite Heq. split.
      * intros H. apply negb_true_iff, Z.eqb_neq in H. split; [exact H|].
        exists r. split; [left; reflexivity|exact Heq].
      * intros [H _]. apply negb_true_iff, Z.eqb_neq. exact H.
    + rewrite IH. split; intros [H0 [q [Hq Hid]]]; (split; [exact H0|]).
      * exists q. split; [right; exact Hq|exact Hid].
      * destruct Hq as [->|Hq]; [contradiction|]. exists q. split; assumption.
Qed.


(** With the parent id 0 the flag [get_all_levels] has no effect, for every
    database and every territory-type filter: the statement built is the
    same, it is a plain select that needs no fuel, and the two calls have
    the same outcome. *)
Theorem recursive_flag_ignored_at_root (fuel fuel' : nat) (db : Territories.Db Geom)
  (territory_type_id : option Z) :
  Territories.territories_by_parent_statement 0 true territory_type_id
  = Territories.territories_by_parent_statement 0 false territory_type_id
  /\ Territories.get_territories_by_parent_id_from_db ST_AsGeoJSON fuel db 0 true
       territory_type_id
     = Territories.get_territories_by_parent_id_from_db ST_AsGeoJSON fuel' db 0 false
         territory_type_id
  /\ exists outcome,
       Territories.get_territories_by_parent_id_from_db ST_AsGeoJSON fuel db 0 true
         territory_type_id = Some outcome.
Proof.
  split; [reflexivity|].
  unfold Territories.get_territories_by_parent_id_from_db. simpl.
  destruct territory_type_id as [ty|]; simpl; (split; [reflexivity|eexists; reflexivity]).
Qed.

Lemma capacity_of_found (db : Territories.Db Geom) (territory_id : Z)
  (service_type_id : option Z) :
  Territories.is_found ST_AsGeoJSON db territory_id = true ->
  Territories.get_services_capacity_by_territory_id_from_db ST_AsGeoJSON db
    territory_id service_type_id
  = Ok (Territories.func_sum
          (map services_data.capacity_real
             (filter (fun s => Territories.eq_column (services_data.service_type_id s)
                                 service_type_id = true)
                (Territories.services_of_territory db territory_id)))).
Proof.
  intros Hfound. unfold Territories.get_services_capacity_by_territory_id_from_db.
  rewrite Hfound. reflexivity.
Qed.

Lemma eq_column_None (column : option Z) :
  Territories.eq_column column None = true <-> column = None.
Proof. destruct column; simpl; split; congruence. Qed.

Lemma filter_ext_in {A} (P Q : A -> Prop) `{forall x, Decision (P x)}
  `{forall x, Decision (Q x)} (l : list A) :
  (forall x, In x l -> (P x <-> Q x)) -> filter P l = filter Q l.
Proof.
  induction l as [|a l IH]; intros Hext.
  - reflexivity.
  - rewrite !filter_cons. rewrite IH by (intros x Hx; apply Hext; right; exact Hx).
    destruct (decide (P a)) as [HP|HP], (decide (Q a)) as [HQ|HQ]; try reflexivity.
    + destruct HQ. apply Hext; [left; reflexivity|exact HP].
    + destruct HP. apply Hext; [left; reflexivity|exact HQ].
Qed.

(** C8 (amended).  For an existing territory id other than 0, the capacity
    query without a service type compares [service_type_id] with null, that
    is [IS NULL]: the result is the sum of the capacity over the joined
    services that have no service type, and it is null as soon as every
    joined service has one, whatever their capacities. *)
Theorem capacity_without_type_keeps_untyped_services (db : Territories.Db Geom)
  (territory_id : Z) (r : row) :
  territory_id <> 0 ->
  In r (Territories.territories db) ->
  territories_data.territory_id r = territory_id ->
  Territories.get_services_capacity_by_territory_id_from_db ST_AsGeoJSON db
    territory_id None
  = Ok (Territories.func_sum
          (map services_data.capacity_real
             (filter (fun s => services_data.service_type_id s = None)
                (Territories.services_of_territory db territory_id))))
  /\ ((forall s, In s (Territories.services_of_territory db territory_id) ->
         services_data.service_type_id s <> None) ->
      Territories.get_services_capacity_by_territory_id_from_db ST_AsGeoJSON db
        territory_id None = Ok None).
Proof.
  intros Hnz Hin Hid.
  assert (Hfound : Territories.is_found ST_AsGeoJSON db territory_id = true).
  { apply is_found_true. split; [exact Hnz|]. exists r. split; assumption. }
  rewrite (capacity_of_found db territory_id None Hfound).
  rewrite (filter_ext_in _ (fun s => services_data.service_type_id s = None)).
  2: { intros s _. apply eq_column_None. }
  split; [reflexivity|].
  intros Htyped. rewrite filter_none by exact Htyped. reflexivity.
Qed.


Lemma filter_all_in {A} (P : A -> Prop) `{forall x, Decision (P x)} (l : list A) :
  (forall x, In x l -> P x) -> filter P l = l.
Proof.
  induction l as [|a l IH]; intros Hall.
  - reflexivity.
  - rewrite filter_cons_True by (apply Hall; left; reflexivity).
    f_equal. apply IH. intros x Hx. apply Hall. right. exact Hx.
Qed.

(** C3 (amended).  When the database accepts the two geometries of the
    creation spec, its parent id is not 0, names no territory of the store
    and is not the id that the insert generates, [add_territory_to_db] raises
    the 404 response, and the territories of the store, as committed, are
    those before the call: the inserted row has been deleted. *)
Theorem add_territory_missing_parent (territory : Territories.TerritoriesDataPost)
  (st : Territories.Session Geom) (p : Z) (g c : Geom) :
  ST_GeomFromGeoJSON (Territories.post_geometry territory) = Ok g ->
  ST_GeomFromGeoJSON (Territories.post_centre_point territory) = Ok c ->
  Territories.post_parent_id territory = Some p ->
  p <> 0 ->
  (forall r, In r (Territories.territories (Territories.tables st)) ->
             territories_data.territory_id r <> p) ->
  p <> Territories.territories_seq (Territories.tables st) ->
  Territories.sequence_fresh (Territories.tables st) ->
  let outcome :=
    Territories.add_territory_to_db ST_AsGeoJSON ST_GeomFromGeoJSON territory st in
  is_not_found outcome.1 = true
  /\ outcome.1 = Raise (HTTPException 404 "Given parent_id is not found")
  /\ Territories.territories (Territories.tables outcome.2)
     = Territories.territories (Territories.tables st)
  /\ Territories.territories (Territories.committed outcome.2)
     = Territories.territories (Territories.tables st)
  /\ length (Territories.territories (Territories.committed outcome.2))
     = length (Territories.territories (Territories.tables st)).
Proof.
  intros Hg Hc Hparent Hnz Habsent Hnew Hfresh outcome. subst outcome.
  unfold Territories.add_territory_to_db, Territories.insert_territory,
    Territories.delete_territory, Territories.write_territories, Territories.read,
    Territories.commit, bindM, ret, lift, raise.
  rewrite Hg, Hc, Hparent. simpl.
  rewrite bool_decide_eq_false_2 by congruence. simpl.
  unfold Territories.execute_plain. rewrite select_by_id.
  rewrite filter_app, (filter_none _ _ Habsent).
  rewrite filter_cons_False by (simpl; congruence).
  simpl.
  rewrite filter_app, filter_cons_False by (simpl; congruence).
  rewrite filter_nil, app_nil_r.
  rewrite filter_all_in.
  2: { intros r Hr. specialize (Hfresh r Hr). lia. }
  repeat split; reflexivity.
Qed.


Lemma eq_column_Some (column : option Z) (v : Z) :
  Territories.eq_column column (Some v) = true <-> column = Some v.
Proof.
  destruct column as [x|]; simpl.
  - rewrite Z.eqb_eq. split; congruence.
  - split; discriminate.
Qed.

Lemma in_join_step (table working : list row) (r : row) :
  In r (Territories.join_step table working)
  <-> In r table
      /\ exists w, In w working
                   /\ territories_data.parent_id r
                      = Some (territories_data.territory_id w).
Proof.
  unfold Territories.join_step. rewrite in_flat_map. split.
  - intros [t [Ht Hr]]. apply in_map_iff in Hr as [w [<- Hw]].
    apply list_elem_of_In, list_elem_of_filter in Hw as [Hp Hw].
    split; [exact Ht|]. exists w. split; [apply list_elem_of_In, Hw|].
    apply eq_column_Some, Hp.
  - intros [Ht [w [Hw Hp]]]. exists r. split; [exact Ht|].
    apply in_map_iff. exists w. split; [reflexivity|].
    apply list_elem_of_In, list_elem_of_filter. split.
    + apply eq_column_Some, Hp.
    + apply list_elem_of_In, Hw.
Qed.

Lemma in_children (table : list row) (p : Z) (r : row) :
  In r (Territories.select_rows table (Territories.children p))
  <-> In r table /\ territories_data.parent_id r = Some p.
Proof.
  unfold Territories.select_rows, Territories.children.
  rewrite <- list_elem_of_In, list_elem_of_filter, list_elem_of_In.
  unfold Territories.satisfies. cbn [forallb Territories.holds Territories.whereclause].
  rewrite andb_true_r, eq_column_Some. tauto.
Qed.

Lemma recursive_rows_S (fuel : nat) (table working : list row) :
  Territories.recursive_rows (S fuel) table working
  = match Territories.join_step table working with
    | [] => Some []
    | n :: next => app (n :: next) <$> Territories.recursive_rows fuel table (n :: next)
    end.
Proof. reflexivity. Qed.

Lemma recursive_rows_O (table working : list row) :
  Territories.recursive_rows O table working
  = match Territories.join_step table working with
    | [] => Some []
    | _ :: _ => None
    end.
Proof. reflexivity. Qed.

(** More fuel does not change the rows of a recursion that has ended. *)
Lemma recursive_rows_more_fuel (fuel : nat) (table working rest : list row) :
  Territories.recursive_rows fuel table working = Some rest ->
  Territories.recursive_rows (S fuel) table working = Some rest.
Proof.
  revert working rest. induction fuel as [|fuel IH]; intros working rest.
  - rewrite recursive_rows_O, recursive_rows_S.
    destruct (Territories.join_step table working); [|discriminate].
    intros H. exact H.
  - rewrite (recursive_rows_S (S fuel)), (recursive_rows_S fuel).
    destruct (Territories.join_step table working) as [|n next].
    + intros H. exact H.
    + destruct (Territories.recursive_rows fuel table (n :: next)) as [rest'|] eqn:Hrec;
        [|discriminate].
      rewrite (IH _ _ Hrec). intros H. exact H.
Qed.

Lemma recursive_rows_fuel_le (fuel fuel' : nat) (table working rest : list row) :
  (fuel <= fuel')%nat ->
  Territories.recursive_rows fuel table working = Some rest ->
  Territories.recursive_rows fuel' table working = Some rest.
Proof.
  intros Hle H. induction Hle as [|fuel' _ IH].
  - exact H.
  - apply recursive_rows_more_fuel, IH.
Qed.

Lemma recursive_rows_deterministic (fuel fuel' : nat) (table working rest rest' : list row) :
  Territories.recursive_rows fuel table working = Some rest ->
  Territories.recursive_rows fuel' table working = Some rest' ->
  rest = rest'.
Proof.
  intros H H'.
  apply (recursive_rows_fuel_le fuel (Nat.max fuel fuel')) in H; [|lia].
  apply (recursive_rows_fuel_le fuel' (Nat.max fuel fuel')) in H'; [|lia].
  congruence.
Qed.

(** Every row the recursion adds is a row of the table whose parent chain
    reaches the ancestor of the working rows. *)
Lemma recursive_rows_descend (p : Z) (fuel : nat) (table working rest : list row) :
  (forall w, In w working -> In w table /\ Territories.descends table p w) ->
  Territories.recursive_rows fuel table working = Some rest ->
  forall r, In r rest -> In r table /\ Territories.descends table p r.
Proof.
  revert working rest. induction fuel as [|fuel IH]; intros working rest Hw Hrec.
  - rewrite recursive_rows_O in Hrec.
    destruct (Territories.join_step table working); [|discriminate].
    injection Hrec as <-. intros r [].
  - rewrite recursive_rows_S in Hrec.
    destruct (Territories.join_step table working) as [|n next] eqn:Hnext.
    { injection Hrec as <-. intros r []. }
    destruct (Territories.recursive_rows fuel table (n :: next)) as [rest'|] eqn:Hrest;
      [|discriminate].
    injection Hrec as <-.
    assert (Hnext_ok : forall r, In r (n :: next) ->
                                 In r table /\ Territories.descends table p r).
    { intros r Hr. rewrite <- Hnext in Hr. apply in_join_step in Hr as [Ht [w [Hin Hp]]].
      split; [exact Ht|]. destruct (Hw w Hin) as [Hwt Hwd].
      exact (Territories.descends_step table p r w Hwt Hp Hwd). }
    intros r Hr. apply (in_app_or (n :: next) rest') in Hr as [Hr|Hr].
    + exact (Hnext_ok r Hr).
    + exact (IH _ _ Hnext_ok Hrest r Hr).
Qed.

(** With a rank that grows from a row to its children, a working table whose
    rows have rank [k] or more is exhausted after [bound - k] steps, where
    [bound] exceeds every rank of the table. *)
Lemma recursive_rows_terminate (rank : row -> nat) (table : list row) (bound : nat) :
  (forall r, In r table -> (rank r < bound)%nat) ->
  (forall r q, In r table -> In q table ->
     territories_data.parent_id r = Some (territories_data.territory_id q) ->
     (rank q < rank r)%nat) ->
  forall (fuel k : nat) (working : list row),
    (bound <= k + fuel)%nat ->
    (forall w, In w working -> In w table /\ (k <= rank w)%nat) ->
    exists rest, Territories.recursive_rows fuel table working = Some rest.
Proof.
  intros Hbound Hrank. induction fuel as [|fuel IH]; intros k working Hk Hw.
  - rewrite recursive_rows_O.
    destruct (Territories.join_step table working) as [|n next] eqn:Hnext.
    + eexists. reflexivity.
    + assert (Hn : In n (Territories.join_step table working))
        by (rewrite Hnext; left; reflexivity).
      apply in_join_step in Hn as [Ht [w [Hin Hp]]].
      destruct (Hw w Hin) as [Hwt Hwk].
      specialize (Hrank n w Ht Hwt Hp). specialize (Hbound n Ht). lia.
  - rewrite recursive_rows_S.
    destruct (Territories.join_step table working) as [|n next] eqn:Hnext.
    + eexists. reflexivity.
    + destruct (IH (S k) (n :: next)) as [rest Hrest].
      * lia.
      * intros r Hr. rewrite <- Hnext in Hr.
        apply in_join_step in Hr as [Ht [w [Hin Hp]]].
        destruct (Hw w Hin) as [Hwt Hwk].
        specialize (Hrank r w Ht Hwt Hp). split; [exact Ht|lia].
      * rewrite Hrest. eexists. reflexivity.
Qed.

Lemma rank_bound (rank : row -> nat) (table : list row) :
  exists bound, forall r, In r table -> (rank r < bound)%nat.
Proof.
  induction table as [|a table [bound IH]].
  - exists O. intros r [].
  - exists (Nat.max (S (rank a)) bound). intros r [->|Hr].
    + lia.
    + specialize (IH r Hr). lia.
Qed.


Lemma recursive_statement (p : Z) :
  p <> 0 ->
  Territories.territories_by_parent_statement p true None
  = Ok (Territories.Recursive
          {| Territories.seed := Territories.children p;
             Territories.recursive_part := Territories.with_geometry |} []).
Proof.
  intros Hp. unfold Territories.territories_by_parent_statement.
  apply Z.eqb_neq in Hp. rewrite Hp. reflexivity.
Qed.

Lemma execute_recursive (fuel : nat) (table : list row) (p : Z) :
  Territories.execute ST_AsGeoJSON fuel table
    (Territories.Recursive
       {| Territories.seed := Territories.children p;
          Territories.recursive_part := Territories.with_geometry |} [])
  = (fun rest =>
       map (Territories.project ST_AsGeoJSON Territories.with_geometry)
         (Territories.select_rows table (Territories.children p) ++ rest))
    <$> Territories.recursive_rows fuel table
          (Territories.select_rows table (Territories.children p)).
Proof.
  unfold Territories.execute. cbn [Territories.seed Territories.recursive_part].
  destruct (Territories.recursive_rows fuel table
              (Territories.select_rows table (Territories.children p))) as [rest|];
    [|reflexivity].
  cbn. rewrite map_app. reflexivity.
Qed.

(** The statement of the recursive listing.  For a parent other than 0 and a
    table whose parent relation has no cycle (a rank grows from every row to
    its children), the evaluation of the recursive statement ends; its rows
    are those of the statement of the direct children followed by further
    rows, whatever the fuel, and the parent chain of each of its rows
    reaches the given parent. *)
Theorem recursive_statement_rows (table : list row) (p : Z) (rank : row -> nat) :
  p <> 0 ->
  (forall r q, In r table -> In q table ->
     territories_data.parent_id r = Some (territories_data.territory_id q) ->
     (rank q < rank r)%nat) ->
  exists fuel statement rest,
    Territories.territories_by_parent_statement p true None = Ok statement
    /\ Territories.territories_by_parent_statement p false None
       = Ok (Territories.Plain (Territories.children p))
    /\ Territories.execute ST_AsGeoJSON fuel table statement
       = Some (map (Territories.project ST_AsGeoJSON Territories.with_geometry)
                 (Territories.select_rows table (Territories.children p) ++ rest))
    /\ (forall fuel' result,
          Territories.execute ST_AsGeoJSON fuel' table statement = Some result ->
          result = map (Territories.project ST_AsGeoJSON Territories.with_geometry)
                     (Territories.select_rows table (Territories.children p) ++ rest))
    /\ Territories.execute ST_AsGeoJSON fuel table
         (Territories.Plain (Territories.children p))
       = Some (map (Territories.project ST_AsGeoJSON Territories.with_geometry)
                 (Territories.select_rows table (Territories.children p)))
    /\ (forall r, In r (Territories.select_rows table (Territories.children p) ++ rest) ->
                  In r table /\ Territories.descends table p r).
Proof.
  intros Hp Hrank.
  destruct (rank_bound rank table) as [bound Hbound].
  assert (Hseed : forall w,
             In w (Territories.select_rows table (Territories.children p)) ->
             In w table /\ Territories.descends table p w).
  { intros w Hw. apply in_children in Hw as [Ht Hparent].
    split; [exact Ht|]. apply Territories.descends_child, Hparent. }
  destruct (recursive_rows_terminate rank table bound Hbound Hrank bound O
              (Territories.select_rows table (Territories.children p)))
    as [rest Hrest].
  { lia. }
  { intros w Hw. split; [apply Hseed, Hw|lia]. }
  exists bound, (Territories.Recursive
                   {| Territories.seed := Territories.children p;
                      Territories.recursive_part := Territories.with_geometry |} []), rest.
  split; [exact (recursive_statement p Hp)|].
  split.
  { unfold Territories.territories_by_parent_statement. reflexivity. }
  split.
  { rewrite execute_recursive, Hrest. reflexivity. }
  split.
  { intros fuel' result. rewrite execute_recursive.
    destruct (Territories.recursive_rows fuel' table
                (Territories.select_rows table (Territories.children p)))
      as [rest'|] eqn:Hrest'; [|discriminate].
    intros H. injection H as <-.
    rewrite (recursive_rows_deterministic _ _ _ _ _ _ Hrest' Hrest). reflexivity. }
  split; [reflexivity|].
  intros r Hr. apply in_app_or in Hr as [Hr|Hr].
  - exact (Hseed r Hr).
  - exact (recursive_rows_descend p bound table _ rest Hseed Hrest r Hr).
Qed.

End TerritoriesProperties.

(** The same for every parent other than 0: the statement cannot be built. *)
Lemma without_geometry_recursive_statement (parent_id : Z) :
  parent_id <> 0 ->
  Territories.territories_without_geometry_by_parent_statement parent_id true
  = Raise ArgumentError.
Proof.
  intros Hp. unfold Territories.territories_without_geometry_by_parent_statement.
  apply Z.eqb_neq in Hp. rewrite Hp. reflexivity.
Qed.

Section Listing.

Context {Geom : Type} (ST_AsGeoJSON : Geom -> Any).

#[local] Abbreviation row := (territories_data.row Geom).

Lemma is_found_false (db : Territories.Db Geom) (id : Z) :
  (forall r, In r (Territories.territories db) -> territories_data.territory_id r <> id) ->
  Territories.is_found ST_AsGeoJSON db id = false.
Proof.
  intros Hmissing. apply not_true_is_false. intros Hfound.
  apply is_found_true in Hfound as [_ [r [Hr Hid]]]. exact (Hmissing r Hr Hid).
Qed.

(** The first column of a row selected with geometry is its key. *)
Lemma scalars_with_geometry (rows : list row) :
  Territories.scalars (map (Territories.project ST_AsGeoJSON Territories.with_geometry) rows)
  = map (fun r => Territories.Int (territories_data.territory_id r)) rows.
Proof.
  unfold Territories.scalars. rewrite map_map. reflexivity.
Qed.

Lemma comprehension_of_keys {B} (construct : list (Territories.Value Geom) -> Result B)
  (r : row) (rows : list row) :
  Territories.comprehension
    (fun territory => args <- Territories.star_args territory ;; construct args)
    (map (fun r => Territories.Int (territories_data.territory_id r)) (r :: rows))
  = Raise TypeError.
Proof. reflexivity. Qed.

(** C4.  For every existing parent other than 0 that has a child, the
    listing of the direct children raises [TypeError], and so does the
    recursive listing whenever its statement has been evaluated: [.scalars()]
    keeps the first column of each row, the key, and unpacking that integer
    as the arguments of [TerritoryDTO] fails.  The rows of the statements
    are as the claim says (see [recursive_statement_rows]); the function
    returns none of them. *)
Theorem listing_with_children_raises_type_error (fuel : nat) (db : Territories.Db Geom)
  (p : Z) (parent child : row) :
  p <> 0 ->
  In parent (Territories.territories db) ->
  territories_data.territory_id parent = p ->
  In child (Territories.territories db) ->
  territories_data.parent_id child = Some p ->
  Territories.get_territories_by_parent_id_from_db ST_AsGeoJSON fuel db p false None
  = Some (Raise TypeError)
  /\ (Territories.get_territories_by_parent_id_from_db ST_AsGeoJSON fuel db p true None
      = Some (Raise TypeError)
      \/ Territories.get_territories_by_parent_id_from_db ST_AsGeoJSON fuel db p true None
         = None).
Proof.
  intros Hp Hparent Hid Hchild Hparent_id.
  assert (Hfound : Territories.is_found ST_AsGeoJSON db p = true).
  { apply is_found_true. split; [exact Hp|]. exists parent. split; assumption. }
  assert (Hrows : exists c rows,
             Territories.select_rows (Territories.territories db) (Territories.children p)
             = c :: rows).
  { destruct (Territories.select_rows (Territories.territories db) (Territories.children p))
      as [|c rows] eqn:Hsel.
    - assert (Hin : In child (Territories.select_rows (Territories.territories db)
                                (Territories.children p)))
        by (apply in_children; split; assumption).
      rewrite Hsel in Hin. destruct Hin.
    - exists c, rows. reflexivity. }
  destruct Hrows as (c & rows & Hrows).
  unfold Territories.get_territories_by_parent_id_from_db.
  rewrite Hfound, andb_false_r. split.
  - unfold Territories.territories_by_parent_statement. simpl.
    rewrite Hrows, scalars_with_geometry. reflexivity.
  - rewrite (recursive_statement p Hp), execute_recursive.
    destruct (Territories.recursive_rows fuel (Territories.territories db)
                (Territories.select_rows (Territories.territories db)
                   (Territories.children p))) as [rest|]; [left|right; reflexivity].
    simpl. rewrite Hrows, scalars_with_geometry. reflexivity.
Qed.

(** C5.  At the root the flag is ignored, as the claim says: with the parent
    id 0 the two calls build the same statement, a plain select of the
    territories whose [parent_id] is 0.  But no set is returned: as soon as
    the store has such a territory, of the requested type when there is a
    filter, [.scalars()] keeps its key and unpacking that integer as the
    arguments of [TerritoryDTO] fails, so that both calls raise
    [TypeError]. *)
Theorem root_listing_returns_no_set (fuel fuel' : nat) (db : Territories.Db Geom)
  (territory_type_id : option Z) (root : row) :
  In root (Territories.territories db) ->
  territories_data.parent_id root = Some 0 ->
  (forall ty, territory_type_id = Some ty ->
              territories_data.territory_type_id root = Some ty) ->
  Territories.territories_by_parent_statement 0 true territory_type_id
  = Territories.territories_by_parent_statement 0 false territory_type_id
  /\ Territories.get_territories_by_parent_id_from_db ST_AsGeoJSON fuel db 0 true
       territory_type_id = Some (Raise TypeError)
  /\ Territories.get_territories_by_parent_id_from_db ST_AsGeoJSON fuel' db 0 false
       territory_type_id = Some (Raise TypeError).
Proof.
  intros Hin Hparent Htype. split; [reflexivity|].
  assert (Hcall : forall fuel flag,
    Territories.get_territories_by_parent_id_from_db ST_AsGeoJSON fuel db 0 flag
      territory_type_id = Some (Raise TypeError)).
  { intros fuel0 flag. unfold Territories.get_territories_by_parent_id_from_db.
    cbn [Z.eqb negb andb].
    unfold Territories.territories_by_parent_statement.
    rewrite andb_false_r. cbn [Z.eqb negb andb bind].
    set (query := match territory_type_id with
                  | Some ty =>
                      {| Territories.columns := Territories.with_geometry;
                         Territories.whereclause :=
                           [Territories.parent_id_eq 0; Territories.territory_type_id_eq ty] |}
                  | None => Territories.children 0
                  end).
    assert (Hstatement :
      match territory_type_id with
      | Some ty =>
          Ok (Territories.where_ (Territories.Plain (Territories.children 0))
                (Territories.territory_type_id_eq ty))
      | None => Ok (Territories.Plain (Territories.children 0))
      end = Ok (Territories.Plain query)).
    { subst query. destruct territory_type_id; reflexivity. }
    rewrite Hstatement.
    assert (Hcolumns : Territories.columns query = Territories.with_geometry)
      by (subst query; destruct territory_type_id; reflexivity).
    assert (Hselected : In root (Territories.select_rows (Territories.territories db) query)).
    { unfold Territories.select_rows. apply list_elem_of_In, list_elem_of_filter.
      split; [|apply list_elem_of_In, Hin].
      subst query. unfold Territories.satisfies.
      destruct territory_type_id as [ty|];
        cbn [forallb Territories.holds Territories.whereclause Territories.children].
      - rewrite andb_true_r, andb_true_iff, !eq_column_Some.
        split; [exact Hparent|apply Htype; reflexivity].
      - rewrite andb_true_r, eq_column_Some. exact Hparent. }
    cbn [Territories.execute mbind option_bind]. rewrite Hcolumns.
    destruct (Territories.select_rows (Territories.territories db) query) as [|r rows];
      [destruct Hselected|].
    rewrite scalars_with_geometry. reflexivity. }
  split; apply Hcall.
Qed.

(** C2.  The recursive part of the CTE of
    [get_territories_without_geometry_by_parent_id_from_db] selects the
    GeoJSON of [geometry] and of [centre_point], which its seed and the
    select of the other branch leave out.  The seed has 8 columns and the
    recursive part 10, so that [union_all] refuses them: for every existing
    parent other than 0 the recursive listing ends with that error and
    returns no territory. *)
Theorem without_geometry_recursive_listing_fails (fuel : nat) (db : Territories.Db Geom)
  (p : Z) (parent : row) :
  p <> 0 ->
  In parent (Territories.territories db) ->
  territories_data.territory_id parent = p ->
  filter (fun s => Territories.selects_geometry s = true)
    Territories.without_geometry_recursive_part
  = [Territories.AsGeoJSON territories_data.c.geometry;
     Territories.AsGeoJSON territories_data.c.centre_point]
  /\ filter (fun s => Territories.selects_geometry s = true)
       (Territories.columns (Territories.without_geometry_cte_statement p)) = []
  /\ filter (fun s => Territories.selects_geometry s = true)
       (Territories.columns (Territories.without_geometry_children p)) = []
  /\ Territories.get_territories_without_geometry_by_parent_id_from_db ST_AsGeoJSON fuel
       db p true = Some (Raise ArgumentError).
Proof.
  intros Hp Hparent Hid.
  split; [reflexivity|]. split; [reflexivity|]. split; [reflexivity|].
  assert (Hfound : Territories.is_found ST_AsGeoJSON db p = true).
  { apply is_found_true. split; [exact Hp|]. exists parent. split; assumption. }
  unfold Territories.get_territories_without_geometry_by_parent_id_from_db.
  rewrite Hfound, andb_false_r, (without_geometry_recursive_statement p Hp).
  reflexivity.
Qed.

(** A parent id other than 0 that names no territory: the 404 response. *)
Theorem listing_of_missing_parent_is_not_found (fuel : nat) (db : Territories.Db Geom)
  (p : Z) (get_all_levels : bool) (territory_type_id : option Z) :
  p <> 0 ->
  (forall r, In r (Territories.territories db) -> territories_data.territory_id r <> p) ->
  Territories.get_territories_by_parent_id_from_db ST_AsGeoJSON fuel db p get_all_levels
    territory_type_id
  = Some (Raise (HTTPException 404 "Given parent id is not found"))
  /\ Territories.get_territories_without_geometry_by_parent_id_from_db ST_AsGeoJSON fuel
       db p get_all_levels
     = Some (Raise (HTTPException 404 "Given parent id is not found")).
Proof.
  intros Hp Hmissing.
  unfold Territories.get_territories_by_parent_id_from_db,
    Territories.get_territories_without_geometry_by_parent_id_from_db.
  rewrite (is_found_false db p Hmissing).
  apply Z.eqb_neq in Hp. rewrite Hp. split; reflexivity.
Qed.

(** [get_territory_by_id_from_db]: the 404 response for an id that names no
    territory, and the territory otherwise. *)
Theorem get_territory_by_id_not_found (db : Territories.Db Geom) (id : Z) :
  (forall r, In r (Territories.territories db) -> territories_data.territory_id r <> id) ->
  Territories.get_territory_by_id_from_db ST_AsGeoJSON db id
  = Raise (HTTPException 404 "Given id is not found").
Proof.
  intros Hmissing. unfold Territories.get_territory_by_id_from_db, Territories.execute_plain.
  replace (Territories.select_rows (Territories.territories db)
             {| Territories.columns := Territories.with_geometry;
                Territories.whereclause := [Territories.territory_id_eq (Some id)] |})
    with (@nil row); [reflexivity|].
  symmetry. unfold Territories.select_rows. apply filter_none.
  intros r Hr. unfold Territories.satisfies. cbn [forallb Territories.holds Territories.whereclause].
  rewrite andb_true_r, eq_column_Some. intros Heq. injection Heq as Heq.
  exact (Hmissing r Hr Heq).
Qed.

End Listing.

(** ** Territories: cycles, creation, the type filter *)

Section Hierarchy.

Context {Geom : Type} (ST_AsGeoJSON : Geom -> Any)
  (ST_GeomFromGeoJSON : Geometry.t -> Result Geom).

#[local] Abbreviation row := (territories_data.row Geom).

(** A working table that holds a row of a set of rows in which every row has
    a child never runs dry. *)
Lemma recursive_rows_cycle (cycle : row -> Prop) (table : list row) :
  (forall w, cycle w ->
     exists r, In r table /\ cycle r
               /\ territories_data.parent_id r = Some (territories_data.territory_id w)) ->
  forall (fuel : nat) (working : list row),
    (exists w, In w working /\ cycle w) ->
    Territories.recursive_rows fuel table working = None.
Proof.
  intros Hcycle. induction fuel as [|fuel IH]; intros working [w [Hw Hc]].
  - rewrite recursive_rows_O.
    destruct (Hcycle w Hc) as [r (Hr & _ & Hp)].
    destruct (Territories.join_step table working) as [|n next] eqn:Hnext; [|reflexivity].
    assert (Hin : In r (Territories.join_step table working))
      by (apply in_join_step; split; [exact Hr|exists w; split; assumption]).
    rewrite Hnext in Hin. destruct Hin.
  - rewrite recursive_rows_S.
    destruct (Hcycle w Hc) as [r (Hr & Hcr & Hp)].
    assert (Hin : In r (Territories.join_step table working))
      by (apply in_join_step; split; [exact Hr|exists w; split; assumption]).
    destruct (Territories.join_step table working) as [|n next] eqn:Hnext;
      [destruct Hin|].
    rewrite (IH (n :: next)); [reflexivity|]. exists r. split; assumption.
Qed.

(** A cycle below the parent.  When the parent exists and one of its
    children belongs to a set of rows of the table in which every row has a
    child, as the rows of a cycle of the parent relation do, the
    evaluation of the recursive statement never ends: the listing of all
    levels gives no outcome, whatever the fuel and the type filter. *)
Theorem listing_below_a_cycle_never_ends (cycle : row -> Prop) (db : Territories.Db Geom)
  (p : Z) (territory_type_id : option Z) (child : row) :
  p <> 0 ->
  (exists parent, In parent (Territories.territories db)
                  /\ territories_data.territory_id parent = p) ->
  (forall w, cycle w ->
     exists r, In r (Territories.territories db) /\ cycle r
               /\ territories_data.parent_id r = Some (territories_data.territory_id w)) ->
  In child (Territories.territories db) ->
  territories_data.parent_id child = Some p ->
  cycle child ->
  forall fuel,
    Territories.get_territories_by_parent_id_from_db ST_AsGeoJSON fuel db p true
      territory_type_id = None.
Proof.
  intros Hp Hparent Hcycle Hchild Hchild_of Hin_cycle fuel.
  unfold Territories.get_territories_by_parent_id_from_db.
  assert (Hfound : Territories.is_found ST_AsGeoJSON db p = true)
    by (apply is_found_true; split; assumption).
  rewrite Hfound, andb_false_r.
  unfold Territories.territories_by_parent_statement.
  apply Z.eqb_neq in Hp. rewrite Hp. cbn [negb andb].
  assert (Hrows : Territories.recursive_rows fuel (Territories.territories db)
                    (Territories.select_rows (Territories.territories db)
                       (Territories.children p)) = None).
  { apply (recursive_rows_cycle cycle _ Hcycle). exists child. split; [|exact Hin_cycle].
    apply in_children. split; assumption. }
  destruct territory_type_id as [t|]; cbn; unfold Territories.execute;
    cbn [Territories.seed]; rewrite Hrows; reflexivity.
Qed.


Lemma select_rows_by_id (columns : list Territories.Selected) (table : list row) (id : Z) :
  Territories.select_rows table
    {| Territories.columns := columns;
       Territories.whereclause := [Territories.territory_id_eq (Some id)] |}
  = filter (fun r => territories_data.territory_id r = id) table.
Proof.
  unfold Territories.select_rows. apply filter_ext_in. intros r _.
  unfold Territories.satisfies. cbn [forallb Territories.holds Territories.whereclause].
  rewrite andb_true_r. cbn. apply Z.eqb_eq.
Qed.

Lemma select_rows_by_null_id (columns : list Territories.Selected) (table : list row) :
  Territories.select_rows table
    {| Territories.columns := columns;
       Territories.whereclause := [Territories.territory_id_eq None] |}
  = [].
Proof.
  unfold Territories.select_rows. apply filter_none. intros r _.
  unfold Territories.satisfies. cbn. discriminate.
Qed.

Lemma filter_fresh_id (table : list row) (id : Z) :
  (forall r, In r table -> territories_data.territory_id r < id) ->
  filter (fun r => territories_data.territory_id r = id) table = [].
Proof.
  intros Hfresh. apply filter_none. intros r Hr Heq. specialize (Hfresh r Hr). lia.
Qed.

(** Creation.  When the database accepts the two geometries and the parent
    id of the creation spec is 0, the id of a territory of the store or the
    id that the insert generates, [add_territory_to_db] returns the new
    territory as [get_territory_by_id_from_db] reads it, with the generated
    id and the geometries as GeoJSON; the committed table is the former one
    followed by the new row, and the sequence has advanced by one. *)
Theorem add_territory_then_get (territory : Territories.TerritoriesDataPost)
  (st : Territories.Session Geom) (p : Z) (g c : Geom) :
  ST_GeomFromGeoJSON (Territories.post_geometry territory) = Ok g ->
  ST_GeomFromGeoJSON (Territories.post_centre_point territory) = Ok c ->
  Territories.sequence_fresh (Territories.tables st) ->
  Territories.post_parent_id territory = Some p ->
  p = 0 \/ p = Territories.territories_seq (Territories.tables st)
  \/ (exists parent, In parent (Territories.territories (Territories.tables st))
                     /\ territories_data.territory_id parent = p) ->
  let outcome :=
    Territories.add_territory_to_db ST_AsGeoJSON ST_GeomFromGeoJSON territory st in
  let territory_id := Territories.territories_seq (Territories.tables st) in
  outcome.1
  = Ok {| Territories.dto_territory_id := Territories.Int territory_id;
          Territories.dto_territory_type_id :=
            Territories.nullable Territories.Int
              (Territories.post_territory_type_id territory);
          Territories.dto_parent_id := Territories.Int p;
          Territories.dto_name := Territories.Text (Territories.post_name territory);
          Territories.dto_geometry := Territories.Json (ST_AsGeoJSON g);
          Territories.dto_level := Territories.Int (Territories.post_level territory);
          Territories.dto_properties :=
            Territories.Json (PyDict (Territories.post_properties territory));
          Territories.dto_centre_point := Territories.Json (ST_AsGeoJSON c);
          Territories.dto_admin_center :=
            Territories.nullable Territories.Int
              (Territories.post_admin_center territory);
          Territories.dto_okato_code :=
            Territories.nullable Territories.Text
              (Territories.post_okato_code territory) |}
  /\ Territories.get_territory_by_id_from_db ST_AsGeoJSON
       (Territories.committed outcome.2) territory_id = outcome.1
  /\ Territories.committed outcome.2 = Territories.tables outcome.2
  /\ Territories.territories (Territories.committed outcome.2)
     = (Territories.territories (Territories.tables st)
        ++ [Territories.inserted territory territory_id g c])%list
  /\ Territories.territories_seq (Territories.committed outcome.2) = territory_id + 1.
Proof.
  intros Hg Hc Hfresh Hparent Hp outcome territory_id. subst outcome territory_id.
  destruct territory as [type parent name geometry level properties centre admin okato].
  cbn [Territories.post_territory_type_id Territories.post_parent_id
       Territories.post_name Territories.post_geometry Territories.post_level
       Territories.post_properties Territories.post_centre_point
       Territories.post_admin_center Territories.post_okato_code] in *.
  subst parent.
  unfold Territories.add_territory_to_db, Territories.insert_territory,
    Territories.delete_territory, Territories.write_territories, Territories.read,
    Territories.commit, bindM, ret, lift, raise, Territories.inserted.
  cbn [Territories.post_territory_type_id Territories.post_parent_id
       Territories.post_name Territories.post_geometry Territories.post_level
       Territories.post_properties Territories.post_centre_point
       Territories.post_admin_center Territories.post_okato_code].
  rewrite Hg, Hc.
  cbn [fst snd Territories.tables Territories.committed Territories.territories
       Territories.territories_seq].
  set (new := {| territories_data.territory_id :=
                   Territories.territories_seq (Territories.tables st);
                 territories_data.territory_type_id := type;
                 territories_data.parent_id := Some p;
                 territories_data.name := name;
                 territories_data.geometry := g;
                 territories_data.level := level;
                 territories_data.properties := properties;
                 territories_data.centre_point := c;
                 territories_data.admin_center := admin;
                 territories_data.okato_code := okato |}).
  assert (Hnew : filter (fun r : row => territories_data.territory_id r
                                        = Territories.territories_seq (Territories.tables st))
                   (Territories.territories (Territories.tables st) ++ [new])%list
                 = [new]).
  { rewrite filter_app, (filter_fresh_id _ _ Hfresh).
    rewrite filter_cons_True by reflexivity. reflexivity. }
  assert (Hget : forall seq services urban_objects object_geometries,
    Territories.get_territory_by_id_from_db ST_AsGeoJSON
      {| Territories.territories :=
           (Territories.territories (Territories.tables st) ++ [new])%list;
         Territories.territories_seq := seq;
         Territories.services := services;
         Territories.urban_objects := urban_objects;
         Territories.object_geometries := object_geometries |}
      (Territories.territories_seq (Territories.tables st))
    = Ok {| Territories.dto_territory_id :=
              Territories.Int (Territories.territories_seq (Territories.tables st));
            Territories.dto_territory_type_id := Territories.nullable Territories.Int type;
            Territories.dto_parent_id := Territories.Int p;
            Territories.dto_name := Territories.Text name;
            Territories.dto_geometry := Territories.Json (ST_AsGeoJSON g);
            Territories.dto_level := Territories.Int level;
            Territories.dto_properties := Territories.Json (PyDict properties);
            Territories.dto_centre_point := Territories.Json (ST_AsGeoJSON c);
            Territories.dto_admin_center := Territories.nullable Territories.Int admin;
            Territories.dto_okato_code := Territories.nullable Territories.Text okato |}).
  { intros. unfold Territories.get_territory_by_id_from_db, Territories.execute_plain.
    cbn [Territories.territories Territories.columns].
    rewrite select_rows_by_id, Hnew. reflexivity. }
  destruct (decide (p = 0)) as [Hz|Hnz].
  - rewrite bool_decide_eq_true_2 by (rewrite Hz; reflexivity).
    cbn [negb fst snd Territories.tables Territories.committed
         Territories.territories Territories.territories_seq].
    rewrite !Hget. repeat split; reflexivity.
  - rewrite bool_decide_eq_false_2 by congruence.
    cbn [negb fst snd Territories.tables Territories.committed
         Territories.territories Territories.territories_seq].
    unfold Territories.execute_plain. cbn [Territories.territories Territories.columns].
    rewrite select_rows_by_id.
    assert (Hfound : exists r rows,
              filter (fun r : row => territories_data.territory_id r = p)
                (Territories.territories (Territories.tables st) ++ [new])%list
              = r :: rows).
    { destruct Hp as [Hp|[Hp|[parent [Hin Hid]]]]; [contradiction| |].
      - subst p. rewrite Hnew. eexists. eexists. reflexivity.
      - assert (Hmember : In parent
                  (filter (fun r : row => territories_data.territory_id r = p)
                     (Territories.territories (Territories.tables st) ++ [new])%list)).
        { apply list_elem_of_In, list_elem_of_filter. split; [exact Hid|].
          apply list_elem_of_In, in_or_app. left. exact Hin. }
        destruct (filter (fun r : row => territories_data.territory_id r = p)
                    (Territories.territories (Territories.tables st) ++ [new])%list)
          as [|r rows]; [destruct Hmember|].
        eexists. eexists. reflexivity. }
    destruct Hfound as [r [rows Hfound]]. rewrite Hfound.
    cbn [map first head fst snd Territories.tables Territories.committed
         Territories.territories Territories.territories_seq].
    rewrite !Hget. repeat split; reflexivity.
Qed.

(** An absent parent.  When the parent id of the creation spec is null, the
    comparison [parent_id != 0] holds and the check selects the territories
    whose key is null: there is none, so the inserted row is deleted and the
    404 response raised; the committed table is the one before the call. *)
Theorem add_territory_without_parent_is_not_found
  (territory : Territories.TerritoriesDataPost) (st : Territories.Session Geom)
  (g c : Geom) :
  ST_GeomFromGeoJSON (Territories.post_geometry territory) = Ok g ->
  ST_GeomFromGeoJSON (Territories.post_centre_point territory) = Ok c ->
  Territories.sequence_fresh (Territories.tables st) ->
  Territories.post_parent_id territory = None ->
  let outcome :=
    Territories.add_territory_to_db ST_AsGeoJSON ST_GeomFromGeoJSON territory st in
  outcome.1 = Raise (HTTPException 404 "Given parent_id is not found")
  /\ Territories.committed outcome.2 = Territories.tables outcome.2
  /\ Territories.territories (Territories.committed outcome.2)
     = Territories.territories (Territories.tables st).
Proof.
  intros Hg Hc Hfresh Hparent outcome. subst outcome.
  unfold Territories.add_territory_to_db, Territories.insert_territory,
    Territories.delete_territory, Territories.write_territories, Territories.read,
    Territories.commit, bindM, ret, lift, raise.
  rewrite Hg, Hc, Hparent.
  cbn [fst snd Territories.tables Territories.committed Territories.territories
       Territories.territories_seq].
  rewrite bool_decide_eq_false_2 by discriminate.
  cbn [negb fst snd Territories.tables Territories.committed
       Territories.territories Territories.territories_seq].
  unfold Territories.execute_plain. rewrite select_rows_by_null_id.
  cbn [map first head fst snd Territories.tables Territories.committed
       Territories.territories Territories.territories_seq].
  rewrite filter_app, filter_cons_False by (simpl; congruence).
  rewrite filter_nil, app_nil_r.
  rewrite filter_all_in.
  2: { intros r Hr. specialize (Hfresh r Hr). lia. }
  repeat split; reflexivity.
Qed.


Lemma map_const_repeat {A B} (b : B) (l : list A) :
  map (fun _ => b) l = repeat b (length l).
Proof. induction l as [|a l IH]; simpl; [reflexivity|f_equal; exact IH]. Qed.

Lemma filter_by_type (table : list row) (t : Z) :
  filter (fun r => Territories.satisfies [Territories.territory_type_id_eq t] r = true)
    table
  = filter (fun r => territories_data.territory_type_id r = Some t) table.
Proof.
  apply filter_ext_in. intros r _.
  unfold Territories.satisfies. cbn [forallb Territories.holds].
  rewrite andb_true_r. apply eq_column_Some.
Qed.

Lemma flat_map_nil {A B} (l : list A) : flat_map (fun _ : A => @nil B) l = [].
Proof. induction l as [|a l IH]; [reflexivity|exact IH]. Qed.

Lemma execute_outer (fuel : nat) (table : list row) (cte : Territories.CTE)
  (outer : list Territories.Criterion) :
  Territories.execute ST_AsGeoJSON fuel table (Territories.Recursive cte outer)
  = Territories.select_from_cte table outer
    <$> Territories.execute ST_AsGeoJSON fuel table (Territories.Recursive cte []).
Proof.
  unfold Territories.execute.
  destruct (Territories.recursive_rows fuel table
              (Territories.select_rows table (Territories.seed cte))); reflexivity.
Qed.

Lemma select_from_cte_by_type (table : list row) (t : Z)
  (tuples : list (list (Territories.Value Geom))) :
  Territories.select_from_cte table [Territories.territory_type_id_eq t] tuples
  = flat_map
      (fun tuple =>
         repeat tuple
           (length (filter (fun r => territories_data.territory_type_id r = Some t)
                      table)))
      tuples.
Proof.
  unfold Territories.select_from_cte. rewrite filter_by_type.
  apply flat_map_ext. intros tuple. apply map_const_repeat.
Qed.

(** The type filter of the recursive listing.  On [select(cte)] the
    criterion on [territories_data.c.territory_type_id] brings
    [territories_data] into the FROM list: every row of the recursive
    statement comes once for each territory of the whole table that has the
    type, whatever the type of the row itself.  The filtered statement has
    no row when no territory has the type, and otherwise the same rows as
    the unfiltered one. *)
Theorem recursive_type_filter_is_a_cross_join (fuel : nat) (table : list row) (p t : Z)
  (unfiltered filtered : Territories.Statement) (rows : list (list (Territories.Value Geom))) :
  p <> 0 ->
  Territories.territories_by_parent_statement p true None = Ok unfiltered ->
  Territories.territories_by_parent_statement p true (Some t) = Ok filtered ->
  Territories.execute ST_AsGeoJSON fuel table unfiltered = Some rows ->
  let typed := filter (fun r => territories_data.territory_type_id r = Some t) table in
  Territories.execute ST_AsGeoJSON fuel table filtered
  = Some (flat_map (fun tuple => repeat tuple (length typed)) rows)
  /\ (typed = [] -> Territories.execute ST_AsGeoJSON fuel table filtered = Some [])
  /\ (typed <> [] ->
      forall tuple,
        In tuple (flat_map (fun tuple => repeat tuple (length typed)) rows)
        <-> In tuple rows).
Proof.
  intros Hp Hunfiltered Hfiltered Hrows typed.
  unfold Territories.territories_by_parent_statement in *.
  apply Z.eqb_neq in Hp. rewrite Hp in *. cbn in Hunfiltered, Hfiltered.
  injection Hunfiltered as <-. injection Hfiltered as <-.
  assert (Hexec :
    Territories.execute ST_AsGeoJSON fuel table
      (Territories.Recursive
         {| Territories.seed := Territories.children p;
            Territories.recursive_part := Territories.with_geometry |}
         [Territories.territory_type_id_eq t])
    = Some (flat_map (fun tuple => repeat tuple (length typed)) rows)).
  { rewrite execute_outer, Hrows. cbn [fmap option_fmap option_map].
    rewrite select_from_cte_by_type. reflexivity. }
  split; [exact Hexec|]. split.
  - intros Hnone. rewrite Hexec, Hnone. cbn [length repeat].
    rewrite flat_map_nil. reflexivity.
  - intros Hsome tuple. rewrite in_flat_map. split.
    + intros [x [Hx Hin]]. apply repeat_spec in Hin. subst tuple. exact Hx.
    + intros Hin. exists tuple. split; [exact Hin|].
      destruct typed as [|r typed']; [contradiction|]. left. reflexivity.
Qed.

End Hierarchy.

(** ** Territories: functional zones, capacity, territory types *)

Section Zones.

Context {Geom : Type} (ST_AsGeoJSON : Geom -> Any).

(** Functional zones.  The function has no check of the territory and reads
    its result with [.scalars()]: it returns the empty list when the
    territory, existing or not, has no zone of the requested type, and
    raises [TypeError] as soon as it has one, since the key of the zone is
    then unpacked as the arguments of the DTO.  Without a type every zone
    of the territory is selected. *)
Theorem functional_zones_outcome (zones : list (functional_zones_data.row Geom))
  (territory_id : Z) (functional_zone_type_id : option Z) :
  Territories.get_functional_zones_by_territory_id_from_db ST_AsGeoJSON zones
    territory_id functional_zone_type_id
  = match Territories.functional_zones_of zones territory_id functional_zone_type_id with
    | [] => Ok []
    | _ :: _ => Raise TypeError
    end
  /\ (forall z,
        In z (Territories.functional_zones_of zones territory_id functional_zone_type_id)
        <-> In z zones
            /\ functional_zones_data.territory_id z = Some territory_id
            /\ (forall ty, functional_zone_type_id = Some ty ->
                           functional_zones_data.functional_zone_type_id z = Some ty)).
Proof.
  split.
  - unfold Territories.get_functional_zones_by_territory_id_from_db.
    destruct (Territories.functional_zones_of zones territory_id functional_zone_type_id);
      reflexivity.
  - intros z. unfold Territories.functional_zones_of.
    rewrite in_filter, andb_true_iff, eq_column_Some. split.
    + intros [[Hterritory Htype] Hin]. split; [exact Hin|]. split; [exact Hterritory|].
      intros ty ->. apply eq_column_Some, Htype.
    + intros [Hin [Hterritory Htype]]. split; [|exact Hin]. split; [exact Hterritory|].
      destruct functional_zone_type_id as [ty|]; [|reflexivity].
      apply eq_column_Some, Htype. reflexivity.
Qed.

Lemma func_sum_None (values : list (option Z)) :
  Territories.func_sum values = None <-> forall v, In v values -> v = None.
Proof.
  unfold Territories.func_sum. induction values as [|v values IH].
  - cbn. split; [intros _ v []|reflexivity].
  - destruct v as [z|]; cbn.
    + split; [discriminate|]. intros H. specialize (H (Some z) (or_introl eq_refl)).
      discriminate.
    + cbn in IH. rewrite IH. split.
      * intros H v [<-|Hv]; [reflexivity|exact (H v Hv)].
      * intros H v Hv. apply H. right. exact Hv.
Qed.

(** The capacity of nothing.  For an existing territory the aggregated
    capacity is null, not 0, exactly when no joined service of the requested
    type has a capacity: when there is no such service, or when the
    capacity of each of them is null. *)
Theorem capacity_is_null_without_capacities (db : Territories.Db Geom)
  (territory_id : Z) (service_type_id : option Z) :
  Territories.is_found ST_AsGeoJSON db territory_id = true ->
  Territories.get_services_capacity_by_territory_id_from_db ST_AsGeoJSON db
    territory_id service_type_id = Ok None
  <-> (forall s, In s (Territories.services_of_territory db territory_id) ->
                 Territories.eq_column (services_data.service_type_id s) service_type_id
                 = true ->
                 services_data.capacity_real s = None).
Proof.
  intros Hfound. rewrite (capacity_of_found ST_AsGeoJSON db _ _ Hfound). split.
  - intros H s Hs Htype. injection H as H.
    apply (proj1 (func_sum_None _)) with (v := services_data.capacity_real s) in H;
      [exact H|].
    apply in_map, in_filter. split; assumption.
  - intros H. f_equal. apply func_sum_None. intros v Hv.
    apply in_map_iff in Hv as [s [<- Hs]]. apply in_filter in Hs as [Htype Hs].
    exact (H s Hs Htype).
Qed.

End Zones.

Section TerritoryTypes.

Context {Geom : Type}.

(** Creation of a territory type.  A name that the table already has is
    refused with the 400 response and nothing is written.  For a new name
    the row is inserted and committed, and the call then raises
    [TypeError]: [.scalar()] has kept the key of the returned row, which
    cannot be unpacked as the arguments of the DTO.  The type exists all
    the same: the same request, repeated, is refused with the 400
    response. *)
Theorem add_territory_type_twice (territory_type_id again : Z) (name : string)
  (st : Territories.TypesSession) :
  ((exists r, In r (Territories.territory_types st) /\ territory_types_dict.name r = name) ->
   Territories.add_territory_type_to_db (Geom := Geom) territory_type_id name st
   = (Raise (HTTPException 400 "Invalid input (territory type already exists)"), st))
  /\ ((forall r, In r (Territories.territory_types st) ->
                 territory_types_dict.name r <> name) ->
      let outcome :=
        Territories.add_territory_type_to_db (Geom := Geom) territory_type_id name st in
      outcome.1 = Raise TypeError
      /\ Territories.territory_types_committed outcome.2
         = (Territories.territory_types st
            ++ [{| territory_types_dict.territory_type_id := territory_type_id;
                   territory_types_dict.name := name |}])%list
      /\ Territories.add_territory_type_to_db (Geom := Geom) again name outcome.2
         = (Raise (HTTPException 400 "Invalid input (territory type already exists)"),
            outcome.2)).
Proof.
  assert (Hduplicate : forall id (st : Territories.TypesSession),
    (exists r, In r (Territories.territory_types st)
               /\ territory_types_dict.name r = name) ->
    Territories.add_territory_type_to_db (Geom := Geom) id name st
    = (Raise (HTTPException 400 "Invalid input (territory type already exists)"), st)).
  { intros id st' [r [Hin Hname]].
    unfold Territories.add_territory_type_to_db, bindM, raise.
    assert (Hmember : In r (filter (fun r => territory_types_dict.name r = name)
                              (Territories.territory_types st')))
      by (apply in_filter; split; assumption).
    destruct (filter (fun r => territory_types_dict.name r = name)
                (Territories.territory_types st')) as [|r' rows]; [destruct Hmember|].
    reflexivity. }
  split; [apply Hduplicate|].
  intros Hnew outcome.
  assert (Houtcome :
    outcome
    = (Raise TypeError,
       {| Territories.territory_types :=
            (Territories.territory_types st
             ++ [{| territory_types_dict.territory_type_id := territory_type_id;
                    territory_types_dict.name := name |}])%list;
          Territories.territory_types_committed :=
            (Territories.territory_types st
             ++ [{| territory_types_dict.territory_type_id := territory_type_id;
                    territory_types_dict.name := name |}])%list |})).
  { subst outcome. unfold Territories.add_territory_type_to_db, bindM, raise, lift.
    rewrite (filter_none _ _ Hnew). reflexivity. }
  rewrite Houtcome. cbn [fst snd Territories.territory_types_committed].
  split; [reflexivity|]. split; [reflexivity|].
  apply Hduplicate. eexists. split; [apply in_or_app; right; left; reflexivity|reflexivity].
Qed.

End TerritoryTypes.

(** ** Evaluations, counterexamples and instances *)

(** *** get_project_territory_by_id_from_db *)

Section ProjectTerritory.

Context {Geom : Type} (ST_AsGeoJSON : Geom -> Any).

(** The first lookup: without a project of the given id, the 404 response. *)
Theorem project_missing_is_not_found (conn : Projects.Conn Geom) (project_id : Z) :
  (forall r, In r (Projects.projects (Projects.tables conn)) ->
             projects_data.project_id r <> project_id) ->
  (Projects.get_project_territory_by_id_from_db ST_AsGeoJSON project_id conn).1
  = Raise (HTTPException 404 "Given id is not found in projects_data").
Proof.
  intros Hmissing.
  unfold Projects.get_project_territory_by_id_from_db, Projects.select_project,
    Projects.log, Projects.read, bindM, ret, lift.
  simpl. rewrite (filter_none _ _ Hmissing). reflexivity.
Qed.

(** C1: the second lookup.  When the project exists and no territory detail
    has its [project_territory_id], [one_or_none] returns [None] without
    raising, the handler that holds the 404 response is not entered, and
    the unpacking of [None] raises [TypeError]: the outcome is not the
    not-found error. *)
Theorem territory_detail_missing_is_type_error (conn : Projects.Conn Geom)
  (p : projects_data.row) :
  Projects.primary_key (Projects.tables conn) ->
  In p (Projects.projects (Projects.tables conn)) ->
  (forall t, In t (Projects.projects_territory (Projects.tables conn)) ->
             projects_territory_data.project_territory_id t
             <> projects_data.project_territory_id p) ->
  (Projects.get_project_territory_by_id_from_db ST_AsGeoJSON
     (projects_data.project_id p) conn).1 = Raise TypeError
  /\ is_not_found
       (Projects.get_project_territory_by_id_from_db ST_AsGeoJSON
          (projects_data.project_id p) conn).1 = false.
Proof.
  intros Hkey Hin Hmissing.
  assert (Houtcome :
    (Projects.get_project_territory_by_id_from_db ST_AsGeoJSON
       (projects_data.project_id p) conn).1 = Raise TypeError).
  { unfold Projects.get_project_territory_by_id_from_db, Projects.select_project,
      Projects.select_project_territory, Projects.log, Projects.read, bindM, ret, lift.
    simpl. rewrite (filter_primary_key _ p Hkey Hin). simpl.
    rewrite (filter_none _ _ Hmissing). reflexivity. }
  rewrite Houtcome. split; reflexivity.
Qed.

End ProjectTerritory.

Lemma project_missing_is_not_found_witness :
  (Projects.get_project_territory_by_id_from_db Sample.ST_AsGeoJSON 2
     (Projects.connect Sample.orphan_db)).1
  = Raise (HTTPException 404 "Given id is not found in projects_data").
Proof.
  apply (project_missing_is_not_found Sample.ST_AsGeoJSON
           (Projects.connect Sample.orphan_db) 2).
  intros r [<-|[]]. discriminate.
Defined.

Lemma territory_detail_missing_is_type_error_witness :
  (Projects.get_project_territory_by_id_from_db Sample.ST_AsGeoJSON 1
     (Projects.connect Sample.orphan_db)).1 = Raise TypeError
  /\ is_not_found
       (Projects.get_project_territory_by_id_from_db Sample.ST_AsGeoJSON 1
          (Projects.connect Sample.orphan_db)).1 = false.
Proof.
  apply (territory_detail_missing_is_type_error Sample.ST_AsGeoJSON
           (Projects.connect Sample.orphan_db) Sample.project).
  - apply NoDup_singleton.
  - left. reflexivity.
  - intros t [].
Defined.

(** *** patch_project_to_db *)

Lemma patch_name_only_witness :
  (Projects.patch_project_to_db Sample.store 200 (Projects.only_name "Quay") 1
     (Projects.connect Sample.projects_db)).1
  = Ok (Projects.renamed 200 "Quay" Sample.project)
  /\ Projects.projects_territory
       (Projects.tables
          (Projects.patch_project_to_db Sample.store 200 (Projects.only_name "Quay") 1
             (Projects.connect Sample.projects_db)).2)
     = [Sample.detail].
Proof.
  destruct (patch_name_only Sample.store 200 "Quay"
              (Projects.connect Sample.projects_db) Sample.project)
    as (Hresult & _ & Hdetail & _).
  - apply NoDup_singleton.
  - left. reflexivity.
  - cbn. lia.
  - split; [exact Hresult|exact Hdetail].
Defined.

(** *** post, put, delete and patch of projects *)

Lemma sample_projects_consistent : Projects.consistent Sample.projects_db.
Proof.
  split; [apply NoDup_singleton|]. split; [apply NoDup_singleton|].
  split; repeat constructor.
Qed.

Lemma sample_nested_consistent : Projects.consistent Sample.nested_db.
Proof.
  split; [apply NoDup_singleton|]. split; [|split].
  - apply NoDup_cons. split; [|apply NoDup_singleton].
    intros Hin. apply list_elem_of_In in Hin as [Hin|[]]. discriminate.
  - repeat constructor.
  - constructor; [exact I|]. constructor; [|constructor]. left. reflexivity.
Qed.

Lemma post_then_get_witness :
  (Projects.get_project_territory_by_id_from_db Sample.ST_AsGeoJSON 2
     (Projects.post_project_to_db Sample.store 8 2 300 300 Sample.project_post
        (Projects.connect Sample.projects_db)).2).1
  = Ok {| Projects.dto_project_territory_id := 8;
          Projects.dto_parent_id := Some 7;
          Projects.dto_geometry := Sample.ST_AsGeoJSON Sample.square;
          Projects.dto_centre_point := Sample.ST_AsGeoJSON Sample.point;
          Projects.dto_properties := PyDict {[ "status" := PyStr "draft" ]} |}.
Proof.
  destruct (post_then_get Sample.store Sample.ST_AsGeoJSON 8 2 300 300
              Sample.project_post (Projects.connect Sample.projects_db)
              Sample.square Sample.point)
    as (_ & _ & _ & _ & Hdetail).
  - exact sample_projects_consistent.
  - reflexivity.
  - reflexivity.
  - reflexivity.
  - reflexivity.
  - reflexivity.
  - intros r [<-|[]]. discriminate.
  - intros t [<-|[]]. discriminate.
  - right. left. reflexivity.
  - exact Hdetail.
Defined.

Lemma dangling_parent_is_refused_witness :
  (Projects.post_project_to_db Sample.store 8 2 300 300
     (Sample.project_post_under (Some 99)) (Projects.connect Sample.projects_db)).1
  = Raise IntegrityError
  /\ (Projects.put_project_to_db Sample.store 200
        (Sample.project_post_under (Some 99)) 1 (Projects.connect Sample.projects_db)).1
     = Raise IntegrityError.
Proof.
  destruct (dangling_parent_is_refused Sample.store 8 2 300 300 200
              (Sample.project_post_under (Some 99))
              (Projects.connect Sample.projects_db) Sample.project
              Sample.square Sample.point 99)
    as (Hpost & _ & Hput & _).
  - exact sample_projects_consistent.
  - left. reflexivity.
  - reflexivity.
  - reflexivity.
  - reflexivity.
  - reflexivity.
  - reflexivity.
  - intros [Hid|[]]. discriminate.
  - discriminate.
  - split; [exact Hpost|exact Hput].
Defined.

Lemma missing_project_leaves_store_witness :
  Projects.tables
    (Projects.delete_project_from_db 2 (Projects.connect Sample.projects_db)).2
  = Sample.projects_db.
Proof.
  destruct (missing_project_leaves_store Sample.store 200 Sample.project_post
              (Projects.only_name "Quay") 2 (Projects.connect Sample.projects_db))
    as (Hdelete & _).
  - reflexivity.
  - intros r [<-|[]]. discriminate.
  - rewrite Hdelete. reflexivity.
Defined.

Lemma delete_then_get_witness :
  (Projects.delete_project_from_db 1 (Projects.connect Sample.projects_db)).1 = Ok tt
  /\ (Projects.get_project_by_id_from_db 1
        (Projects.delete_project_from_db 1 (Projects.connect Sample.projects_db)).2).1
     = Raise (HTTPException 404 "Given id is not found").
Proof.
  destruct (delete_then_get Sample.ST_AsGeoJSON (Projects.connect Sample.projects_db)
              Sample.project)
    as (Hresult & _ & _ & _ & _ & Hget & _).
  - exact sample_projects_consistent.
  - left. reflexivity.
  - intros r [<-|[]] _. reflexivity.
  - intros t [<-|[]]. discriminate.
  - split; [exact Hresult|exact Hget].
Defined.

Lemma delete_referenced_territory_is_refused_witness :
  (Projects.delete_project_from_db 1 (Projects.connect Sample.nested_db)).1
  = Raise IntegrityError
  /\ Projects.committed
       (Projects.delete_project_from_db 1 (Projects.connect Sample.nested_db)).2
     = Sample.nested_db.
Proof.
  apply (delete_referenced_territory_is_refused (Projects.connect Sample.nested_db)
           Sample.project).
  - exact sample_nested_consistent.
  - left. reflexivity.
  - right. eexists. split; [right; left; reflexivity|]. split; [discriminate|reflexivity].
Defined.

Lemma put_replaces_project_witness :
  (Projects.put_project_to_db Sample.store 200 Sample.project_post 1
     (Projects.connect Sample.projects_db)).1
  = Ok {| projects_data.project_id := 1;
          projects_data.user_id := 11;
          projects_data.name := "Harbour";
          projects_data.project_territory_id := 7;
          projects_data.description := Some "Quays and piers";
          projects_data.public := false;
          projects_data.image_url := None;
          projects_data.created_at := 100;
          projects_data.updated_at := 200 |}.
Proof.
  destruct (put_replaces_project Sample.store 200 Sample.project_post
              (Projects.connect Sample.projects_db) Sample.project
              Sample.square Sample.point)
    as (Hresult & _).
  - exact sample_projects_consistent.
  - left. reflexivity.
  - reflexivity.
  - reflexivity.
  - reflexivity.
  - left. reflexivity.
  - exact Hresult.
Defined.

Lemma empty_patch_returns_project_witness :
  (Projects.patch_project_to_db Sample.store 200 (Projects.territory_only None) 1
     (Projects.connect Sample.projects_db)).1
  = Ok Sample.project.
Proof.
  change 1 with (projects_data.project_id Sample.project).
  rewrite (empty_patch_returns_project Sample.store 200
             (Projects.connect Sample.projects_db) Sample.project).
  - reflexivity.
  - apply NoDup_singleton.
  - left. reflexivity.
Defined.

Lemma patch_null_geometry_is_refused_witness :
  (Projects.patch_project_to_db Sample.store 200
     {| Projects.patch_user_id := None; Projects.patch_name := Some "Quay";
        Projects.patch_description := None; Projects.patch_public := None;
        Projects.patch_image_url := None;
        Projects.project_territory_info := Some Projects.null_geometry |}
     1 (Projects.connect Sample.projects_db)).1
  = Raise IntegrityError.
Proof.
  destruct (patch_null_geometry_is_refused Sample.store 200 None (Some "Quay") None None
              None (Projects.connect Sample.projects_db) Sample.project Sample.detail)
    as (Hresult & _).
  - apply NoDup_singleton.
  - left. reflexivity.
  - left. reflexivity.
  - reflexivity.
  - reflexivity.
  - exact Hresult.
Defined.

(** *** Feature *)

Lemma null_geometry_is_dropped_before_lookup_witness :
  Feature.from_dict Sample.json_loads Sample.null_geometry_row "geometry" false
  = Raise (KeyError "geometry")
  /\ Feature.from_row Sample.json_loads Sample.null_geometry_row "geometry" false
     = Raise ValidationError.
Proof.
  destruct (null_geometry_is_dropped_before_lookup Sample.json_loads
              Sample.null_geometry_row "geometry")
    as (Hdict & _ & _ & Hrow).
  - reflexivity.
  - split; [exact Hdict|exact Hrow].
Defined.

(** *** Listing territories *)

(** The select lists of the listing without geometry, and the outcome of the
    recursive listing for the parent 1 of the sample. *)
Example without_geometry_select_lists :
  filter (fun s => Territories.selects_geometry s = true)
    Territories.without_geometry_recursive_part
  = [Territories.AsGeoJSON territories_data.c.geometry;
     Territories.AsGeoJSON territories_data.c.centre_point]
  /\ filter (fun s => Territories.selects_geometry s = true)
       Territories.without_geometry_cte_columns = []
  /\ filter (fun s => Territories.selects_geometry s = true)
       Territories.without_geometry_children_columns = []
  /\ Territories.territories_without_geometry_by_parent_statement 1 true
     = Raise ArgumentError
  /\ Territories.get_territories_without_geometry_by_parent_id_from_db
       Sample.ST_AsGeoJSON 5 Sample.hierarchy 1 true
     = Some (Raise ArgumentError).
Proof. repeat split; vm_compute; reflexivity. Qed.

(** Territory 1 has the child 2, which has the child 3: the keys that
    [.scalars()] yields for the recursive statement, and the outcome of the
    two listings. *)
Example listing_of_sample_hierarchy :
  Territories.scalars
    <$> Territories.execute Sample.ST_AsGeoJSON 5 (Territories.territories Sample.hierarchy)
          (Territories.Recursive
             {| Territories.seed := Territories.children 1;
                Territories.recursive_part := Territories.with_geometry |} [])
  = Some [Territories.Int 2; Territories.Int 3]
  /\ Territories.get_territories_by_parent_id_from_db Sample.ST_AsGeoJSON 5
       Sample.hierarchy 1 true None = Some (Raise TypeError)
  /\ Territories.get_territories_by_parent_id_from_db Sample.ST_AsGeoJSON 5
       Sample.hierarchy 1 false None = Some (Raise TypeError).
Proof. repeat split; vm_compute; reflexivity. Qed.

Lemma recursive_statement_rows_witness :
  exists fuel statement rest,
    Territories.territories_by_parent_statement 1 true None = Ok statement
    /\ Territories.execute Sample.ST_AsGeoJSON fuel
         (Territories.territories Sample.hierarchy) statement
       = Some (map (Territories.project Sample.ST_AsGeoJSON Territories.with_geometry)
                 (Territories.select_rows (Territories.territories Sample.hierarchy)
                    (Territories.children 1) ++ rest)).
Proof.
  destruct (recursive_statement_rows Sample.ST_AsGeoJSON
              (Territories.territories Sample.hierarchy) 1
              (fun r => Z.to_nat (territories_data.territory_id r)))
    as (fuel & statement & rest & Hstatement & _ & Hrows & _).
  - discriminate.
  - intros r q Hr Hq. simpl in Hr, Hq.
    destruct Hr as [<-|[<-|[<-|[]]]]; destruct Hq as [<-|[<-|[<-|[]]]];
      simpl; intros Hparent; try discriminate; lia.
  - exists fuel, statement, rest. split; [exact Hstatement|exact Hrows].
Defined.

(** *** add_territory_to_db *)

(** C3, as stated, fails: the store is empty and the parent id 1 names no
    territory of it, but 1 is the id the insert generates, so that the check
    after the insert finds the new row: no error is raised and the store
    has one more territory, which is its own parent. *)
Lemma add_territory_own_id_as_parent :
  Territories.territories (Territories.tables (Sample.session Sample.empty_db)) = []
  /\ Territories.post_parent_id (Sample.post (Some 1)) = Some 1
  /\ is_not_found
       (Territories.add_territory_to_db Sample.ST_AsGeoJSON Sample.store
          (Sample.post (Some 1)) (Sample.session Sample.empty_db)).1 = false
  /\ (Territories.dto_parent_id <$>
        (Territories.add_territory_to_db Sample.ST_AsGeoJSON Sample.store
           (Sample.post (Some 1)) (Sample.session Sample.empty_db)).1,
      Territories.dto_territory_id <$>
        (Territories.add_territory_to_db Sample.ST_AsGeoJSON Sample.store
           (Sample.post (Some 1)) (Sample.session Sample.empty_db)).1)
     = (Ok (Territories.Int 1), Ok (Territories.Int 1))
  /\ length
       (Territories.territories
          (Territories.committed
             (Territories.add_territory_to_db Sample.ST_AsGeoJSON Sample.store
                (Sample.post (Some 1)) (Sample.session Sample.empty_db)).2))
     = 1%nat.
Proof. repeat split; vm_compute; reflexivity. Qed.

Lemma add_territory_missing_parent_witness :
  (Territories.add_territory_to_db Sample.ST_AsGeoJSON Sample.store
     (Sample.post (Some 5)) (Sample.session Sample.hierarchy)).1
  = Raise (HTTPException 404 "Given parent_id is not found")
  /\ Territories.territories
       (Territories.committed
          (Territories.add_territory_to_db Sample.ST_AsGeoJSON Sample.store
             (Sample.post (Some 5)) (Sample.session Sample.hierarchy)).2)
     = Territories.territories Sample.hierarchy.
Proof.
  destruct (add_territory_missing_parent Sample.ST_AsGeoJSON Sample.store
              (Sample.post (Some 5)) (Sample.session Sample.hierarchy) 5
              Sample.square Sample.point)
    as (_ & Hresult & _ & Hcommitted & _).
  - reflexivity.
  - reflexivity.
  - reflexivity.
  - discriminate.
  - intros r Hr. simpl in Hr. destruct Hr as [<-|[<-|[<-|[]]]]; discriminate.
  - discriminate.
  - intros r Hr. simpl in Hr. destruct Hr as [<-|[<-|[<-|[]]]]; reflexivity.
  - split; [exact Hresult|exact Hcommitted].
Defined.

(** *** get_services_capacity_by_territory_id_from_db *)

(** C8, as stated, fails: territory 1 exists and its one service has the
    capacity 10, so that the unfiltered sum is 10; without a service type the
    comparison is [service_type_id IS NULL], which the service, of type 1,
    does not satisfy, and the result is null. *)
Lemma capacity_without_type_is_filtered :
  Territories.is_found Sample.ST_AsGeoJSON Sample.hierarchy 1 = true
  /\ Territories.unfiltered_capacity Sample.hierarchy 1 = Some 10
  /\ Territories.get_services_capacity_by_territory_id_from_db Sample.ST_AsGeoJSON
       Sample.hierarchy 1 None = Ok None
  /\ Territories.get_services_capacity_by_territory_id_from_db Sample.ST_AsGeoJSON
       Sample.hierarchy 1 (Some 1) = Ok (Some 10).
Proof. repeat split; vm_compute; reflexivity. Qed.

Lemma capacity_without_type_keeps_untyped_services_witness :
  Territories.get_services_capacity_by_territory_id_from_db Sample.ST_AsGeoJSON
    Sample.hierarchy 1 None = Ok None.
Proof.
  destruct (capacity_without_type_keeps_untyped_services Sample.ST_AsGeoJSON
              Sample.hierarchy 1 (Sample.territory 1 None))
    as [_ Htyped].
  - discriminate.
  - left. reflexivity.
  - reflexivity.
  - apply Htyped. intros s Hs. vm_compute in Hs.
    destruct Hs as [<-|[]]. discriminate.
Defined.

Lemma listing_with_children_raises_type_error_witness :
  Territories.get_territories_by_parent_id_from_db Sample.ST_AsGeoJSON 5
    Sample.hierarchy 1 false None = Some (Raise TypeError).
Proof.
  apply (listing_with_children_raises_type_error Sample.ST_AsGeoJSON 5 Sample.hierarchy 1
           (Sample.territory 1 None) (Sample.territory 2 (Some 1))).
  - discriminate.
  - left. reflexivity.
  - reflexivity.
  - right. left. reflexivity.
  - reflexivity.
Defined.

Lemma root_listing_returns_no_set_witness :
  Territories.get_territories_by_parent_id_from_db Sample.ST_AsGeoJSON 5
    Sample.rooted 0 true None = Some (Raise TypeError)
  /\ Territories.get_territories_by_parent_id_from_db Sample.ST_AsGeoJSON 5
       Sample.rooted 0 false None = Some (Raise TypeError).
Proof.
  destruct (root_listing_returns_no_set Sample.ST_AsGeoJSON 5 5 Sample.rooted None
              (Sample.territory 1 (Some 0)))
    as (_ & Hall_levels & Hchildren).
  - left. reflexivity.
  - reflexivity.
  - discriminate.
  - split; [exact Hall_levels|exact Hchildren].
Defined.

Lemma without_geometry_recursive_listing_fails_witness :
  Territories.get_territories_without_geometry_by_parent_id_from_db Sample.ST_AsGeoJSON 5
    Sample.hierarchy 1 true = Some (Raise ArgumentError).
Proof.
  apply (without_geometry_recursive_listing_fails Sample.ST_AsGeoJSON 5 Sample.hierarchy 1
           (Sample.territory 1 None)).
  - discriminate.
  - left. reflexivity.
  - reflexivity.
Defined.

Lemma listing_of_missing_parent_is_not_found_witness :
  Territories.get_territories_by_parent_id_from_db Sample.ST_AsGeoJSON 5
    Sample.hierarchy 9 true None
  = Some (Raise (HTTPException 404 "Given parent id is not found")).
Proof.
  apply (listing_of_missing_parent_is_not_found Sample.ST_AsGeoJSON 5 Sample.hierarchy 9
           true None).
  - discriminate.
  - intros r Hr. simpl in Hr. destruct Hr as [<-|[<-|[<-|[]]]]; discriminate.
Defined.

Lemma get_territory_by_id_not_found_witness :
  Territories.get_territory_by_id_from_db Sample.ST_AsGeoJSON Sample.hierarchy 9
  = Raise (HTTPException 404 "Given id is not found").
Proof.
  apply (get_territory_by_id_not_found Sample.ST_AsGeoJSON Sample.hierarchy 9).
  intros r Hr. simpl in Hr. destruct Hr as [<-|[<-|[<-|[]]]]; discriminate.
Defined.

(** *** Feature constructors *)

Lemma constructors_agree_witness :
  Feature.from_dict Sample.json_loads Sample.null_geometry_row "geometry" true
  = Feature.from_row Sample.json_loads Sample.null_geometry_row "geometry" true.
Proof.
  destruct (constructors_agree Sample.json_loads Sample.null_geometry_row "geometry" true)
    as [Hdict _].
  - left. reflexivity.
  - exact Hdict.
Defined.

Lemma feature_shape_witness :
  Feature.properties Sample.feature !! "geometry" = None
  /\ Feature.properties Sample.feature !! "height" = Some PyNone.
Proof.
  destruct (feature_shape Sample.json_loads Sample.feature_row "geometry" true
              Sample.feature) as (_ & Hcolumn & Hothers).
  - left. vm_compute. reflexivity.
  - split; [exact Hcolumn|]. apply Hothers.
    split; [discriminate|]. split; [reflexivity|discriminate].
Defined.

(** An iterator whose first item is a [Row] and whose second is a dict with
    a null geometry: the dict is read by [from_row], which the item taken
    chose, where the sequence of the dict alone is read by [from_dict]. *)
Example from_list_first_item_chooses :
  GeoJSONResponse.from_list Sample.json_loads Ok
    (GeoJSONResponse.Iterator
       [GeoJSONResponse.Row Sample.feature_row;
        GeoJSONResponse.Mapping Sample.null_geometry_row])
    "geometry" Crs.crs_4326 false
  = Raise ValidationError
  /\ GeoJSONResponse.from_list Sample.json_loads Ok
       (GeoJSONResponse.Sequence [GeoJSONResponse.Mapping Sample.null_geometry_row])
       "geometry" Crs.crs_4326 false
     = Raise (KeyError "geometry")
  /\ GeoJSONResponse.features
     <$> GeoJSONResponse.from_list Sample.json_loads Ok
           (GeoJSONResponse.Sequence
              [GeoJSONResponse.Row Sample.feature_row;
               GeoJSONResponse.Mapping Sample.feature_row])
           "geometry" Crs.crs_4326 true
     = Ok [Sample.feature; Sample.feature].
Proof. repeat split; vm_compute; reflexivity. Qed.

(** *** Creation and cycles of territories *)

Lemma add_territory_then_get_witness :
  Territories.dto_territory_id <$>
    (Territories.add_territory_to_db Sample.ST_AsGeoJSON Sample.store
       (Sample.post (Some 1)) (Sample.session Sample.hierarchy)).1
  = Ok (Territories.Int 4)
  /\ length
       (Territories.territories
          (Territories.committed
             (Territories.add_territory_to_db Sample.ST_AsGeoJSON Sample.store
                (Sample.post (Some 1)) (Sample.session Sample.hierarchy)).2))
     = 4%nat.
Proof.
  destruct (add_territory_then_get Sample.ST_AsGeoJSON Sample.store
              (Sample.post (Some 1)) (Sample.session Sample.hierarchy) 1
              Sample.square Sample.point)
    as (Hresult & _ & _ & Hcommitted & _).
  - reflexivity.
  - reflexivity.
  - intros r Hr. simpl in Hr. destruct Hr as [<-|[<-|[<-|[]]]]; reflexivity.
  - reflexivity.
  - right. right. exists (Sample.territory 1 None). split; [left|]; reflexivity.
  - rewrite Hresult, Hcommitted. split; reflexivity.
Defined.

Lemma add_territory_without_parent_is_not_found_witness :
  (Territories.add_territory_to_db Sample.ST_AsGeoJSON Sample.store
     (Sample.post None) (Sample.session Sample.hierarchy)).1
  = Raise (HTTPException 404 "Given parent_id is not found")
  /\ Territories.territories
       (Territories.committed
          (Territories.add_territory_to_db Sample.ST_AsGeoJSON Sample.store
             (Sample.post None) (Sample.session Sample.hierarchy)).2)
     = Territories.territories Sample.hierarchy.
Proof.
  destruct (add_territory_without_parent_is_not_found Sample.ST_AsGeoJSON Sample.store
              (Sample.post None) (Sample.session Sample.hierarchy)
              Sample.square Sample.point)
    as (Hresult & _ & Hcommitted).
  - reflexivity.
  - reflexivity.
  - intros r Hr. simpl in Hr. destruct Hr as [<-|[<-|[<-|[]]]]; reflexivity.
  - reflexivity.
  - split; [exact Hresult|exact Hcommitted].
Defined.

Lemma listing_below_a_cycle_never_ends_witness :
  Territories.get_territories_by_parent_id_from_db Sample.ST_AsGeoJSON 1000
    Sample.cyclic 1 true None = None.
Proof.
  apply (listing_below_a_cycle_never_ends Sample.ST_AsGeoJSON
           (fun r => In r (Territories.territories Sample.cyclic))
           Sample.cyclic 1 None (Sample.territory 2 (Some 1))).
  - discriminate.
  - exists (Sample.territory 1 (Some 2)). split; [left|]; reflexivity.
  - intros w [<-|[<-|[]]].
    + exists (Sample.territory 2 (Some 1)).
      split; [right; left; reflexivity|]. split; [right; left; reflexivity|reflexivity].
    + exists (Sample.territory 1 (Some 2)).
      split; [left; reflexivity|]. split; [left; reflexivity|reflexivity].
  - right. left. reflexivity.
  - reflexivity.
  - right. left. reflexivity.
Defined.

Lemma recursive_type_filter_is_a_cross_join_witness :
  exists filtered,
    Territories.territories_by_parent_statement 1 true (Some 1) = Ok filtered
    /\ length <$> Territories.execute Sample.ST_AsGeoJSON 5
                    (Territories.territories Sample.hierarchy) filtered
       = Some 6%nat.
Proof.
  exists (Territories.Recursive
            {| Territories.seed := Territories.children 1;
               Territories.recursive_part := Territories.with_geometry |}
            [Territories.territory_type_id_eq 1]).
  split; [reflexivity|].
  destruct (recursive_type_filter_is_a_cross_join Sample.ST_AsGeoJSON 5
              (Territories.territories Sample.hierarchy) 1 1
              (Territories.Recursive
                 {| Territories.seed := Territories.children 1;
                    Territories.recursive_part := Territories.with_geometry |} [])
              (Territories.Recursive
                 {| Territories.seed := Territories.children 1;
                    Territories.recursive_part := Territories.with_geometry |}
                 [Territories.territory_type_id_eq 1])
              (map (Territories.project Sample.ST_AsGeoJSON Territories.with_geometry)
                 [Sample.territory 2 (Some 1); Sample.territory 3 (Some 2)]))
    as (Hrows & _).
  - discriminate.
  - reflexivity.
  - reflexivity.
  - vm_compute. reflexivity.
  - rewrite Hrows. vm_compute. reflexivity.
Defined.

(** *** A creation undone, a patch of the geometry *)

Lemma post_then_delete_restores_witness :
  Projects.committed
    (Projects.delete_project_from_db 2
       (Projects.post_project_to_db Sample.store 8 2 300 300 Sample.project_post
          (Projects.connect Sample.projects_db)).2).2
  = Sample.projects_db.
Proof.
  destruct (post_then_delete_restores Sample.store 8 2 300 300 Sample.project_post
              (Projects.connect Sample.projects_db) Sample.square Sample.point)
    as (_ & _ & Hcommitted & _).
  - exact sample_projects_consistent.
  - reflexivity.
  - reflexivity.
  - reflexivity.
  - reflexivity.
  - reflexivity.
  - intros r [<-|[]]. discriminate.
  - intros t [<-|[]]. discriminate.
  - right. left. reflexivity.
  - exact Hcommitted.
Defined.

Lemma patch_geometry_only_witness :
  Projects.projects_territory
    (Projects.tables
       (Projects.patch_project_to_db Sample.store 200
          (Projects.territory_only (Some (Projects.only_geometry Sample.point))) 1
          (Projects.connect Sample.projects_db)).2)
  = [{| projects_territory_data.project_territory_id := 7;
        projects_territory_data.parent_id := None;
        projects_territory_data.geometry := Sample.point;
        projects_territory_data.centre_point := Sample.point;
        projects_territory_data.properties := PyDict ∅ |}].
Proof.
  destruct (patch_geometry_only Sample.store 200 Sample.point Sample.point
              (Projects.connect Sample.projects_db) Sample.project)
    as (_ & _ & Hterritory & _).
  - apply NoDup_singleton.
  - left. reflexivity.
  - reflexivity.
  - exact Hterritory.
Defined.

(** *** Capacity *)

Lemma capacity_is_null_without_capacities_witness :
  Territories.get_services_capacity_by_territory_id_from_db Sample.ST_AsGeoJSON
    Sample.hierarchy 1 (Some 2) = Ok None.
Proof.
  apply (capacity_is_null_without_capacities Sample.ST_AsGeoJSON Sample.hierarchy 1 (Some 2)).
  - reflexivity.
  - intros s Hs. vm_compute in Hs. destruct Hs as [<-|[]]. discriminate.
Defined.
